(** * SkillSprint backend (backend/server.js): request dispatcher, reflection
    workflow, sprint and user administration, upload file server.

    The server is one [http.createServer] callback: a chain of
    [if / else if] tests on the method and the path of the request, each
    branch issuing SQL through [connection.query] and answering through
    [sendResponse].  The embedding keeps that shape:

    - JavaScript values of a decoded request body are [json] values, a
      missing property is [None] ([undefined]); numbers are integers and
      strings are sequences of code units below 256;
    - the MySQL tables are lists of records, one record type per table;
      each SQL statement of the source is a function on the tables that
      says what the statement does when the engine accepts it;
    - the engine may refuse a statement (a lost connection, a violated
      foreign key, a missing column): the [faults] of a [world] list, for
      the statements to come, the error code of each refusal;
    - a handler is a function in a small state monad over the [world];
    - the answer is an [outcome]: a [response] or no response at all;
    - the file system, the clock, the working directory and bcrypt are the
      fields of a [runtime]. *)

From Stdlib Require Import ZArith List String Ascii Bool Lia.
From Stdlib Require DecimalString.
From Stdlib Require Import Sorting.Permutation Sorting.Sorted.
Import ListNotations.

Set Warnings "-register-all".

Local Open Scope string_scope.
Local Open Scope Z_scope.

(* ================================================================== *)
(** ** Strings as the runtime sees them *)
(* ================================================================== *)

(** Characters are code units below 256 (Latin-1). *)

Module Str.

Definition code (c : ascii) : Z := Z.of_nat (nat_of_ascii c).

Definition chars (s : string) : list ascii := list_ascii_of_string s.
Definition of_chars (l : list ascii) : string := string_of_list_ascii l.

(** [String.prototype.toLowerCase] on Latin-1 code units. *)
Definition lower_char (c : ascii) : ascii :=
  let n := code c in
  if ((65 <=? n) && (n <=? 90))
     || ((192 <=? n) && (n <=? 214))
     || ((216 <=? n) && (n <=? 222))
  then ascii_of_nat (nat_of_ascii c + 32)
  else c.

Definition toLowerCase (s : string) : string :=
  of_chars (map lower_char (chars s)).

(** WhiteSpace and LineTerminator code units below 256:
    TAB, LF, VT, FF, CR, SP, NBSP. *)
Definition is_space (c : ascii) : bool :=
  let n := code c in
  ((9 <=? n) && (n <=? 13)) || (n =? 32) || (n =? 160).

Fixpoint drop_while (p : ascii -> bool) (l : list ascii) : list ascii :=
  match l with
  | [] => []
  | c :: r => if p c then drop_while p r else l
  end.

Definition drop_while_end (p : ascii -> bool) (l : list ascii) : list ascii :=
  rev (drop_while p (rev l)).

(** [String.prototype.trim]. *)
Definition trim (s : string) : string :=
  of_chars (drop_while_end is_space (drop_while is_space (chars s))).

Definition is_slash (c : ascii) : bool := Ascii.eqb c "/".

(** [s.replace(/^\/+|\/+$/g, "")]: the leading and the trailing run of
    slashes are removed. *)
Definition strip_slashes (s : string) : string :=
  of_chars (drop_while_end is_slash (drop_while is_slash (chars s))).

(** [s.split(sep)] for a one-character separator; the result is never
    empty: the empty string splits into one empty segment. *)
Fixpoint split_chars (sep : ascii) (cur : list ascii) (l : list ascii)
  : list string :=
  match l with
  | [] => [of_chars (rev cur)]
  | c :: r =>
      if Ascii.eqb c sep
      then of_chars (rev cur) :: split_chars sep [] r
      else split_chars sep (c :: cur) r
  end.

Definition split (sep : ascii) (s : string) : list string :=
  split_chars sep [] (chars s).

(** [l.join(sep)]. *)
Fixpoint join (sep : string) (l : list string) : string :=
  match l with
  | [] => ""
  | [x] => x
  | x :: r => x ++ sep ++ join sep r
  end.

Fixpoint is_prefix (p l : list ascii) : bool :=
  match p, l with
  | [], _ => true
  | _ :: _, [] => false
  | a :: p', b :: l' => Ascii.eqb a b && is_prefix p' l'
  end.

(** [s.startsWith(p)]. *)
Definition startsWith (s p : string) : bool := is_prefix (chars p) (chars s).

Fixpoint includes_chars (p l : list ascii) : bool :=
  is_prefix p l
  || match l with
     | [] => false
     | _ :: r => includes_chars p r
     end.

(** [s.includes(p)]. *)
Definition includes (s p : string) : bool := includes_chars (chars p) (chars s).

(** [s.replace(p, "")] for a literal pattern: the first occurrence is
    removed. *)
Fixpoint remove_first (p l : list ascii) : list ascii :=
  if is_prefix p l then skipn (List.length p) l
  else match l with
       | [] => []
       | c :: r => c :: remove_first p r
       end.

Definition removeFirst (s p : string) : string :=
  of_chars (remove_first (chars p) (chars s)).

(** Decimal form of an integer, as [Number.prototype.toString] prints an
    integer below [10^21]. *)
Definition of_Z (n : Z) : string := DecimalString.NilZero.string_of_int (Z.to_int n).

End Str.

(* ================================================================== *)
(** ** JavaScript values *)
(* ================================================================== *)

(** The result of [JSON.parse].  Numbers are integers in this model. *)
Inductive json : Type :=
| JNull
| JBool (b : bool)
| JNum (n : Z)
| JStr (s : string)
| JArr (items : list json)
| JObj (fields : list (string * json)).

(** A value that may be [undefined]. *)
Definition jsval : Type := option json.

(** A number: [NaN] or an integer. *)
Inductive jsnum : Type :=
| NaN
| Num (n : Z).

Fixpoint assoc (k : string) (fs : list (string * json)) : jsval :=
  match fs with
  | [] => None
  | (k', v) :: r => if String.eqb k k' then Some v else assoc k r
  end.

(** [v.k] for a [v] that is not [null]: only objects carry the properties
    the handlers read. *)
Definition prop (v : json) (k : string) : jsval :=
  match v with
  | JObj fs => assoc k fs
  | _ => None
  end.

(** ToBoolean. *)
Definition truthy (v : jsval) : bool :=
  match v with
  | None => false
  | Some JNull => false
  | Some (JBool b) => b
  | Some (JNum n) => negb (n =? 0)
  | Some (JStr s) => negb (String.eqb s "")
  | Some (JArr _) => true
  | Some (JObj _) => true
  end.

Definition is_undefined (v : jsval) : bool :=
  match v with
  | None => true
  | Some _ => false
  end.

(** [v || null]. *)
Definition or_null (v : jsval) : json :=
  match v with
  | Some j => if truthy v then j else JNull
  | None => JNull
  end.

(** A destructuring default [{ k = d }]: used when the property is
    [undefined]. *)
Definition with_default (v : jsval) (d : json) : json :=
  match v with
  | Some j => j
  | None => d
  end.

Definition is_digit (c : ascii) : bool :=
  let n := Str.code c in (48 <=? n) && (n <=? 57).

Definition digit_val (c : ascii) : Z := Str.code c - 48.

Fixpoint digits_prefix (l : list ascii) : list ascii :=
  match l with
  | [] => []
  | c :: r => if is_digit c then c :: digits_prefix r else []
  end.

Definition digits_value (l : list ascii) : Z :=
  fold_left (fun acc c => 10 * acc + digit_val c) l 0.

(** [parseInt(s, 10)] on a string: leading white space is skipped, one
    sign is read, then the longest run of decimal digits; no digit gives
    [NaN]. *)
Definition parseInt_str (s : string) : jsnum :=
  let l := Str.drop_while Str.is_space (Str.chars s) in
  let '(neg, l') :=
    match l with
    | c :: r =>
        if Ascii.eqb c "-" then (true, r)
        else if Ascii.eqb c "+" then (false, r)
        else (false, l)
    | [] => (false, l)
    end in
  match digits_prefix l' with
  | [] => NaN
  | ds => Num (if neg then - digits_value ds else digits_value ds)
  end.

(** ToString of a value. *)
Fixpoint toString (v : json) : string :=
  match v with
  | JNull => "null"
  | JBool true => "true"
  | JBool false => "false"
  | JNum n => Str.of_Z n
  | JStr s => s
  | JArr l =>
      Str.join ","
        (map (fun e => match e with JNull => "" | _ => toString e end) l)
  | JObj _ => "[object Object]"
  end.

(** [parseInt(v, 10)] on any value. *)
Definition parseInt (v : jsval) : jsnum :=
  match v with
  | None => NaN
  | Some j => parseInt_str (toString j)
  end.

Definition num_isNaN (x : jsnum) : bool :=
  match x with
  | NaN => true
  | Num _ => false
  end.

(** [x * 60], [x <= 0], [x > k] on numbers: every comparison with [NaN]
    is false. *)
Definition num_mul (x : jsnum) (k : Z) : jsnum :=
  match x with
  | NaN => NaN
  | Num n => Num (n * k)
  end.

Definition num_le (x : jsnum) (k : Z) : bool :=
  match x with
  | NaN => false
  | Num n => n <=? k
  end.

Definition num_gt (x : jsnum) (k : Z) : bool :=
  match x with
  | NaN => false
  | Num n => k <? n
  end.

Definition num_lt (x : jsnum) (k : Z) : bool :=
  match x with
  | NaN => false
  | Num n => n <? k
  end.

(** ToNumber of a value, on integer numerals: a string is trimmed, the
    empty string is [0], an optional sign and decimal digits up to the end
    give the integer, anything else is [NaN]. *)
Definition toNumber_str (s : string) : jsnum :=
  let t := Str.trim s in
  if String.eqb t "" then Num 0
  else
    let l := Str.chars t in
    let '(neg, l') :=
      match l with
      | c :: r =>
          if Ascii.eqb c "-" then (true, r)
          else if Ascii.eqb c "+" then (false, r)
          else (false, l)
      | [] => (false, l)
      end in
    match l' with
    | [] => NaN
    | _ =>
        if forallb is_digit l'
        then Num (if neg then - digits_value l' else digits_value l')
        else NaN
    end.

Definition toNumber (v : json) : jsnum :=
  match v with
  | JNull => Num 0
  | JBool true => Num 1
  | JBool false => Num 0
  | JNum n => Num n
  | JStr s => toNumber_str s
  | JArr [] => Num 0
  | JArr [JNum n] => Num n
  | JArr [JStr s] => toNumber_str s
  | JArr _ => NaN
  | JObj _ => NaN
  end.

(* ================================================================== *)
(** ** Requests, responses, runtime *)
(* ================================================================== *)

(** What the callback reads of a request: [req.method],
    [url.parse(req.url).pathname], the two headers it looks at and the
    result of [JSON.parse(buffer)] ([None] when it throws). *)
Record request : Type := mkRequest {
  req_method : string;
  req_pathname : string;
  req_x_user_id : option string;
  req_range : option string;
  req_body : option json
}.

Inductive body : Type :=
| BJson (j : json)          (* res.end(JSON.stringify(data)) *)
| BText (s : string)        (* res.end(text) *)
| BBytes (s : string)       (* a file, or a byte span of it, piped *)
| BEmpty                    (* res.end() *)
| BAborted.                 (* the head was written, the stream failed *)

Record response : Type := mkResponse {
  status : Z;
  headers : list (string * string);
  rbody : body
}.

(** A handler answers, or an exception or a rejected promise escapes the
    callback and nothing is sent. *)
Inductive outcome : Type :=
| Responded (r : response)
| NoResponse.

Inductive fsnode : Type :=
| File (content : string)
| Directory.

(** What lies outside the program: the working directory of the process
    (its absolute path, as segments), the file system (absolute path to
    node), the clock read by [NOW()], and the bcrypt library. *)
Record runtime : Type := mkRuntime {
  cwd : list string;
  fs : list string -> option fsnode;
  now : Z;
  bcrypt_compare : string -> string -> bool;
  bcrypt_hash : string -> string
}.

(** [sendResponse(statusCode, data)]. *)
Definition sendResponse (statusCode : Z) (data : json) : outcome :=
  Responded (mkResponse statusCode [("Content-Type", "application/json")]
               (BJson data)).

(** [{ error: msg }] and [{ message: msg }]. *)
Definition err (msg : string) : json := JObj [("error", JStr msg)].
Definition msg (m : string) : json := JObj [("message", JStr m)].

(** [res.writeHead(204); res.end()]. *)
Definition noContent : outcome := Responded (mkResponse 204 [] BEmpty).

(* ================================================================== *)
(** ** Paths ([path.join], [path.extname]) *)
(* ================================================================== *)

(** A path is the list of its segments.  [path.join] concatenates and
    normalises: empty and ["."] segments vanish, [".."] removes the
    segment before it (at the root it vanishes). *)
Fixpoint normalize_acc (acc : list string) (l : list string) : list string :=
  match l with
  | [] => List.rev acc
  | seg :: r =>
      if String.eqb seg "" || String.eqb seg "." then normalize_acc acc r
      else if String.eqb seg ".." then normalize_acc (List.tl acc) r
      else normalize_acc (seg :: acc) r
  end.

Definition path_join (base rel : list string) : list string :=
  normalize_acc [] (base ++ rel).

(** [const UPLOADS_DIR = path.join(path.resolve(), 'uploads')]. *)
Definition UPLOADS_DIR (rt : runtime) : list string :=
  path_join (cwd rt) ["uploads"].

(** [const FRONTEND_DIR = path.join(path.resolve(), '../frontend/dist')]. *)
Definition FRONTEND_DIR (rt : runtime) : list string :=
  path_join (cwd rt) [".."; "frontend"; "dist"].

(** [p] lies under [root]: [root] is a proper prefix of it. *)
Fixpoint under (root p : list string) : bool :=
  match root, p with
  | [], _ :: _ => true
  | [], [] => false
  | _ :: _, [] => false
  | a :: root', b :: p' => String.eqb a b && under root' p'
  end.

Fixpoint last_dot (cur : option (list ascii)) (l : list ascii)
  : option (list ascii) :=
  match l with
  | [] => cur
  | c :: r => if Ascii.eqb c "." then last_dot (Some l) r else last_dot cur r
  end.

(** [path.extname] of a file name: from the last dot on, empty when there
    is no dot or the only dot starts the name. *)
Definition extname_of (name : string) : string :=
  match Str.chars name with
  | [] => ""
  | c :: r =>
      match last_dot None r with
      | Some e => if String.eqb name ".." then "" else Str.of_chars e
      | None => ""
      end
  end.

Definition extname (p : list string) : string :=
  extname_of (List.last p "").

(* ================================================================== *)
(** ** The database *)
(* ================================================================== *)

(** One record per table.  A column filled from the request body holds
    the value as it was bound; key columns are integers. *)

Record user_row : Type := mkUser {
  u_id : Z;
  u_name : json;
  u_email : json;
  u_password : string;
  u_role : option string;        (* NULL or a role *)
  u_streak_days : Z;
  u_created_at : Z
}.

Record sprint_row : Type := mkSprint {
  s_id : Z;
  s_title : json;
  s_description : json;
  s_video_url : json;
  s_max_duration_seconds : Z;
  s_is_active : Z;
  s_thumbnail_url : json;
  s_created_at : Z
}.

Record lesson_row : Type := mkLesson {
  l_id : Z;
  l_title : json;
  l_code_snippet : json;
  l_description : json;
  l_challenge : json;
  l_reflection : json;
  l_skill_category_id : json;
  l_skill_category : json;
  l_level : json;
  l_created_at : Z
}.

Record category_row : Type := mkCategory {
  c_id : Z;
  c_name : json
}.

Record progress_row : Type := mkProgress {
  p_user_id : Z;
  p_sprint_id : Z;
  p_progress_percentage : json;
  p_is_completed : Z
}.

Record note_row : Type := mkNote {
  n_user_id : Z;
  n_content_type : string;
  n_content_id : string;
  n_note_text : json
}.

Record reflection_row : Type := mkReflection {
  r_id : Z;
  r_user_id : Z;
  r_lesson_id : Z;
  r_reflection_text : json;
  r_status : string;
  r_score : json;
  r_admin_feedback : json;
  r_submitted_at : option Z;
  r_marked_at : option Z;
  r_created_at : Z;
  r_updated_at : Z
}.

Record time_row : Type := mkTime {
  t_user_id : Z;
  t_time_spent_minutes : Z;
  t_last_updated : Z
}.

(** The tables, and the failures the engine will report: the [n]th query
    of a request fails with [code] when the [n]th entry is [Some code]
    (a lost connection, a violated constraint, a missing column). *)
Record world : Type := mkWorld {
  users : list user_row;
  sprints : list sprint_row;
  lessons : list lesson_row;
  categories : list category_row;
  progress : list progress_row;
  notes : list note_row;
  reflections : list reflection_row;
  learning_time : list time_row;
  faults : list (option string)
}.

Definition set_users (l : list user_row) (w : world) : world :=
  mkWorld l (sprints w) (lessons w) (categories w) (progress w) (notes w)
    (reflections w) (learning_time w) (faults w).
Definition set_sprints (l : list sprint_row) (w : world) : world :=
  mkWorld (users w) l (lessons w) (categories w) (progress w) (notes w)
    (reflections w) (learning_time w) (faults w).
Definition set_lessons (l : list lesson_row) (w : world) : world :=
  mkWorld (users w) (sprints w) l (categories w) (progress w) (notes w)
    (reflections w) (learning_time w) (faults w).
Definition set_categories (l : list category_row) (w : world) : world :=
  mkWorld (users w) (sprints w) (lessons w) l (progress w) (notes w)
    (reflections w) (learning_time w) (faults w).
Definition set_progress (l : list progress_row) (w : world) : world :=
  mkWorld (users w) (sprints w) (lessons w) (categories w) l (notes w)
    (reflections w) (learning_time w) (faults w).
Definition set_notes (l : list note_row) (w : world) : world :=
  mkWorld (users w) (sprints w) (lessons w) (categories w) (progress w) l
    (reflections w) (learning_time w) (faults w).
Definition set_reflections (l : list reflection_row) (w : world) : world :=
  mkWorld (users w) (sprints w) (lessons w) (categories w) (progress w)
    (notes w) l (learning_time w) (faults w).
Definition set_faults (l : list (option string)) (w : world) : world :=
  mkWorld (users w) (sprints w) (lessons w) (categories w) (progress w)
    (notes w) (reflections w) (learning_time w) l.

(** The tables of a world, without the failures to come. *)
Definition tables (w : world) : world := set_faults [] w.

(** *** The monad of handlers *)

Definition M (A : Type) : Type := world -> A * world.

Definition ret {A} (a : A) : M A := fun w => (a, w).

Definition bind {A B} (m : M A) (k : A -> M B) : M B :=
  fun w => let (a, w') := m w in k a w'.

Notation "x <- m ;; k" := (bind m (fun x => k))
  (at level 61, m at next level, right associativity).

(** The two arguments of a [connection.query] callback: an error (its
    [code]) or the result. *)
Inductive qres (A : Type) : Type :=
| QErr (code : string)
| QOk (a : A).
Arguments QErr {A} code.
Arguments QOk {A} a.

(** [connection.query(sql, params, callback)]: the next entry of [faults]
    is consumed; a failure leaves the tables as they are. *)
Definition query {A} (run : world -> qres A * world) : M (qres A) :=
  fun w =>
    match faults w with
    | Some code :: rest => (QErr code, set_faults rest w)
    | None :: rest => run (set_faults rest w)
    | [] => run w
    end.

(** A statement that reads. *)
Definition reads {A} (f : world -> A) : world -> qres A * world :=
  fun w => (QOk (f w), w).

(** *** Bound parameters *)

(** The integer a string denotes when MySQL compares it with, or stores
    it in, an integer column: its leading integer numeral, [0] without
    one. *)
Definition sql_int (s : string) : Z :=
  match parseInt_str s with
  | Num n => n
  | NaN => 0
  end.

(** The key a bound value denotes: none for [NULL] and for values that
    are not scalars. *)
Definition key_of (v : jsval) : option Z :=
  match v with
  | Some (JNum n) => Some n
  | Some (JStr s) => Some (sql_int s)
  | Some (JBool true) => Some 1
  | Some (JBool false) => Some 0
  | _ => None
  end.

Definition key_is (k : option Z) (id : Z) : bool :=
  match k with
  | Some n => id =? n
  | None => false
  end.

(** The text a bound value denotes in a character column. *)
Definition text_of (v : jsval) : option string :=
  match v with
  | Some (JStr s) => Some s
  | Some (JNum n) => Some (Str.of_Z n)
  | Some (JBool true) => Some "1"
  | Some (JBool false) => Some "0"
  | _ => None
  end.

(** [col = ?] on a column that holds a bound value. *)
Definition sql_eq (col : json) (v : jsval) : bool :=
  match col, v with
  | JStr a, Some (JStr b) => String.eqb a b
  | JNum a, Some (JNum b) => a =? b
  | _, _ => false
  end.

Definition stored (v : jsval) : json := with_default v JNull.

(** AUTO_INCREMENT: above every id of the table. *)
Definition fresh_id (ids : list Z) : Z := 1 + fold_right Z.max 0 ids.

Definition count {A} (p : A -> bool) (l : list A) : Z :=
  Z.of_nat (List.length (filter p l)).

(** ORDER BY: insertion sort, stable. *)
Fixpoint insert_by {A} (le : A -> A -> bool) (x : A) (l : list A) : list A :=
  match l with
  | [] => [x]
  | y :: r => if le x y then x :: l else y :: insert_by le x r
  end.

Definition sort_by {A} (le : A -> A -> bool) (l : list A) : list A :=
  fold_right (insert_by le) [] l.

Definition opt_json (o : option Z) : json :=
  match o with
  | Some n => JNum n
  | None => JNull
  end.

Definition role_json (o : option string) : json :=
  match o with
  | Some s => JStr s
  | None => JNull
  end.

(* ================================================================== *)
(** ** Authentication and authorization helpers *)
(* ================================================================== *)

(** [const userId = userIdHeader ? parseInt(userIdHeader, 10) : null]:
    [None] is [null]. *)
Definition userId (req : request) : option jsnum :=
  match req_x_user_id req with
  | Some h => if String.eqb h "" then None else Some (parseInt_str h)
  | None => None
  end.

(** [!userId], [isNaN(userId)], [userId <= 0] with [null] converted as
    JavaScript does ([null] is falsy, is not NaN, and is [0] in a
    comparison). *)
Definition uid_falsy (u : option jsnum) : bool :=
  match u with
  | None => true
  | Some NaN => true
  | Some (Num n) => n =? 0
  end.

Definition uid_isNaN (u : option jsnum) : bool :=
  match u with
  | None => false
  | Some x => num_isNaN x
  end.

Definition uid_le0 (u : option jsnum) : bool :=
  match u with
  | None => true
  | Some x => num_le x 0
  end.

(** [authenticate()]: its boolean result; the caller of a [false] has
    been answered [unauthenticated]. *)
Definition authenticate (u : option jsnum) : bool :=
  negb (uid_falsy u || uid_isNaN u || uid_le0 u).

Definition unauthenticated : outcome :=
  sendResponse 401
    (err "Authentication required. X-User-Id header is missing or invalid.").

(** The identity bound into the SQL of an authenticated handler. *)
Definition uid_value (u : option jsnum) : Z :=
  match u with
  | Some (Num n) => n
  | _ => 0
  end.

Definition forbidden : outcome := sendResponse 403 (err "Admin access required").

Definition is_admin_role (r : option string) : bool :=
  match r with
  | Some s => String.eqb s "admin"
  | None => false
  end.

(** [SELECT role FROM users WHERE id = ?]. *)
Definition select_role (uid : Z) (w : world) : list (option string) :=
  map u_role (filter (fun u => u_id u =? uid) (users w)).

(** [authorizeAdmin(callback)]. *)
Definition authorizeAdmin (uid : Z) (callback : M outcome) : M outcome :=
  r <- query (reads (select_role uid)) ;;
  match r with
  | QErr _ => ret forbidden
  | QOk [] => ret forbidden
  | QOk (role :: _) => if is_admin_role role then callback else ret forbidden
  end.

(** The decoded body when [JSON.parse] returned something that can be
    destructured; [None] stands for the exception caught by the handler's
    [catch] ([JSON.parse] threw, or it returned [null]). *)
Definition body_obj (req : request) : option json :=
  match req_body req with
  | Some JNull => None
  | b => b
  end.

(* ================================================================== *)
(** ** 1. Static files under /uploads *)
(* ================================================================== *)

Definition node_size (n : fsnode) : Z :=
  match n with
  | File c => Z.of_nat (String.length c)
  | Directory => 0
  end.

Definition num_str (x : jsnum) : string :=
  match x with
  | NaN => "NaN"
  | Num n => Str.of_Z n
  end.

Definition num_sub1 (a b : jsnum) : jsnum :=
  match a, b with
  | Num x, Num y => Num (x - y + 1)
  | _, _ => NaN
  end.

(** [fs.createReadStream(path, { start, end }).pipe(res)]: the bytes from
    [start] to [end] inclusive, as far as the file goes; a range that the
    stream refuses, or a directory, aborts after the head. *)
Definition read_span (n : fsnode) (a b : jsnum) : body :=
  match n, a, b with
  | File c, Num x, Num y =>
      if (0 <=? x) && (x <=? y)
      then BBytes (substring (Z.to_nat x) (Z.to_nat (y - x + 1)) c)
      else BAborted
  | _, _, _ => BAborted
  end.

Definition read_all (n : fsnode) : body :=
  match n with
  | File c => BBytes c
  | Directory => BAborted
  end.

Definition mime_of (p : list string) : string :=
  if String.eqb (Str.toLowerCase (extname p)) ".mp4"
  then "video/mp4" else "application/octet-stream".

Definition upload_path (rt : runtime) (pathSegments : list string)
  : list string :=
  path_join (UPLOADS_DIR rt) (List.tl pathSegments).

Definition file_not_found : outcome :=
  Responded (mkResponse 404 [("Content-Type", "text/plain")]
               (BText "File Not Found")).

Definition serve_upload (rt : runtime) (pathSegments : list string)
    (range : option string) : outcome :=
  let absoluteFilePath := upload_path rt pathSegments in
  match fs rt absoluteFilePath with
  | None => file_not_found
  | Some node =>
      let totalSize := node_size node in
      let mimeType := mime_of absoluteFilePath in
      match range with
      | Some r =>
          if String.eqb r "" then
            Responded (mkResponse 200
              [("Content-Length", Str.of_Z totalSize);
               ("Content-Type", mimeType)] (read_all node))
          else
            let parts := Str.split "-" (Str.removeFirst r "bytes=") in
            let start := parseInt_str (nth 0 parts "") in
            let end_ :=
              if String.eqb (nth 1 parts "") "" then Num (totalSize - 1)
              else parseInt_str (nth 1 parts "") in
            let chunkSize := num_sub1 end_ start in
            Responded (mkResponse 206
              [("Content-Range",
                "bytes " ++ num_str start ++ "-" ++ num_str end_ ++ "/"
                ++ Str.of_Z totalSize);
               ("Accept-Ranges", "bytes");
               ("Content-Length", num_str chunkSize);
               ("Content-Type", mimeType)] (read_span node start end_))
      | None =>
          Responded (mkResponse 200
            [("Content-Length", Str.of_Z totalSize);
             ("Content-Type", mimeType)] (read_all node))
      end
  end.

(* ================================================================== *)
(** ** 2. Login and signup *)
(* ================================================================== *)

Definition safeUser (u : user_row) : json :=
  JObj [("id", JNum (u_id u)); ("name", u_name u); ("email", u_email u);
        ("role", role_json (u_role u))].

Definition select_by_email (email : jsval) (w : world) : list user_row :=
  filter (fun u => sql_eq (u_email u) email) (users w).

Definition login (rt : runtime) (req : request) : M outcome :=
  match body_obj req with
  | None => ret (sendResponse 400 (err "Invalid JSON input"))
  | Some b =>
      let email := prop b "email" in
      let password := prop b "password" in
      r <- query (reads (select_by_email email)) ;;
      match r with
      | QErr _ => ret (sendResponse 500 (err "Database error"))
      | QOk [] => ret (sendResponse 400 (err "User not found"))
      | QOk (user :: _) =>
          match password with
          | Some (JStr p) =>
              if bcrypt_compare rt p (u_password user)
              then ret (sendResponse 200
                          (JObj [("message", JStr "Login successful");
                                 ("user", safeUser user)]))
              else ret (sendResponse 401 (err "Invalid credentials"))
          | _ => ret NoResponse   (* bcrypt.compare rejects *)
          end
      end
  end.

(** [INSERT INTO users (name, email, password) VALUES (?, ?, ?)]: the
    role takes the default of the column, ['user']. *)
Definition insert_user (rt : runtime) (name email : jsval) (hash : string)
    (w : world) : qres unit * world :=
  let row := mkUser (fresh_id (map u_id (users w))) (stored name)
               (stored email) hash (Some "user") 0 (now rt) in
  (QOk tt, set_users (users w ++ [row]) w).

Definition signup (rt : runtime) (req : request) : M outcome :=
  match body_obj req with
  | None => ret (sendResponse 400 (err "Invalid JSON input"))
  | Some b =>
      let name := prop b "name" in
      let email := prop b "email" in
      let password := prop b "password" in
      if negb (truthy name) || negb (truthy email) || negb (truthy password)
      then ret (sendResponse 400 (err "Name, email, and password are required."))
      else
        r <- query (reads (select_by_email email)) ;;
        match r with
        | QErr _ => ret (sendResponse 500 (err "Database error"))
        | QOk (_ :: _) => ret (sendResponse 400 (err "Email already exists"))
        | QOk [] =>
            match password with
            | Some (JStr p) =>
                i <- query (insert_user rt name email (bcrypt_hash rt p)) ;;
                match i with
                | QErr _ => ret (sendResponse 500 (err "Failed to register user"))
                | QOk _ => ret (sendResponse 201 (msg "Signup successful"))
                end
            | _ => ret NoResponse   (* bcrypt.hash rejects *)
            end
        end
  end.

(* ================================================================== *)
(** ** 3. Sprint progress *)
(* ================================================================== *)

Definition select_progress (uid : Z) (w : world) : list progress_row :=
  filter (fun p => p_user_id p =? uid) (progress w).

Definition progress_entry (p : progress_row) : string * json :=
  ("dynamic-sprint-" ++ Str.of_Z (p_sprint_id p),
   JObj [("progress", p_progress_percentage p);
         ("completed", JBool (p_is_completed p =? 1))]).

Definition progress_get (uid : Z) : M outcome :=
  r <- query (reads (select_progress uid)) ;;
  match r with
  | QErr _ => ret (sendResponse 500 (err "Failed to fetch user progress."))
  | QOk rows => ret (sendResponse 200 (JObj (map progress_entry rows)))
  end.

(** The error of an INSERT whose key parameter denotes no key. *)
Definition bad_key (v : jsval) : string :=
  match v with
  | None => "ER_BAD_NULL_ERROR"
  | Some JNull => "ER_BAD_NULL_ERROR"
  | _ => "ER_PARSE_ERROR"
  end.

(** [INSERT INTO sprint_progress ... ON DUPLICATE KEY UPDATE ...], unique
    on (user_id, sprint_id). *)
Definition upsert_progress (uid : Z) (sprintId progressPercent : jsval)
    (completedStatus : Z) (w : world) : qres unit * world :=
  match key_of sprintId with
  | None => (QErr (bad_key sprintId), w)
  | Some sid =>
      let same p := (p_user_id p =? uid) && (p_sprint_id p =? sid) in
      let row := mkProgress uid sid (stored progressPercent) completedStatus in
      if existsb same (progress w)
      then (QOk tt,
            set_progress (map (fun p => if same p then row else p) (progress w)) w)
      else (QOk tt, set_progress (progress w ++ [row]) w)
  end.

Definition is_fk_code (code : string) : bool :=
  String.eqb code "ER_NO_REFERENCED_ROW_2" || String.eqb code "ER_BAD_NULL_ERROR".

Definition progress_save (uid : Z) (req : request) : M outcome :=
  match body_obj req with
  | None => ret (sendResponse 400 (err "Invalid JSON input for progress update."))
  | Some b =>
      let sprintId := prop b "sprint_id" in
      let progressPercent := prop b "progress_percentage" in
      let isCompleted := prop b "is_completed" in
      if negb (truthy sprintId) || is_undefined progressPercent
         || is_undefined isCompleted
      then ret (sendResponse 400
                  (err "sprintId, progressPercent, and isCompleted are required."))
      else
        let completedStatus := if truthy isCompleted then 1 else 0 in
        r <- query (upsert_progress uid sprintId progressPercent completedStatus) ;;
        match r with
        | QErr code =>
            if is_fk_code code
            then ret (sendResponse 400
                   (err "Validation failed: Sprint or User ID does not exist. (Foreign Key Check Failed)"))
            else ret (sendResponse 500
                   (err "Failed to save sprint progress. Database error logged on server."))
        | QOk _ => ret (sendResponse 200 (msg "Progress saved successfully"))
        end
  end.

(* ================================================================== *)
(** ** 4. Lesson reflections *)
(* ================================================================== *)

Definition reflection_of (uid lid : Z) (r : reflection_row) : bool :=
  (r_user_id r =? uid) && (r_lesson_id r =? lid).

Definition select_reflection (uid lid : Z) (w : world) : list reflection_row :=
  filter (reflection_of uid lid) (reflections w).

Definition reflection_json (r : reflection_row) : json :=
  JObj [("id", JNum (r_id r));
        ("reflection_text", r_reflection_text r);
        ("status", JStr (r_status r));
        ("score", r_score r);
        ("admin_feedback", r_admin_feedback r);
        ("submitted_at", opt_json (r_submitted_at r));
        ("marked_at", opt_json (r_marked_at r));
        ("created_at", JNum (r_created_at r));
        ("updated_at", JNum (r_updated_at r))].

Definition empty_draft : json :=
  JObj [("reflection_text", JStr ""); ("status", JStr "draft");
        ("score", JNull); ("admin_feedback", JNull);
        ("submitted_at", JNull); ("marked_at", JNull)].

Definition reflection_get (uid : Z) (lessonId : string) : M outcome :=
  r <- query (reads (select_reflection uid (sql_int lessonId))) ;;
  match r with
  | QErr _ => ret (sendResponse 500 (err "Failed to fetch reflection"))
  | QOk [] => ret (sendResponse 200 empty_draft)
  | QOk (row :: _) => ret (sendResponse 200 (reflection_json row))
  end.

(** [INSERT INTO lesson_reflections (user_id, lesson_id, reflection_text,
    status) VALUES (?, ?, ?, 'draft') ON DUPLICATE KEY UPDATE
    reflection_text = VALUES(reflection_text), status = 'draft',
    updated_at = NOW()], unique on (user_id, lesson_id). *)
Definition upsert_draft (rt : runtime) (uid lid : Z) (text : json) (w : world)
  : qres unit * world :=
  if existsb (reflection_of uid lid) (reflections w)
  then (QOk tt,
        set_reflections
          (map (fun r =>
                  if reflection_of uid lid r
                  then mkReflection (r_id r) uid lid text "draft" (r_score r)
                         (r_admin_feedback r) (r_submitted_at r) (r_marked_at r)
                         (r_created_at r) (now rt)
                  else r) (reflections w)) w)
  else (QOk tt,
        set_reflections
          (reflections w
           ++ [mkReflection (fresh_id (map r_id (reflections w))) uid lid text
                 "draft" JNull JNull None None (now rt) (now rt)]) w).

Definition reflection_save (rt : runtime) (uid : Z) (lessonId : string)
    (req : request) : M outcome :=
  match body_obj req with
  | None => ret (sendResponse 400 (err "Invalid JSON input"))
  | Some b =>
      let reflection_text := prop b "reflection_text" in
      if negb (truthy reflection_text)
      then ret (sendResponse 400 (err "Reflection text is required"))
      else
        r <- query (upsert_draft rt uid (sql_int lessonId) (stored reflection_text)) ;;
        match r with
        | QErr _ => ret (sendResponse 500 (err "Failed to save reflection"))
        | QOk _ => ret (sendResponse 200 (msg "Reflection saved as draft"))
        end
  end.

(** [!reflection_text?.trim()]: [Some true] when the text is missing or
    blank, [None] when [.trim] is not a function of the value (the
    TypeError is caught by the handler's [catch]). *)
Definition blank_text (v : jsval) : option bool :=
  match v with
  | None => Some true
  | Some JNull => Some true
  | Some (JStr s) => Some (String.eqb (Str.trim s) "")
  | Some _ => None
  end.

(** [INSERT INTO lesson_reflections (user_id, lesson_id, reflection_text,
    status, submitted_at) VALUES (?, ?, ?, 'submitted', NOW()) ON DUPLICATE
    KEY UPDATE reflection_text = VALUES(reflection_text),
    status = 'submitted', submitted_at = NOW(), updated_at = NOW()]. *)
Definition upsert_submit (rt : runtime) (uid lid : Z) (text : json) (w : world)
  : qres unit * world :=
  if existsb (reflection_of uid lid) (reflections w)
  then (QOk tt,
        set_reflections
          (map (fun r =>
                  if reflection_of uid lid r
                  then mkReflection (r_id r) uid lid text "submitted" (r_score r)
                         (r_admin_feedback r) (Some (now rt)) (r_marked_at r)
                         (r_created_at r) (now rt)
                  else r) (reflections w)) w)
  else (QOk tt,
        set_reflections
          (reflections w
           ++ [mkReflection (fresh_id (map r_id (reflections w))) uid lid text
                 "submitted" JNull JNull (Some (now rt)) None (now rt) (now rt)])
          w).

Definition reflection_submit (rt : runtime) (uid : Z) (lessonId : string)
    (req : request) : M outcome :=
  match body_obj req with
  | None => ret (sendResponse 400 (err "Invalid JSON input"))
  | Some b =>
      let reflection_text := prop b "reflection_text" in
      match blank_text reflection_text with
      | None => ret (sendResponse 400 (err "Invalid JSON input"))
      | Some true => ret (sendResponse 400 (err "Reflection text cannot be empty"))
      | Some false =>
          r <- query (upsert_submit rt uid (sql_int lessonId)
                        (stored reflection_text)) ;;
          match r with
          | QErr _ => ret (sendResponse 500 (err "Failed to submit reflection"))
          | QOk _ => ret (sendResponse 200 (msg "Reflection submitted for marking"))
          end
      end
  end.

(** [UPDATE lesson_reflections SET reflection_text = ?, status =
    'submitted', submitted_at = NOW(), updated_at = NOW() WHERE user_id = ?
    AND lesson_id = ?]; the result is [affectedRows]. *)
Definition update_resubmit (rt : runtime) (uid lid : Z) (text : json) (w : world)
  : qres Z * world :=
  (QOk (count (reflection_of uid lid) (reflections w)),
   set_reflections
     (map (fun r =>
             if reflection_of uid lid r
             then mkReflection (r_id r) (r_user_id r) (r_lesson_id r) text
                    "submitted" (r_score r) (r_admin_feedback r)
                    (Some (now rt)) (r_marked_at r) (r_created_at r) (now rt)
             else r) (reflections w)) w).

Definition reflection_resubmit (rt : runtime) (uid : Z) (lessonId : string)
    (req : request) : M outcome :=
  match body_obj req with
  | None => ret (sendResponse 400 (err "Invalid JSON input"))
  | Some b =>
      let reflection_text := prop b "reflection_text" in
      match blank_text reflection_text with
      | None => ret (sendResponse 400 (err "Invalid JSON input"))
      | Some true => ret (sendResponse 400 (err "Reflection text cannot be empty"))
      | Some false =>
          r <- query (update_resubmit rt uid (sql_int lessonId)
                        (stored reflection_text)) ;;
          match r with
          | QErr _ => ret (sendResponse 500 (err "Failed to resubmit reflection"))
          | QOk affectedRows =>
              if affectedRows =? 0
              then ret (sendResponse 404 (err "Reflection not found"))
              else ret (sendResponse 200 (msg "Reflection resubmitted for marking"))
          end
      end
  end.

Definition submitted_row (w : world) (r : reflection_row) : list json :=
  flat_map (fun u =>
    map (fun l =>
      JObj [("id", JNum (r_id r));
            ("user_id", JNum (r_user_id r));
            ("lesson_id", JNum (r_lesson_id r));
            ("reflection_text", r_reflection_text r);
            ("status", JStr (r_status r));
            ("score", r_score r);
            ("admin_feedback", r_admin_feedback r);
            ("submitted_at", opt_json (r_submitted_at r));
            ("marked_at", opt_json (r_marked_at r));
            ("created_at", JNum (r_created_at r));
            ("updated_at", JNum (r_updated_at r));
            ("user_name", u_name u);
            ("user_email", u_email u);
            ("lesson_title", l_title l);
            ("lesson_description", l_description l)])
      (filter (fun l => l_id l =? r_lesson_id r) (lessons w)))
    (filter (fun u => u_id u =? r_user_id r) (users w)).

Definition opt_le (a b : option Z) : bool :=
  match a, b with
  | None, _ => true
  | Some _, None => false
  | Some x, Some y => x <=? y
  end.

(** [SELECT lr.*, ... FROM lesson_reflections lr JOIN users u ... JOIN
    lessons l ... WHERE lr.status = 'submitted' ORDER BY lr.submitted_at
    ASC]. *)
Definition select_submitted (w : world) : list json :=
  flat_map (submitted_row w)
    (sort_by (fun a b => opt_le (r_submitted_at a) (r_submitted_at b))
       (filter (fun r => String.eqb (r_status r) "submitted") (reflections w))).

Definition reflections_submitted (uid : Z) : M outcome :=
  authorizeAdmin uid
    (r <- query (reads select_submitted) ;;
     match r with
     | QErr _ => ret (sendResponse 500 (err "Failed to fetch submitted reflections"))
     | QOk rows => ret (sendResponse 200 (JArr rows))
     end).

(** [UPDATE lesson_reflections SET score = ?, admin_feedback = ?,
    status = ?, marked_at = NOW(), updated_at = NOW() WHERE id = ?]. *)
Definition update_mark (rt : runtime) (score feedback : json) (st : string)
    (rid : option Z) (w : world) : qres Z * world :=
  (QOk (count (fun r => key_is rid (r_id r)) (reflections w)),
   set_reflections
     (map (fun r =>
             if key_is rid (r_id r)
             then mkReflection (r_id r) (r_user_id r) (r_lesson_id r)
                    (r_reflection_text r) st score feedback (r_submitted_at r)
                    (Some (now rt)) (r_created_at r) (now rt)
             else r) (reflections w)) w).

(** [validStatuses.includes(status)]. *)
Definition valid_status (v : jsval) : option string :=
  match v with
  | Some (JStr s) =>
      if String.eqb s "marked" || String.eqb s "rejected" then Some s else None
  | _ => None
  end.

(** [score < 0 || score > 10]. *)
Definition score_out_of_range (score : json) : bool :=
  num_lt (toNumber score) 0 || num_gt (toNumber score) 10.

Definition reflections_mark (rt : runtime) (uid : Z) (req : request) : M outcome :=
  authorizeAdmin uid
    (match body_obj req with
     | None => ret (sendResponse 400 (err "Invalid JSON input"))
     | Some b =>
         let reflection_id := prop b "reflection_id" in
         let score := prop b "score" in
         let admin_feedback := prop b "admin_feedback" in
         let status := prop b "status" in
         if negb (truthy reflection_id) || is_undefined score
            || negb (truthy admin_feedback)
         then ret (sendResponse 400
                     (err "Reflection ID, score, and feedback are required"))
         else if score_out_of_range (stored score)
         then ret (sendResponse 400 (err "Score must be between 0 and 10"))
         else
           match valid_status status with
           | None => ret (sendResponse 400
                            (err "Status must be 'marked' or 'rejected'"))
           | Some st =>
               r <- query (update_mark rt (stored score) (stored admin_feedback)
                             st (key_of reflection_id)) ;;
               match r with
               | QErr _ => ret (sendResponse 500 (err "Failed to mark reflection"))
               | QOk affectedRows =>
                   if affectedRows =? 0
                   then ret (sendResponse 404 (err "Reflection not found"))
                   else ret (sendResponse 200 (msg "Reflection marked successfully"))
               end
           end
     end).

(* ================================================================== *)
(** ** 5. User notes *)
(* ================================================================== *)

Definition note_of (uid : Z) (ct cid : string) (n : note_row) : bool :=
  (n_user_id n =? uid) && String.eqb (n_content_type n) ct
  && String.eqb (n_content_id n) cid.

Definition select_note (uid : Z) (ct cid : string) (w : world) : list note_row :=
  filter (note_of uid ct cid) (notes w).

Definition notes_get (uid : Z) (contentType contentId : string) : M outcome :=
  r <- query (reads (select_note uid contentType contentId)) ;;
  match r with
  | QErr _ => ret (sendResponse 500 (err "Failed to fetch user notes."))
  | QOk [] => ret (sendResponse 200 (JObj [("note_text", JStr "")]))
  | QOk (n :: _) => ret (sendResponse 200 (JObj [("note_text", n_note_text n)]))
  end.

(** [INSERT INTO user_notes ... ON DUPLICATE KEY UPDATE note_text =
    VALUES(note_text), updated_at = NOW()], unique on (user_id,
    content_type, content_id). *)
Definition upsert_note (uid : Z) (contentType contentId noteText : jsval)
    (w : world) : qres unit * world :=
  match text_of contentType, text_of contentId with
  | Some ct, Some cid =>
      let row := mkNote uid ct cid (stored noteText) in
      if existsb (note_of uid ct cid) (notes w)
      then (QOk tt,
            set_notes (map (fun n => if note_of uid ct cid n then row else n)
                         (notes w)) w)
      else (QOk tt, set_notes (notes w ++ [row]) w)
  | None, _ => (QErr (bad_key contentType), w)
  | _, None => (QErr (bad_key contentId), w)
  end.

Definition notes_save (uid : Z) (req : request) : M outcome :=
  match body_obj req with
  | None => ret (sendResponse 400 (err "Invalid JSON input for note update."))
  | Some b =>
      let contentType := prop b "contentType" in
      let contentId := prop b "contentId" in
      let noteText := prop b "noteText" in
      if negb (truthy contentType) || is_undefined contentId
         || is_undefined noteText
      then ret (sendResponse 400
                  (err "contentType, contentId, and noteText are required."))
      else
        r <- query (upsert_note uid contentType contentId noteText) ;;
        match r with
        | QErr code =>
            let clientError :=
              if is_fk_code code
              then "Error saving note: Validation failed. Content or User ID does not exist. (Foreign Key Check Failed)"
              else if String.eqb code "ER_DUP_ENTRY"
              then "Error saving note: Duplicate content entry. (Unique Key Check Failed)"
              else "Failed to save user note (Database error). Please check server logs." in
            ret (sendResponse 500 (err clientError))
        | QOk _ => ret (sendResponse 200 (msg "Note saved successfully"))
        end
  end.

(* ================================================================== *)
(** ** 6. Sprints *)
(* ================================================================== *)

Definition sprint_json (s : sprint_row) : json :=
  JObj [("id", JNum (s_id s)); ("title", s_title s);
        ("description", s_description s); ("video_url", s_video_url s);
        ("max_duration_seconds", JNum (s_max_duration_seconds s));
        ("is_active", JBool (s_is_active s =? 1));
        ("thumbnail_url", s_thumbnail_url s)].

(** [SELECT ... FROM sprints ORDER BY created_at DESC]. *)
Definition select_sprints (w : world) : list sprint_row :=
  sort_by (fun a b => s_created_at b <=? s_created_at a) (sprints w).

Definition sprints_list : M outcome :=
  r <- query (reads select_sprints) ;;
  match r with
  | QErr _ => ret (sendResponse 500 (err "Failed to fetch sprints."))
  | QOk rows => ret (sendResponse 200 (JArr (map sprint_json rows)))
  end.

(** [let maxDurationSeconds = parseInt(max_duration_minutes, 10) * 60;
     if (isNaN(maxDurationSeconds) || maxDurationSeconds <= 0) maxDurationSeconds = 600;
     if (maxDurationSeconds > 3600) maxDurationSeconds = 3600;] *)
Definition maxDurationSeconds (max_duration_minutes : jsval) : Z :=
  let s1 := num_mul (parseInt max_duration_minutes) 60 in
  let s2 := if num_isNaN s1 || num_le s1 0 then Num 600 else s1 in
  let s3 := if num_gt s2 3600 then Num 3600 else s2 in
  match s3 with
  | Num n => n
  | NaN => 600
  end.

(** [INSERT INTO sprints (title, description, video_url,
    max_duration_seconds, is_active, thumbnail_url) VALUES (?, ?, ?, ?, ?,
    ?)]; the result is [insertId]. *)
Definition insert_sprint (rt : runtime) (title description video_url : json)
    (seconds : Z) (thumbnail : json) (w : world) : qres Z * world :=
  let id := fresh_id (map s_id (sprints w)) in
  (QOk id,
   set_sprints
     (sprints w
      ++ [mkSprint id title description video_url seconds 0 thumbnail (now rt)])
     w).

Definition sprints_create (rt : runtime) (req : request) : M outcome :=
  match body_obj req with
  | None => ret (sendResponse 400 (err "Invalid JSON input for sprint creation."))
  | Some b =>
      let title := prop b "title" in
      let description := prop b "description" in
      let video_url := prop b "video_url" in
      let max_duration_minutes := prop b "max_duration_minutes" in
      let thumbnail_url := prop b "thumbnail_url" in
      if negb (truthy title) || negb (truthy description)
         || negb (truthy video_url) || is_undefined max_duration_minutes
      then ret (sendResponse 400
             (err "Title, description, video URL (or simulated path), and max duration are required."))
      else
        let seconds := maxDurationSeconds max_duration_minutes in
        r <- query (insert_sprint rt (stored title) (stored description)
                      (stored video_url) seconds (or_null thumbnail_url)) ;;
        match r with
        | QErr _ => ret (sendResponse 500
                           (err "Failed to create new sprint in database."))
        | QOk insertId =>
            ret (sendResponse 201
                   (JObj [("message", JStr "Sprint created successfully");
                          ("id", JNum insertId);
                          ("title", stored title);
                          ("description", stored description);
                          ("video_url", stored video_url);
                          ("max_duration_seconds", JNum seconds);
                          ("is_active", JBool false);
                          ("thumbnail_url", or_null thumbnail_url)]))
        end
  end.

(** [DELETE FROM sprints WHERE id = ?]. *)
Definition delete_sprint (id : Z) (w : world) : qres Z * world :=
  (QOk (count (fun s => s_id s =? id) (sprints w)),
   set_sprints (filter (fun s => negb (s_id s =? id)) (sprints w)) w).

Definition sprints_delete (sprintId : string) : M outcome :=
  r <- query (delete_sprint (sql_int sprintId)) ;;
  match r with
  | QErr _ => ret (sendResponse 500 (err "Failed to delete sprint"))
  | QOk affectedRows =>
      if affectedRows =? 0
      then ret (sendResponse 404 (err "Sprint not found"))
      else ret noContent
  end.

(** [UPDATE sprints SET is_active = ? WHERE id = ?]. *)
Definition update_active (activeStatus id : Z) (w : world) : qres Z * world :=
  (QOk (count (fun s => s_id s =? id) (sprints w)),
   set_sprints
     (map (fun s =>
             if s_id s =? id
             then mkSprint (s_id s) (s_title s) (s_description s) (s_video_url s)
                    (s_max_duration_seconds s) activeStatus (s_thumbnail_url s)
                    (s_created_at s)
             else s) (sprints w)) w).

(** [UPDATE sprints SET is_active = 0 WHERE id != ?]. *)
Definition deactivate_others (id : Z) (w : world) : qres Z * world :=
  (QOk (count (fun s => negb (s_id s =? id)) (sprints w)),
   set_sprints
     (map (fun s =>
             if negb (s_id s =? id)
             then mkSprint (s_id s) (s_title s) (s_description s) (s_video_url s)
                    (s_max_duration_seconds s) 0 (s_thumbnail_url s)
                    (s_created_at s)
             else s) (sprints w)) w).

(** [updateActiveStatus(callback)]: the message of the [Error] handed to
    the callback, or [None] for [callback(null)]. *)
Definition updateActiveStatus (activeStatus id : Z) : M (option string) :=
  r <- query (update_active activeStatus id) ;;
  match r with
  | QErr _ => ret (Some "Failed to update sprint status")
  | QOk affectedRows =>
      if affectedRows =? 0 then ret (Some "Sprint not found") else ret None
  end.

Definition active_answer (error : option string) (ok : json) : outcome :=
  match error with
  | Some message =>
      sendResponse (if Str.includes message "not found" then 404 else 500)
        (err message)
  | None => sendResponse 200 ok
  end.

Definition sprints_active (sprintId : string) (req : request) : M outcome :=
  match body_obj req with
  | None => ret (sendResponse 400
                   (err "Invalid JSON input for sprint status update"))
  | Some b =>
      let shouldActivate := prop b "shouldActivate" in
      let activeStatus := if truthy shouldActivate then 1 else 0 in
      if truthy shouldActivate then
        _ <- query (deactivate_others (sql_int sprintId)) ;;
        error <- updateActiveStatus activeStatus (sql_int sprintId) ;;
        ret (active_answer error
               (JObj [("message", JStr "Sprint set as active successfully");
                      ("is_active", JBool true)]))
      else
        error <- updateActiveStatus activeStatus (sql_int sprintId) ;;
        ret (active_answer error
               (JObj [("message", JStr "Sprint set as inactive successfully");
                      ("is_active", JBool false)]))
  end.

(* ================================================================== *)
(** ** 7. Categories and lessons *)
(* ================================================================== *)

Definition category_json (c : category_row) : json :=
  JObj [("id", JNum (c_id c)); ("name", c_name c)].

(** [SELECT id, name FROM skill_categories ORDER BY name ASC]. *)
Definition select_categories (w : world) : list category_row :=
  sort_by (fun a b => String.leb (toString (c_name a)) (toString (c_name b)))
    (categories w).

Definition categories_list : M outcome :=
  r <- query (reads select_categories) ;;
  match r with
  | QErr _ => ret (sendResponse 500
       (err "Failed to fetch categories. (Check DB schema: 'skill_categories' table)."))
  | QOk rows => ret (sendResponse 200 (JArr (map category_json rows)))
  end.

Definition insert_category (name : json) (w : world) : qres Z * world :=
  let id := fresh_id (map c_id (categories w)) in
  (QOk id, set_categories (categories w ++ [mkCategory id name]) w).

Definition categories_create (req : request) : M outcome :=
  match body_obj req with
  | None => ret (sendResponse 400 (err "Invalid JSON input for category creation."))
  | Some b =>
      let name := prop b "name" in
      if negb (truthy name)
      then ret (sendResponse 400 (err "Category name is required."))
      else
        r <- query (insert_category (stored name)) ;;
        match r with
        | QErr code =>
            if String.eqb code "ER_DUP_ENTRY"
            then ret (sendResponse 409 (err "Category already exists."))
            else ret (sendResponse 500 (err "Failed to create new category."))
        | QOk insertId =>
            ret (sendResponse 201
                   (JObj [("message", JStr "Category created successfully");
                          ("id", JNum insertId); ("name", stored name)]))
        end
  end.

Definition delete_category (id : Z) (w : world) : qres Z * world :=
  (QOk (count (fun c => c_id c =? id) (categories w)),
   set_categories (filter (fun c => negb (c_id c =? id)) (categories w)) w).

Definition categories_delete (categoryId : string) : M outcome :=
  r <- query (delete_category (sql_int categoryId)) ;;
  match r with
  | QErr _ => ret (sendResponse 500
       (err "Failed to delete category (Ensure no lessons are using it)."))
  | QOk affectedRows =>
      if affectedRows =? 0
      then ret (sendResponse 404 (err "Category not found"))
      else ret noContent
  end.

(** [c.name AS skill_category] of the LEFT JOIN on
    [l.skill_category_id = c.id]: one result row per matching category,
    one row with NULL when none matches. *)
Definition lesson_rows (w : world) (l : lesson_row) : list json :=
  let row name :=
    JObj [("id", JNum (l_id l)); ("title", l_title l);
          ("code_snippet", l_code_snippet l);
          ("description", l_description l);
          ("challenge", l_challenge l);
          ("reflection", l_reflection l);
          ("skill_category", name);
          ("level", l_level l);
          ("created_at", JNum (l_created_at l))] in
  match filter (fun c => key_is (key_of (Some (l_skill_category_id l))) (c_id c))
          (categories w) with
  | [] => [row JNull]
  | cs => map (fun c => row (c_name c)) cs
  end.

Definition select_lessons (w : world) : list json :=
  flat_map (lesson_rows w)
    (sort_by (fun a b => l_created_at b <=? l_created_at a) (lessons w)).

Definition lessons_list : M outcome :=
  r <- query (reads select_lessons) ;;
  match r with
  | QErr _ => ret (sendResponse 500 (err "Failed to fetch lessons."))
  | QOk rows => ret (sendResponse 200 (JArr rows))
  end.

Definition select_lesson (id : Z) (w : world) : list json :=
  flat_map (lesson_rows w) (filter (fun l => l_id l =? id) (lessons w)).

Definition lessons_get (lessonId : string) : M outcome :=
  r <- query (reads (select_lesson (sql_int lessonId))) ;;
  match r with
  | QErr _ => ret (sendResponse 500 (err "Failed to fetch lesson."))
  | QOk [] => ret (sendResponse 404 (err "Lesson not found"))
  | QOk (row :: _) => ret (sendResponse 200 row)
  end.

Definition insert_lesson (rt : runtime)
    (title code_snippet description challenge reflection skill_category_id level : json)
    (w : world) : qres Z * world :=
  let id := fresh_id (map l_id (lessons w)) in
  (QOk id,
   set_lessons
     (lessons w
      ++ [mkLesson id title code_snippet description challenge reflection
            skill_category_id JNull level (now rt)]) w).

Definition lessons_create (rt : runtime) (req : request) : M outcome :=
  match body_obj req with
  | None => ret (sendResponse 400 (err "Invalid JSON input for lesson creation."))
  | Some payload =>
      let title := prop payload "title" in
      let code_snippet := with_default (prop payload "code_snippet") JNull in
      let description := with_default (prop payload "description") JNull in
      let challenge := with_default (prop payload "challenge") JNull in
      let reflection := with_default (prop payload "reflection") JNull in
      let skill_category_id := with_default (prop payload "skill_category_id") JNull in
      let level := with_default (prop payload "level") (JStr "beginner") in
      if negb (truthy title) || negb (truthy (Some description))
      then ret (sendResponse 400
                  (err "Title and description are required for a lesson."))
      else
        r <- query (insert_lesson rt (stored title) code_snippet description
                      challenge reflection skill_category_id level) ;;
        match r with
        | QErr _ => ret (sendResponse 500 (err "Failed to create lesson."))
        | QOk insertId =>
            ret (sendResponse 201
                   (JObj [("message", JStr "Lesson created successfully");
                          ("id", JNum insertId);
                          ("title", stored title);
                          ("code_snippet", code_snippet);
                          ("description", description);
                          ("challenge", challenge);
                          ("reflection", reflection);
                          ("skill_category_id", skill_category_id);
                          ("level", level)]))
        end
  end.

Definition allowedFields : list string :=
  ["title"; "code_snippet"; "description"; "challenge"; "reflection";
   "skill_category_id"; "level"].

(** The [fields] collected from the payload: the allowed fields that are
    not [undefined], then [skill_category] when it is sent. *)
Definition update_fields (payload : json) : list (string * json) :=
  flat_map (fun f => match prop payload f with
                     | Some v => [(f, v)]
                     | None => []
                     end) (allowedFields ++ ["skill_category"]).

Definition set_field (l : lesson_row) (fv : string * json) : lesson_row :=
  let (f, v) := fv in
  mkLesson (l_id l)
    (if String.eqb f "title" then v else l_title l)
    (if String.eqb f "code_snippet" then v else l_code_snippet l)
    (if String.eqb f "description" then v else l_description l)
    (if String.eqb f "challenge" then v else l_challenge l)
    (if String.eqb f "reflection" then v else l_reflection l)
    (if String.eqb f "skill_category_id" then v else l_skill_category_id l)
    (if String.eqb f "skill_category" then v else l_skill_category l)
    (if String.eqb f "level" then v else l_level l)
    (l_created_at l).

(** [UPDATE lessons SET f1 = ?, ... WHERE id = ?]. *)
Definition update_lesson (fields : list (string * json)) (id : Z) (w : world)
  : qres Z * world :=
  (QOk (count (fun l => l_id l =? id) (lessons w)),
   set_lessons
     (map (fun l => if l_id l =? id then fold_left set_field fields l else l)
        (lessons w)) w).

Definition lessons_update (lessonId : string) (req : request) : M outcome :=
  match body_obj req with
  | None => ret (sendResponse 400 (err "Invalid JSON input for lesson update."))
  | Some payload =>
      match update_fields payload with
      | [] => ret (sendResponse 400 (err "No fields provided to update."))
      | fields =>
          r <- query (update_lesson fields (sql_int lessonId)) ;;
          match r with
          | QErr _ => ret (sendResponse 500 (err "Failed to update lesson."))
          | QOk affectedRows =>
              if affectedRows =? 0
              then ret (sendResponse 404 (err "Lesson not found."))
              else ret (sendResponse 200
                     (JObj [("message", JStr "Lesson updated successfully");
                            ("id", JStr lessonId)]))
          end
      end
  end.

Definition delete_lesson (id : Z) (w : world) : qres Z * world :=
  (QOk (count (fun l => l_id l =? id) (lessons w)),
   set_lessons (filter (fun l => negb (l_id l =? id)) (lessons w)) w).

Definition lessons_delete (lessonId : string) : M outcome :=
  r <- query (delete_lesson (sql_int lessonId)) ;;
  match r with
  | QErr _ => ret (sendResponse 500 (err "Failed to delete lesson"))
  | QOk affectedRows =>
      if affectedRows =? 0
      then ret (sendResponse 404 (err "Lesson not found"))
      else ret noContent
  end.

(* ================================================================== *)
(** ** 8. Users *)
(* ================================================================== *)

Definition stats_fallback : json :=
  JObj [("error", JStr "Failed to fetch user stats from DB");
        ("totalSprints", JNum 12); ("completedSprints", JNum 6);
        ("totalMinutes", JNum 342); ("streakDays", JNum 7);
        ("weeklyProgress", JNum 75); ("learningHours", JNum 28)].

(** The one row of [statsQuery] for a user: the completed sprints of the
    user are LEFT JOINed with the time rows of the user, so every time row
    is counted once per completed sprint (once when there is none).  The
    two fields the handler derives in floating point ([weeklyProgress],
    [learningHours]) are not part of the model. *)
Definition stats_row (w : world) (u : user_row) : json :=
  let completed :=
    filter (fun p => (p_user_id p =? u_id u) && (p_is_completed p =? 1))
      (progress w) in
  let minutes :=
    fold_right Z.add 0
      (map t_time_spent_minutes
         (filter (fun t => t_user_id t =? u_id u) (learning_time w))) in
  JObj [("totalSprints", JNum (Z.of_nat (List.length (sprints w))));
        ("completedSprints",
         JNum (Z.of_nat (List.length (nodup Z.eq_dec (map p_sprint_id completed)))));
        ("totalMinutes",
         JNum (Z.max 1 (Z.of_nat (List.length completed)) * minutes));
        ("streakDays", JNum (u_streak_days u))].

Definition select_stats (id : Z) (w : world) : list json :=
  map (stats_row w) (filter (fun u => u_id u =? id) (users w)).

Definition num_eqb (a b : jsnum) : bool :=
  match a, b with
  | Num x, Num y => x =? y
  | _, _ => false
  end.

(** A caller that fails [authenticate()] has been answered 401 by it; the
    [sendResponse(403, ...)] that follows finds the head already sent. *)
Definition users_stats (u : option jsnum) (id : string) : M outcome :=
  let requestedUserId := parseInt_str id in
  if negb (authenticate u) then ret unauthenticated
  else if negb (num_eqb requestedUserId (Num (uid_value u)))
  then ret (sendResponse 403 (err "Forbidden. You can only view your own stats."))
  else
    r <- query (reads (select_stats (uid_value u))) ;;
    match r with
    | QErr _ => ret (sendResponse 500 stats_fallback)
    | QOk [] => ret (sendResponse 404 (err "User not found."))
    | QOk (row :: _) => ret (sendResponse 200 row)
    end.

(** [COALESCE(role, CASE WHEN id = 1 THEN 'admin' ELSE 'user' END)]. *)
Definition fallback_role (id : Z) : string :=
  if id =? 1 then "admin" else "user".

Definition listed_role (u : user_row) : string :=
  match u_role u with
  | Some r => r
  | None => fallback_role (u_id u)
  end.

Definition user_json (role : user_row -> string) (u : user_row) : json :=
  JObj [("id", JNum (u_id u)); ("name", u_name u); ("email", u_email u);
        ("streak_days", JNum (u_streak_days u));
        ("created_at", JNum (u_created_at u));
        ("role", JStr (role u))].

Definition users_list : M outcome :=
  r <- query (reads (fun w => map (user_json listed_role) (users w))) ;;
  match r with
  | QErr code =>
      if String.eqb code "ER_BAD_FIELD_ERROR" then
        f <- query (reads (fun w =>
               map (user_json (fun u => fallback_role (u_id u))) (users w))) ;;
        match f with
        | QErr _ => ret (sendResponse 500
                           (err "Failed to fetch user data (Fallback error)."))
        | QOk rows => ret (sendResponse 200 (JArr rows))
        end
      else ret (sendResponse 500 (err "Failed to fetch user data"))
  | QOk rows => ret (sendResponse 200 (JArr rows))
  end.

(** [DELETE FROM users WHERE id = ?]. *)
Definition delete_user (id : Z) (w : world) : qres Z * world :=
  (QOk (count (fun u => u_id u =? id) (users w)),
   set_users (filter (fun u => negb (u_id u =? id)) (users w)) w).

Definition users_delete (userIdToDelete : string) : M outcome :=
  r <- query (delete_user (sql_int userIdToDelete)) ;;
  match r with
  | QErr _ => ret (sendResponse 500 (err "Failed to delete user"))
  | QOk affectedRows =>
      if affectedRows =? 0
      then ret (sendResponse 404 (err "User not found"))
      else ret noContent
  end.

(** [UPDATE users SET role = ? WHERE id = ?]. *)
Definition update_role (role : string) (id : Z) (w : world) : qres Z * world :=
  (QOk (count (fun u => u_id u =? id) (users w)),
   set_users
     (map (fun u =>
             if u_id u =? id
             then mkUser (u_id u) (u_name u) (u_email u) (u_password u)
                    (Some role) (u_streak_days u) (u_created_at u)
             else u) (users w)) w).

(** [["admin", "user"].includes(newRole)]. *)
Definition valid_role (v : jsval) : option string :=
  match v with
  | Some (JStr s) =>
      if String.eqb s "admin" || String.eqb s "user" then Some s else None
  | _ => None
  end.

Definition users_role (userIdToUpdate : string) (req : request) : M outcome :=
  match body_obj req with
  | None => ret (sendResponse 400 (err "Invalid JSON input for role update"))
  | Some b =>
      match valid_role (prop b "newRole") with
      | None => ret (sendResponse 400
                       (err "Invalid role provided. Must be 'admin' or 'user'."))
      | Some newRole =>
          r <- query (update_role newRole (sql_int userIdToUpdate)) ;;
          match r with
          | QErr code =>
              if String.eqb code "ER_BAD_FIELD_ERROR"
              then ret (sendResponse 500
                (err "Database configuration error: 'role' column likely missing in 'users' table."))
              else ret (sendResponse 500 (err "Failed to update user role"))
          | QOk affectedRows =>
              if affectedRows =? 0
              then ret (sendResponse 404 (err "User not found"))
              else ret (sendResponse 200
                     (JObj [("message", JStr "Role updated successfully");
                            ("newRole", JStr newRole)]))
          end
      end
  end.

(* ================================================================== *)
(** ** 9. The built frontend and the SPA fallback *)
(* ================================================================== *)

Definition asset_mime (p : list string) : string :=
  let ext := Str.toLowerCase (extname p) in
  if String.eqb ext ".css" then "text/css"
  else if String.eqb ext ".js" || String.eqb ext ".mjs"
  then "application/javascript"
  else if String.eqb ext ".png" || String.eqb ext ".jpg"
          || String.eqb ext ".jpeg" || String.eqb ext ".gif"
  then "image/" ++ Str.removeFirst ext "."
  else "text/html".

Definition read_file (rt : runtime) (p : list string) (mimeType : string)
  : outcome :=
  match fs rt p with
  | Some (File content) =>
      Responded (mkResponse 200 [("Content-Type", mimeType)] (BBytes content))
  | _ => sendResponse 500 (err "Server error reading file.")
  end.

Definition serve_static (rt : runtime) (pathSegments : list string) : outcome :=
  let absoluteFilePath := path_join (FRONTEND_DIR rt) pathSegments in
  match fs rt absoluteFilePath with
  | Some (File _) => read_file rt absoluteFilePath (asset_mime absoluteFilePath)
  | _ =>
      let index := path_join (FRONTEND_DIR rt) ["index.html"] in
      match fs rt index with
      | None => sendResponse 404
          (err "Route not found (and index.html missing for SPA fallback)")
      | Some _ => read_file rt index "text/html"
      end
  end.

(* ================================================================== *)
(** ** The dispatcher *)
(* ================================================================== *)

Definition pathUrl (req : request) : string :=
  Str.toLowerCase (Str.strip_slashes (req_pathname req)).

Definition pathSegments (req : request) : list string :=
  Str.split "/" (pathUrl req).

(** The branch of the [if / else if] chain a request takes, with the path
    parameters the branch reads. *)
Inductive route : Type :=
| RUploads
| RLogin
| RSignup
| RProgressGet
| RProgressSave
| RReflectionGet (lessonId : string)
| RReflectionSave (lessonId : string)
| RReflectionSubmit (lessonId : string)
| RReflectionResubmit (lessonId : string)
| RReflectionsSubmitted
| RReflectionsMark
| RNotesGet (contentType contentId : string)
| RNotesSave
| RSprintsList
| RSprintsCreate
| RSprintsDelete (sprintId : string)
| RSprintsActive (sprintId : string)
| RCategoriesList
| RCategoriesCreate
| RCategoriesDelete (categoryId : string)
| RLessonsList
| RLessonsGet (lessonId : string)
| RLessonsCreate
| RLessonsUpdate (lessonId : string)
| RLessonsDelete (lessonId : string)
| RUsersStats (id : string)
| RUsersList
| RUsersDelete (id : string)
| RUsersRole (id : string)
| RStatic
| RNotFound.

Definition dispatch (method url : string) (segs : list string) : route :=
  let seg i := nth i segs "" in
  let len := List.length segs in
  let on m := String.eqb method m in
  let at_ i s := String.eqb (seg i) s in
  if at_ 0%nat "uploads" && on "GET" then RUploads
  else if String.eqb url "login" && on "POST" then RLogin
  else if String.eqb url "signup" && on "POST" then RSignup
  else if String.eqb url "api/progress" && on "GET" then RProgressGet
  else if String.eqb url "api/progress" && (on "POST" || on "PUT")
  then RProgressSave
  else if Nat.eqb len 4 && at_ 0%nat "api" && at_ 1%nat "lessons"
          && at_ 3%nat "reflection" && on "GET"
  then RReflectionGet (seg 2%nat)
  else if Nat.eqb len 4 && at_ 0%nat "api" && at_ 1%nat "lessons"
          && at_ 3%nat "reflection" && on "POST"
  then RReflectionSave (seg 2%nat)
  else if Nat.eqb len 5 && at_ 0%nat "api" && at_ 1%nat "lessons"
          && at_ 3%nat "reflection" && at_ 4%nat "submit" && on "POST"
  then RReflectionSubmit (seg 2%nat)
  else if Nat.eqb len 5 && at_ 0%nat "api" && at_ 1%nat "lessons"
          && at_ 3%nat "reflection" && at_ 4%nat "resubmit" && on "POST"
  then RReflectionResubmit (seg 2%nat)
  else if String.eqb url "api/reflections/submitted" && on "GET"
  then RReflectionsSubmitted
  else if Nat.eqb len 3 && at_ 0%nat "api" && at_ 1%nat "reflections"
          && at_ 2%nat "mark" && on "POST"
  then RReflectionsMark
  else if Nat.eqb len 4 && at_ 0%nat "api" && at_ 1%nat "notes" && on "GET"
  then RNotesGet (seg 2%nat) (seg 3%nat)
  else if String.eqb url "api/notes" && (on "POST" || on "PUT")
  then RNotesSave
  else if String.eqb url "api/sprints" && on "GET" then RSprintsList
  else if String.eqb url "api/sprints" && on "POST" then RSprintsCreate
  else if Nat.eqb len 3 && at_ 0%nat "api" && at_ 1%nat "sprints" && on "DELETE"
  then RSprintsDelete (seg 2%nat)
  else if Nat.eqb len 4 && at_ 0%nat "api" && at_ 1%nat "sprints"
          && at_ 3%nat "active" && on "PUT"
  then RSprintsActive (seg 2%nat)
  else if String.eqb url "api/categories" && on "GET" then RCategoriesList
  else if String.eqb url "api/categories" && on "POST" then RCategoriesCreate
  else if Nat.eqb len 3 && at_ 0%nat "api" && at_ 1%nat "categories"
          && on "DELETE"
  then RCategoriesDelete (seg 2%nat)
  else if String.eqb url "api/lessons" && on "GET" then RLessonsList
  else if Nat.eqb len 3 && at_ 0%nat "api" && at_ 1%nat "lessons" && on "GET"
  then RLessonsGet (seg 2%nat)
  else if String.eqb url "api/lessons" && on "POST" then RLessonsCreate
  else if Nat.eqb len 3 && at_ 0%nat "api" && at_ 1%nat "lessons" && on "PUT"
  then RLessonsUpdate (seg 2%nat)
  else if Nat.eqb len 3 && at_ 0%nat "api" && at_ 1%nat "lessons" && on "DELETE"
  then RLessonsDelete (seg 2%nat)
  else if Nat.eqb len 4 && at_ 0%nat "api" && at_ 1%nat "users"
          && at_ 3%nat "stats" && on "GET"
  then RUsersStats (seg 2%nat)
  else if String.eqb url "api/users" && on "GET" then RUsersList
  else if Nat.eqb len 3 && at_ 0%nat "api" && at_ 1%nat "users" && on "DELETE"
  then RUsersDelete (seg 2%nat)
  else if Nat.eqb len 4 && at_ 0%nat "api" && at_ 1%nat "users"
          && at_ 3%nat "role" && on "PUT"
  then RUsersRole (seg 2%nat)
  else if on "GET" && negb (Str.startsWith (seg 0%nat) "api") then RStatic
  else RNotFound.

Definition route_of (req : request) : route :=
  dispatch (req_method req) (pathUrl req) (pathSegments req).

(** An authenticated handler: [if (!authenticate()) return;] first. *)
Definition authenticated (u : option jsnum) (h : Z -> M outcome) : M outcome :=
  if authenticate u then h (uid_value u) else ret unauthenticated.

(** The body of the [req.on("end", ...)] callback. *)
Definition handle (rt : runtime) (req : request) : M outcome :=
  let u := userId req in
  match route_of req with
  | RUploads => ret (serve_upload rt (pathSegments req) (req_range req))
  | RLogin => login rt req
  | RSignup => signup rt req
  | RProgressGet => authenticated u progress_get
  | RProgressSave => authenticated u (fun uid => progress_save uid req)
  | RReflectionGet lessonId =>
      authenticated u (fun uid => reflection_get uid lessonId)
  | RReflectionSave lessonId =>
      authenticated u (fun uid => reflection_save rt uid lessonId req)
  | RReflectionSubmit lessonId =>
      authenticated u (fun uid => reflection_submit rt uid lessonId req)
  | RReflectionResubmit lessonId =>
      authenticated u (fun uid => reflection_resubmit rt uid lessonId req)
  | RReflectionsSubmitted => authenticated u reflections_submitted
  | RReflectionsMark => authenticated u (fun uid => reflections_mark rt uid req)
  | RNotesGet contentType contentId =>
      authenticated u (fun uid => notes_get uid contentType contentId)
  | RNotesSave => authenticated u (fun uid => notes_save uid req)
  | RSprintsList => sprints_list
  | RSprintsCreate => sprints_create rt req
  | RSprintsDelete sprintId => sprints_delete sprintId
  | RSprintsActive sprintId => sprints_active sprintId req
  | RCategoriesList => categories_list
  | RCategoriesCreate => categories_create req
  | RCategoriesDelete categoryId => categories_delete categoryId
  | RLessonsList => lessons_list
  | RLessonsGet lessonId => lessons_get lessonId
  | RLessonsCreate => lessons_create rt req
  | RLessonsUpdate lessonId => lessons_update lessonId req
  | RLessonsDelete lessonId => lessons_delete lessonId
  | RUsersStats id => users_stats u id
  | RUsersList => users_list
  | RUsersDelete id => users_delete id
  | RUsersRole id => users_role id req
  | RStatic => ret (serve_static rt (pathSegments req))
  | RNotFound => ret (sendResponse 404 (err "Route not found"))
  end.

Definition cors : list (string * string) :=
  [("Access-Control-Allow-Origin", "*");
   ("Access-Control-Allow-Methods", "GET, POST, PUT, DELETE, OPTIONS");
   ("Access-Control-Allow-Headers", "Content-Type, Authorization, X-User-Id")].

Definition with_cors (o : outcome) : outcome :=
  match o with
  | Responded r => Responded (mkResponse (status r) (cors ++ headers r) (rbody r))
  | NoResponse => NoResponse
  end.

(** The [http.createServer] callback: the CORS headers are set on every
    response, OPTIONS is answered 204 at once. *)
Definition server (rt : runtime) (req : request) : M outcome :=
  if String.eqb (req_method req) "OPTIONS"
  then ret (with_cors noContent)
  else o <- handle rt req ;; ret (with_cors o).

Definition out_status (o : outcome) : option Z :=
  match o with
  | Responded r => Some (status r)
  | NoResponse => None
  end.

Definition out_body (o : outcome) : option body :=
  match o with
  | Responded r => Some (rbody r)
  | NoResponse => None
  end.

(** The response and the world after a request. *)
Definition answer (rt : runtime) (req : request) (w : world) : outcome :=
  fst (server rt req w).

Definition after (rt : runtime) (req : request) (w : world) : world :=
  snd (server rt req w).

(* ================================================================== *)
(** ** A small installation, for concrete runs *)
(* ================================================================== *)

Module Sample.

Definition files (p : list string) : option fsnode :=
  if list_eq_dec string_dec p ["srv"; "backend"; "uploads"; "intro.mp4"]
  then Some (File "0123456789")
  else if list_eq_dec string_dec p ["srv"; "backend"; "db.js"]
  then Some (File "password: 'hunter2'")
  else if list_eq_dec string_dec p ["srv"; "backend"; "uploads"]
  then Some Directory
  else None.

Definition rt : runtime :=
  mkRuntime ["srv"; "backend"] files 1000 String.eqb (fun p => p).

(** User 1 has no role (NULL), user 2 is an admin, user 3 a plain user. *)
Definition the_users : list user_row :=
  [mkUser 1 (JStr "Root") (JStr "root@example.org") "r" None 0 10;
   mkUser 2 (JStr "Ada") (JStr "ada@example.org") "a" (Some "admin") 3 20;
   mkUser 3 (JStr "Bob") (JStr "bob@example.org") "b" (Some "user") 1 30].

(** Sprint 1 is the active one. *)
Definition the_sprints : list sprint_row :=
  [mkSprint 1 (JStr "A") (JStr "first") (JStr "/uploads/a.mp4") 600 1 JNull 100;
   mkSprint 2 (JStr "B") (JStr "second") (JStr "/uploads/b.mp4") 900 0 JNull 200].

Definition the_lessons : list lesson_row :=
  [mkLesson 7 (JStr "Loops") JNull (JStr "for and while") JNull JNull JNull
     JNull (JStr "beginner") 50].

(** Bob has a marked reflection on lesson 7. *)
Definition the_reflections : list reflection_row :=
  [mkReflection 1 3 7 (JStr "old text") "marked" (JNum 6) (JStr "ok")
     (Some 500) (Some 600) 400 600].

Definition w0 : world :=
  mkWorld the_users the_sprints the_lessons [] [] [] the_reflections [] [].

Definition get (path : string) (uid : option string) : request :=
  mkRequest "GET" path uid None None.

Definition send (method path : string) (uid : option string) (b : json)
  : request :=
  mkRequest method path uid None (Some b).

End Sample.

(* ================================================================== *)
(** ** Vocabulary of the properties, and the requests of the examples *)
(* ================================================================== *)

(** *** Sprint creation *)


(** *** Authentication *)

(** The branches of the chain that begin with
    [if (!authenticate()) return;] (the stats branch tests it in its
    first condition). *)
Definition requires_auth (r : route) : bool :=
  match r with
  | RProgressGet | RProgressSave
  | RReflectionGet _ | RReflectionSave _
  | RReflectionSubmit _ | RReflectionResubmit _
  | RReflectionsSubmitted | RReflectionsMark
  | RNotesGet _ _ | RNotesSave
  | RUsersStats _ => true
  | _ => false
  end.



(** One step through a handler: the next failure of the database, then
    the next test of the code. *)
Ltac crunch_step :=
  match goal with
  | |- context [faults ?w] =>
      is_var w; destruct (faults w) as [| [? |] ?]
  | |- context [match ?x with _ => _ end] => destruct x eqn:?
  | |- context [if ?c then _ else _] => destruct c eqn:?
  end; cbn.

Ltac crunch := cbn; repeat crunch_step.

Ltac unfold_handlers :=
  unfold authenticated,
    login, signup, progress_get, progress_save,
    reflection_get, reflection_save, reflection_submit, reflection_resubmit,
    reflections_submitted, reflections_mark, notes_get, notes_save,
    sprints_list, sprints_create, sprints_delete, sprints_active,
    categories_list, categories_create, categories_delete,
    lessons_list, lessons_get, lessons_create, lessons_update, lessons_delete,
    users_stats, users_list, users_delete, users_role,
    authorizeAdmin, updateActiveStatus, active_answer,
    serve_upload, serve_static, read_file, file_not_found,
    unauthenticated, forbidden, noContent, sendResponse,
    bind, ret, query, reads.

(** *** Admin authorization *)

(** The test of [authorizeAdmin] on the rows of its query: there is a
    row and the role of the first is exactly ['admin']. *)
Definition is_admin (w : world) (uid : Z) : bool :=
  match select_role uid w with
  | role :: _ => is_admin_role role
  | [] => false
  end.

(** The caller of a request is an authenticated admin. *)
Definition caller_is_admin (req : request) (w : world) : bool :=
  authenticate (userId req) && is_admin w (uid_value (userId req)).


(** *** Administration requests *)

(** POST /api/sprints, DELETE /api/sprints/:id, PUT /api/sprints/:id/active,
    DELETE /api/users/:id, PUT /api/users/:id/role. *)
Definition admin_crud (r : route) : bool :=
  match r with
  | RSprintsCreate | RSprintsDelete _ | RSprintsActive _
  | RUsersDelete _ | RUsersRole _ => true
  | _ => false
  end.

(** The same request under another X-User-Id header. *)
Definition with_user_id (h : option string) (req : request) : request :=
  mkRequest (req_method req) (req_pathname req) h (req_range req) (req_body req).

(** The gate as the specification words it: a caller that is not an
    authenticated admin is answered 403 and nothing is written. *)
Definition admin_gated (rt : runtime) (req : request) (w : world) : Prop :=
  admin_crud (route_of req) = true ->
  caller_is_admin req w = false ->
  out_status (answer rt req w) = Some 403
  /\ tables (after rt req w) = tables w.

Definition new_sprint : json :=
  JObj [("title", JStr "T"); ("description", JStr "D");
        ("video_url", JStr "/uploads/t.mp4"); ("max_duration_minutes", JNum 90)].

(** A sprint created by a caller that sends no X-User-Id header. *)
Definition create_anonymous : request :=
  Sample.send "POST" "/api/sprints" None new_sprint.

(** Bob (a plain user, or nobody) makes Bob an admin. *)
Definition promote_anonymous : request :=
  Sample.send "PUT" "/api/users/3/role" None (JObj [("newRole", JStr "admin")]).

(** *** Marking *)





(** *** Submitting and resubmitting *)

(** The [reflection_text] a request carries. *)
Definition request_text (req : request) : jsval :=
  match body_obj req with
  | Some b => prop b "reflection_text"
  | None => None
  end.

(** A reflection row after a submission at the clock of [rt]. *)
Definition resubmit_row (rt : runtime) (text : json) (r : reflection_row)
  : reflection_row :=
  mkReflection (r_id r) (r_user_id r) (r_lesson_id r) text "submitted"
    (r_score r) (r_admin_feedback r) (Some (now rt)) (r_marked_at r)
    (r_created_at r) (now rt).

(** The row a first submission creates. *)
Definition first_submission (rt : runtime) (w : world) (uid lid : Z)
    (text : json) : reflection_row :=
  mkReflection (fresh_id (map r_id (reflections w))) uid lid text "submitted"
    JNull JNull (Some (now rt)) None (now rt) (now rt).

Definition hello : json := JObj [("reflection_text", JStr "hello")].

(** Ada has no reflection on lesson 7. *)
Definition submit_as_2 : request :=
  Sample.send "POST" "/api/lessons/7/reflection/submit" (Some "2") hello.
Definition resubmit_as_2 : request :=
  Sample.send "POST" "/api/lessons/7/reflection/resubmit" (Some "2") hello.

(** *** The single active sprint *)

(** A sprint is active when its [is_active] is 1, as the listing reads
    it. *)
Definition active (s : sprint_row) : bool := s_is_active s =? 1.

Definition at_most_one_active (w : world) : Prop :=
  (List.length (filter active (sprints w)) <= 1)%nat.

(** The [shouldActivate] a request carries. *)
Definition request_flag (req : request) : jsval :=
  match body_obj req with
  | Some b => prop b "shouldActivate"
  | None => None
  end.

Definition with_active (a : Z) (s : sprint_row) : sprint_row :=
  mkSprint (s_id s) (s_title s) (s_description s) (s_video_url s)
    (s_max_duration_seconds s) a (s_thumbnail_url s) (s_created_at s).

(** The table after "deactivate the others, then activate the target". *)
Definition activate_only (id : Z) (l : list sprint_row) : list sprint_row :=
  map (fun s => if s_id s =? id then with_active 1 s else s)
    (map (fun s => if negb (s_id s =? id) then with_active 0 s else s) l).

(** Sprint 1 is active; sprint 2 is activated. *)
Definition activate_2 : request :=
  Sample.send "PUT" "/api/sprints/2/active" None
    (JObj [("shouldActivate", JBool true)]).

(** *** Uploads and foreign keys *)

Definition get_outside : request := Sample.get "/uploads/../db.js" None.

(** The engine refuses the next statement for a missing referenced row. *)
Definition fk_failure : world :=
  set_faults [Some "ER_NO_REFERENCED_ROW_2"] Sample.w0.

Definition save_note : request :=
  Sample.send "POST" "/api/notes" (Some "3")
    (JObj [("contentType", JStr "lesson"); ("contentId", JNum 99);
           ("noteText", JStr "x")]).

Definition save_progress : request :=
  Sample.send "POST" "/api/progress" (Some "3")
    (JObj [("sprint_id", JNum 99); ("progress_percentage", JNum 50);
           ("is_completed", JBool false)]).

Definition save_draft_99 : request :=
  Sample.send "POST" "/api/lessons/99/reflection" (Some "3")
    (JObj [("reflection_text", JStr "hello")]).

Definition submit_99 : request :=
  Sample.send "POST" "/api/lessons/99/reflection/submit" (Some "3")
    (JObj [("reflection_text", JStr "hello")]).

(** *** Error responses *)

Definition is_2xx (s : Z) : Prop := 200 <= s < 300.

(** The envelope as the specification words it: the body of a response
    that is not 2xx is the JSON object [{ error: string }]. *)
Definition enveloped (o : outcome) : Prop :=
  match o with
  | Responded r => ~ is_2xx (status r) -> exists m, rbody r = BJson (err m)
  | NoResponse => True
  end.

Definition get_missing : request := Sample.get "/uploads/nothing.mp4" None.

(** What the handlers do send when the status is not 2xx: the envelope;
    on the stats branch after a database error, the envelope with the
    mock statistics beside the error; on the uploads branch, plain text. *)
Definition error_shape (rte : route) (o : outcome) : Prop :=
  match o with
  | Responded r =>
      is_2xx (status r)
      \/ (exists m, rbody r = BJson (err m))
      \/ (exists id, rte = RUsersStats id /\ status r = 500
                     /\ rbody r = BJson stats_fallback)
      \/ (rte = RUploads /\ status r = 404 /\ rbody r = BText "File Not Found"
          /\ headers r = [("Content-Type", "text/plain")])
  | NoResponse => True
  end.

Ltac shape_done :=
  cbn;
  first
    [ exact I
    | left; unfold is_2xx; cbn; lia
    | right; left; eexists; reflexivity
    | right; right; left; eexists; repeat split; reflexivity
    | right; right; right; repeat split; reflexivity ].

Definition unknown_route : request :=
  Sample.send "POST" "/api/nothing" None JNull.

(** *** Paths and byte ranges *)

(** A segment [path.join] keeps as it is. *)
Definition plain_segment (s : string) : bool :=
  negb (String.eqb s "" || String.eqb s "." || String.eqb s "..").

(** A segment [path.join] does not drop. *)
Definition kept_segment (s : string) : bool :=
  negb (String.eqb s "" || String.eqb s ".").

Definition ranged (r : string) : request :=
  mkRequest "GET" "/uploads/intro.mp4" None (Some r) None.

(** An installation with a built frontend. *)
Definition spa_files (p : list string) : option fsnode :=
  if list_eq_dec string_dec p ["srv"; "frontend"; "dist"; "index.html"]
  then Some (File "<html></html>")
  else None.

Definition spa_rt : runtime :=
  mkRuntime ["srv"; "backend"] spa_files 1000 String.eqb (fun p => p).

(** *** What a request may change *)

(** A response was sent and its status is 2xx. *)
Definition succeeded (o : outcome) : Prop :=
  match o with
  | Responded r => is_2xx (status r)
  | NoResponse => False
  end.

(** The tests of the dispatch chain, one after the other. *)
Ltac split_route :=
  repeat match goal with
         | |- context [if ?c then _ else _] =>
             lazymatch c with
             | context [String.eqb] => destruct c
             | context [Nat.eqb] => destruct c
             | context [Str.startsWith] => destruct c
             end
         end.

(** One step through a handler run on explicit tables: the identity
    test, the next failure of the database, the next test of the code. *)
Ltac run_step :=
  match goal with
  | |- context [if authenticate ?u then _ else _] =>
      destruct (authenticate u) eqn:?
  | |- context [match ?fl with [] => _ | _ :: _ => _ end] =>
      is_var fl; destruct fl as [| [? |] ?]
  | |- context [if ?c then _ else _] => destruct c eqn:?
  | |- context [match ?x with _ => _ end] =>
      lazymatch type of x with
      | prod _ _ => fail
      | _ => destruct x eqn:?
      end
  end; cbn.

Ltac run_handlers := unfold_handlers; cbn; repeat run_step.

Ltac unfold_statements :=
  unfold upsert_progress, upsert_note, upsert_draft, upsert_submit,
    update_resubmit, update_mark, insert_user, insert_sprint, delete_sprint,
    insert_category, delete_category, insert_lesson, update_lesson,
    delete_lesson, delete_user, update_role.

Definition delete_user_99 : request :=
  mkRequest "DELETE" "/api/users/99" None None None.

Definition activate_99 : request :=
  Sample.send "PUT" "/api/sprints/99/active" None
    (JObj [("shouldActivate", JBool true)]).

(** The ids of the three tables that are looked up by id. *)
Definition distinct_ids (w : world) : Prop :=
  NoDup (map u_id (users w))
  /\ NoDup (map s_id (sprints w))
  /\ NoDup (map r_id (reflections w)).

(** The branches that write a row owned by the caller. *)
Definition owner_route (r : route) : bool :=
  match r with
  | RProgressSave | RNotesSave
  | RReflectionSave _ | RReflectionSubmit _ | RReflectionResubmit _ => true
  | _ => false
  end.

(** The rows of the users other than [n]. *)
Definition others_reflections (n : Z) (w : world) : list reflection_row :=
  filter (fun r => negb (r_user_id r =? n)) (reflections w).
Definition others_notes (n : Z) (w : world) : list note_row :=
  filter (fun x => negb (n_user_id x =? n)) (notes w).
Definition others_progress (n : Z) (w : world) : list progress_row :=
  filter (fun p => negb (p_user_id p =? n)) (progress w).

(** *** Stored values read back *)

(** The rows of an upsert: every row of the key becomes [row], or [row]
    is appended when the key is new. *)
Definition upserted {A} (same : A -> bool) (row : A) (l : list A) : list A :=
  if existsb same l
  then map (fun x => if same x then row else x) l
  else (l ++ [row])%list.

Definition save_note_3 : request :=
  Sample.send "POST" "/api/notes" (Some "3")
    (JObj [("contentType", JStr "lesson"); ("contentId", JNum 7);
           ("noteText", JStr "remember the loop bound")]).

Definition get_note_3 : request := Sample.get "/api/notes/lesson/7" (Some "3").

Definition same_progress (uid sid : Z) (p : progress_row) : bool :=
  (p_user_id p =? uid) && (p_sprint_id p =? sid).

(** Half way through, marked as completed. *)
Definition half_done : json :=
  JObj [("sprint_id", JNum 2); ("progress_percentage", JNum 50);
        ("is_completed", JBool true)].

Definition save_progress_3 : request :=
  Sample.send "POST" "/api/progress" (Some "3") half_done.

Definition get_progress_3 : request := Sample.get "/api/progress" (Some "3").

(** A reflection row after a draft was saved over it. *)
Definition draft_row (rt : runtime) (text : json) (r : reflection_row)
  : reflection_row :=
  mkReflection (r_id r) (r_user_id r) (r_lesson_id r) text "draft"
    (r_score r) (r_admin_feedback r) (r_submitted_at r) (r_marked_at r)
    (r_created_at r) (now rt).

(** The row a first draft creates. *)
Definition first_draft (rt : runtime) (w : world) (uid lid : Z) (text : json)
  : reflection_row :=
  mkReflection (fresh_id (map r_id (reflections w))) uid lid text "draft"
    JNull JNull None None (now rt) (now rt).

(** Bob saves a draft over his marked reflection on lesson 7. *)
Definition save_draft_3 : request :=
  Sample.send "POST" "/api/lessons/7/reflection" (Some "3")
    (JObj [("reflection_text", JStr "second thoughts")]).

Definition get_reflection_3 : request :=
  Sample.get "/api/lessons/7/reflection" (Some "3").

(** *** Accounts *)

(** The row a signup inserts. *)
Definition signed_up (rt : runtime) (w : world) (name : json) (e p : string)
  : user_row :=
  mkUser (fresh_id (map u_id (users w))) name (JStr e) (bcrypt_hash rt p)
    (Some "user") 0 (now rt).

Definition carol : json :=
  JObj [("name", JStr "Carol"); ("email", JStr "carol@example.org");
        ("password", JStr "s3cret")].

Definition signup_carol : request := Sample.send "POST" "/signup" None carol.
Definition login_carol : request := Sample.send "POST" "/login" None carol.

(** A user row with another role. *)
Definition with_role (role : string) (u : user_row) : user_row :=
  mkUser (u_id u) (u_name u) (u_email u) (u_password u) (Some role)
    (u_streak_days u) (u_created_at u).

(** The [newRole] a request carries. *)
Definition request_role (req : request) : jsval :=
  match body_obj req with
  | Some b => prop b "newRole"
  | None => None
  end.

Definition submitted_as_3 : request :=
  Sample.get "/api/reflections/submitted" (Some "3").

Definition delete_user_2 : request :=
  mkRequest "DELETE" "/api/users/2" None None None.


(** *** The sprint table *)

(** [a] is listed before [b]: it is not older. *)
Definition newer_first (a b : sprint_row) : Prop :=
  s_created_at b <= s_created_at a.




(** *** Routing and listings *)

(** The request with another path: method, headers and body are kept. *)
Definition with_pathname (p : string) (req : request) : request :=
  mkRequest (req_method req) p (req_x_user_id req) (req_range req)
    (req_body req).

Definition get_Intro_MP4 : request := Sample.get "/uploads/Intro.MP4" None.

(** The value of a column after an update: the one sent, the old one when
    the field is not in the payload. *)
Definition sent (payload : json) (f : string) (old : json) : json :=
  with_default (prop payload f) old.

Definition updated_lesson (payload : json) (l : lesson_row) : lesson_row :=
  mkLesson (l_id l)
    (sent payload "title" (l_title l))
    (sent payload "code_snippet" (l_code_snippet l))
    (sent payload "description" (l_description l))
    (sent payload "challenge" (l_challenge l))
    (sent payload "reflection" (l_reflection l))
    (sent payload "skill_category_id" (l_skill_category_id l))
    (sent payload "skill_category" (l_skill_category l))
    (sent payload "level" (l_level l))
    (l_created_at l).

(** The status of PUT /api/lessons/:id when the database answers. *)
Definition update_status (payload : json) (id : Z) (w : world) : Z :=
  match update_fields payload with
  | [] => 400
  | _ :: _ => if existsb (fun l => l_id l =? id) (lessons w) then 200 else 404
  end.

Definition retitle_7 : request :=
  Sample.send "PUT" "/api/lessons/7" None (JObj [("title", JStr "Loops II")]).

(** The lesson as an update that sends none of the allowed fields leaves
    it: only the column [skill_category] may differ. *)
Definition relabelled (b : json) (id : Z) (l : lesson_row) : lesson_row :=
  if l_id l =? id then updated_lesson b l else l.

Definition relabel_7 : request :=
  Sample.send "PUT" "/api/lessons/7" None
    (JObj [("skill_category", JStr "Control flow")]).

(* ================================================================== *)
(** ** The runtime functions on examples *)
(* ================================================================== *)

Example parseInt_examples :
  parseInt_str "42" = Num 42 /\ parseInt_str "  -7xyz" = Num (-7)
  /\ parseInt_str "12abc" = Num 12 /\ parseInt_str "abc" = NaN
  /\ parseInt_str "" = NaN /\ parseInt (Some (JNum 15)) = Num 15
  /\ parseInt (Some (JArr [JStr "10"; JNull])) = Num 10.
Proof. repeat split; reflexivity. Qed.

Example string_examples :
  Str.split "/" (Str.toLowerCase (Str.strip_slashes "//API/Sprints/7/active/"))
  = ["api"; "sprints"; "7"; "active"]
  /\ Str.split "/" "" = [""]
  /\ Str.trim "  a b  " = "a b"
  /\ Str.includes "Sprint not found" "not found" = true
  /\ Str.removeFirst "bytes=0-99" "bytes=" = "0-99".
Proof. repeat split; reflexivity. Qed.

(* ================================================================== *)
(** ** Routing facts *)
(* ================================================================== *)

(** An OPTIONS request reaches no branch of the chain but the last. *)
Lemma dispatch_options (url : string) (segs : list string) :
  dispatch "OPTIONS" url segs = RNotFound.
Proof.
  unfold dispatch. cbn [String.eqb Ascii.eqb Bool.eqb].
  rewrite ?andb_false_r. cbn [orb andb]. rewrite ?andb_false_r.
  reflexivity.
Qed.

Lemma routed_not_options (req : request) :
  route_of req <> RNotFound -> req_method req <> "OPTIONS".
Proof.
  intros H E. apply H. unfold route_of. rewrite E. apply dispatch_options.
Qed.

(** Past the OPTIONS test, the server is the handler with the CORS
    headers added. *)
Lemma server_handle (rt : runtime) (req : request) (w : world) :
  req_method req <> "OPTIONS" ->
  server rt req w = (with_cors (fst (handle rt req w)), snd (handle rt req w)).
Proof.
  intros H. unfold server.
  destruct (String.eqb_spec (req_method req) "OPTIONS") as [E | _].
  - contradiction.
  - unfold bind, ret. destruct (handle rt req w); reflexivity.
Qed.

Lemma status_with_cors (o : outcome) : out_status (with_cors o) = out_status o.
Proof. destruct o; reflexivity. Qed.


Lemma answer_routed (rt : runtime) (req : request) (w : world) :
  route_of req <> RNotFound ->
  answer rt req w = with_cors (fst (handle rt req w))
  /\ after rt req w = snd (handle rt req w).
Proof.
  intros H. unfold answer, after.
  rewrite (server_handle rt req w (routed_not_options req H)). split; reflexivity.
Qed.

(* ================================================================== *)
(** ** Sprint creation: the duration bound *)
(* ================================================================== *)




Lemma body_obj_intro (req : request) (b : json) :
  req_body req = Some b -> b <> JNull -> body_obj req = Some b.
Proof.
  unfold body_obj. intros -> H. destruct b; congruence.
Qed.



Example maxDurationSeconds_examples :
  maxDurationSeconds (Some (JNum 15)) = 900
  /\ maxDurationSeconds (Some (JStr "45")) = 2700
  /\ maxDurationSeconds (Some (JNum 90)) = 3600
  /\ maxDurationSeconds (Some (JNum 0)) = 600
  /\ maxDurationSeconds (Some (JNum (-5))) = 600
  /\ maxDurationSeconds (Some (JStr "soon")) = 600
  /\ maxDurationSeconds (Some JNull) = 600.
Proof. repeat split; reflexivity. Qed.

(* ================================================================== *)
(** ** Authentication *)
(* ================================================================== *)





Lemma requires_auth_routed (req : request) :
  requires_auth (route_of req) = true -> route_of req <> RNotFound.
Proof. intros H E. rewrite E in H. discriminate H. Qed.


(** What the model calls numeric: a header that begins with digits is
    read up to the first other character. *)
Example header_examples :
  authenticate (userId (Sample.get "/api/progress" (Some "42"))) = true
  /\ authenticate (userId (Sample.get "/api/progress" (Some "12abc"))) = true
  /\ authenticate (userId (Sample.get "/api/progress" (Some "abc"))) = false
  /\ authenticate (userId (Sample.get "/api/progress" (Some "0"))) = false
  /\ authenticate (userId (Sample.get "/api/progress" (Some "-3"))) = false
  /\ authenticate (userId (Sample.get "/api/progress" (Some ""))) = false
  /\ authenticate (userId (Sample.get "/api/progress" None)) = false.
Proof. repeat split; reflexivity. Qed.


(* ================================================================== *)
(** ** Admin authorization *)
(* ================================================================== *)

Lemma tables_set_faults (fl : list (option string)) (w : world) :
  tables (set_faults fl w) = tables w.
Proof. destruct w; reflexivity. Qed.

Lemma select_role_set_faults (fl : list (option string)) (w : world) (uid : Z) :
  select_role uid (set_faults fl w) = select_role uid w.
Proof. destruct w; reflexivity. Qed.


(** A caller without an admin row is refused before the callback runs,
    whatever the database does. *)
Lemma authorizeAdmin_refuses (w : world) (uid : Z) (callback : M outcome) :
  is_admin w uid = false ->
  fst (authorizeAdmin uid callback w) = forbidden
  /\ tables (snd (authorizeAdmin uid callback w)) = tables w.
Proof.
  intros H. unfold is_admin in H.
  unfold authorizeAdmin, bind, query, reads, ret.
  destruct (faults w) as [| [code |] rest] eqn:Ef.
  - destruct (select_role uid w) as [| role l]; [auto |].
    rewrite H. auto.
  - split; [reflexivity | apply tables_set_faults].
  - rewrite select_role_set_faults.
    destruct (select_role uid w) as [| role l].
    + split; [reflexivity | apply tables_set_faults].
    + rewrite H. split; [reflexivity | apply tables_set_faults].
Qed.

(** An admin caller reaches the callback, when the role query does not
    fail. *)
Lemma authorizeAdmin_admits (w : world) (uid : Z) (callback : M outcome) :
  is_admin w uid = true -> faults w = [] ->
  authorizeAdmin uid callback w = callback w.
Proof.
  intros H Hf. unfold is_admin in H.
  unfold authorizeAdmin, bind, query, reads, ret. rewrite Hf.
  destruct (select_role uid w) as [| role l]; [discriminate H |].
  rewrite H. reflexivity.
Qed.

(** No row of the caller says ['admin']: the row is missing, or its role
    is NULL or another role. *)
Lemma not_admin_without_row (w : world) (uid : Z) :
  (forall u, In u (users w) -> u_id u = uid -> u_role u <> Some "admin") ->
  is_admin w uid = false.
Proof.
  intros H. unfold is_admin, select_role.
  destruct (filter (fun u => u_id u =? uid) (users w)) as [| u l] eqn:E;
    [reflexivity |].
  assert (Hin : In u (filter (fun u => u_id u =? uid) (users w)))
    by (rewrite E; left; reflexivity).
  apply filter_In in Hin. destruct Hin as [Hin Hid].
  apply Z.eqb_eq in Hid. specialize (H u Hin Hid).
  cbn. unfold is_admin_role. destruct (u_role u) as [r |]; [| reflexivity].
  destruct (String.eqb_spec r "admin"); [subst; congruence | reflexivity].
Qed.



(* ================================================================== *)
(** ** Sprint and user administration: who may call it *)
(* ================================================================== *)

(** C1, as stated, fails: a request without any X-User-Id header creates
    a sprint and is answered 201. *)
Lemma admin_gating_counterexample :
  admin_crud (route_of create_anonymous) = true
  /\ caller_is_admin create_anonymous Sample.w0 = false
  /\ out_status (answer Sample.rt create_anonymous Sample.w0) = Some 201
  /\ List.length (sprints (after Sample.rt create_anonymous Sample.w0)) = 3%nat
  /\ ~ admin_gated Sample.rt create_anonymous Sample.w0.
Proof.
  repeat (split; [reflexivity |]).
  intros H. destruct H as [H _]; [reflexivity | reflexivity |].
  vm_compute in H. discriminate H.
Qed.

Lemma route_of_with_user_id (h : option string) (req : request) :
  route_of (with_user_id h req) = route_of req.
Proof. reflexivity. Qed.

Lemma handle_ignores_user_id (rt : runtime) (h : option string) (req : request)
    (w : world) :
  admin_crud (route_of req) = true ->
  handle rt (with_user_id h req) w = handle rt req w.
Proof.
  intros Hr. unfold handle. rewrite route_of_with_user_id.
  destruct (route_of req); try discriminate Hr; reflexivity.
Qed.

Lemma admin_crud_status (rt : runtime) (req : request) (w : world) :
  admin_crud (route_of req) = true ->
  out_status (fst (handle rt req w)) <> Some 401
  /\ out_status (fst (handle rt req w)) <> Some 403.
Proof.
  intros Hr. unfold handle.
  destruct (route_of req); try discriminate Hr;
    unfold_handlers; crunch; split; discriminate.
Qed.

(** C1, amended.  The five administration requests are handled without any
    authentication or authorization: the answer and the tables afterwards
    are the same under every X-User-Id header, present or not, and the
    answer is never 401 or 403. *)
Theorem admin_crud_ungated (rt : runtime) (req : request) (w : world)
    (h : option string) :
  admin_crud (route_of req) = true ->
  server rt (with_user_id h req) w = server rt req w
  /\ out_status (answer rt req w) <> Some 401
  /\ out_status (answer rt req w) <> Some 403.
Proof.
  intros Hr.
  assert (Hn : route_of req <> RNotFound)
    by (intros E; rewrite E in Hr; discriminate Hr).
  split.
  - rewrite (server_handle rt req w (routed_not_options req Hn)).
    rewrite (server_handle rt (with_user_id h req) w
               (routed_not_options req Hn)).
    rewrite (handle_ignores_user_id rt h req w Hr). reflexivity.
  - destruct (answer_routed rt req w Hn) as [Ha _].
    rewrite Ha, status_with_cors. apply admin_crud_status. exact Hr.
Qed.

Lemma admin_crud_ungated_witness :
  admin_crud (route_of promote_anonymous) = true
  /\ server Sample.rt (with_user_id (Some "3") promote_anonymous) Sample.w0
     = server Sample.rt promote_anonymous Sample.w0
  /\ out_status (answer Sample.rt promote_anonymous Sample.w0) <> Some 401
  /\ out_status (answer Sample.rt promote_anonymous Sample.w0) <> Some 403.
Proof.
  split; [reflexivity |].
  apply (admin_crud_ungated Sample.rt promote_anonymous Sample.w0 (Some "3")).
  reflexivity.
Defined.

(* ================================================================== *)
(** ** Marking a reflection *)
(* ================================================================== *)

Lemma count_zero {A} (p : A -> bool) (l : list A) :
  (count p l =? 0) = negb (existsb p l).
Proof.
  unfold count. induction l as [| x l IH]; [reflexivity |].
  cbn. destruct (p x); cbn.
  - destruct (Z.eqb_spec (Z.pos (Pos.of_succ_nat (List.length (filter p l)))) 0);
      [lia | reflexivity].
  - exact IH.
Qed.

Lemma map_untouched {A} (p : A -> bool) (g : A -> A) (l : list A) :
  existsb p l = false -> map (fun x => if p x then g x else x) l = l.
Proof.
  induction l as [| x l IH]; [reflexivity |].
  cbn. destruct (p x); [discriminate |]. intros H. rewrite IH by exact H.
  reflexivity.
Qed.

Lemma set_reflections_same (w : world) : set_reflections (reflections w) w = w.
Proof. destruct w; reflexivity. Qed.




Lemma authenticate_positive (n : Z) : 0 < n -> authenticate (Some (Num n)) = true.
Proof.
  intros H. unfold authenticate. cbn.
  destruct (Z.eqb_spec n 0); [lia |].
  destruct (Z.leb_spec n 0); [lia | reflexivity].
Qed.






(* ================================================================== *)
(** ** Submitting and resubmitting a reflection *)
(* ================================================================== *)

Lemma reflection_of_ids (uid lid : Z) (r : reflection_row) :
  reflection_of uid lid r = true -> r_user_id r = uid /\ r_lesson_id r = lid.
Proof.
  unfold reflection_of. intros H. apply andb_true_iff in H.
  destruct H as [H1 H2]. split; apply Z.eqb_eq; assumption.
Qed.

Lemma submit_rows (rt : runtime) (uid lid : Z) (text : json)
    (l : list reflection_row) :
  map (fun r =>
         if reflection_of uid lid r
         then mkReflection (r_id r) uid lid text "submitted" (r_score r)
                (r_admin_feedback r) (Some (now rt)) (r_marked_at r)
                (r_created_at r) (now rt)
         else r) l
  = map (fun r => if reflection_of uid lid r then resubmit_row rt text r else r) l.
Proof.
  apply map_ext. intros r. destruct (reflection_of uid lid r) eqn:E;
    [| reflexivity].
  destruct (reflection_of_ids uid lid r E) as [<- <-]. reflexivity.
Qed.

Lemma resubmit_rows_idem (rt : runtime) (uid lid : Z) (text : json)
    (l : list reflection_row) :
  let f := fun r => if reflection_of uid lid r then resubmit_row rt text r else r in
  map f (map f l) = map f l.
Proof.
  cbv zeta. rewrite map_map. apply map_ext. intros r.
  destruct (reflection_of uid lid r) eqn:E.
  - assert (E' : reflection_of uid lid (resubmit_row rt text r) = true)
      by exact E.
    rewrite E'. reflexivity.
  - rewrite E. reflexivity.
Qed.

Lemma existsb_map_resubmit (rt : runtime) (uid lid : Z) (text : json)
    (l : list reflection_row) :
  existsb (reflection_of uid lid)
    (map (fun r => if reflection_of uid lid r then resubmit_row rt text r else r) l)
  = existsb (reflection_of uid lid) l.
Proof.
  induction l as [| r l IH]; [reflexivity |].
  cbn [map existsb]. rewrite IH. f_equal.
  destruct (reflection_of uid lid r) eqn:E; [exact E | exact E].
Qed.

Lemma request_text_body (req : request) (v : json) :
  request_text req = Some v ->
  exists b, body_obj req = Some b /\ prop b "reflection_text" = Some v.
Proof.
  unfold request_text. destruct (body_obj req) as [b |]; [| discriminate].
  intros H. exists b. auto.
Qed.

Lemma not_blank (text : string) :
  Str.trim text <> "" -> blank_text (Some (JStr text)) = Some false.
Proof.
  intros H. cbn. destruct (String.eqb_spec (Str.trim text) ""); congruence.
Qed.

Lemma reflections_set_reflections (l : list reflection_row) (w : world) :
  reflections (set_reflections l w) = l.
Proof. reflexivity. Qed.

(** The run of the submit branch on a text that is not blank, the
    database answering. *)
Lemma submit_run (rt : runtime) (req : request) (w : world) (n : Z)
    (lessonId text : string) :
  request_text req = Some (JStr text) -> Str.trim text <> "" ->
  faults w = [] ->
  reflection_submit rt n lessonId req w =
  (sendResponse 200 (msg "Reflection submitted for marking"),
   if existsb (reflection_of n (sql_int lessonId)) (reflections w)
   then set_reflections
          (map (fun r => if reflection_of n (sql_int lessonId) r
                         then resubmit_row rt (JStr text) r else r)
             (reflections w)) w
   else set_reflections
          (reflections w
           ++ [first_submission rt w n (sql_int lessonId) (JStr text)]) w).
Proof.
  intros Ht Hne Hf. destruct (request_text_body req _ Ht) as (b & Hb & Hp).
  unfold reflection_submit. rewrite Hb. cbv zeta. rewrite Hp, (not_blank text Hne).
  unfold bind, query, ret, upsert_submit. rewrite Hf.
  cbn [stored with_default].
  destruct (existsb (reflection_of n (sql_int lessonId)) (reflections w)).
  - rewrite submit_rows. reflexivity.
  - reflexivity.
Qed.

(** The run of the resubmit branch, likewise. *)
Lemma resubmit_run (rt : runtime) (req : request) (w : world) (n : Z)
    (lessonId text : string) :
  request_text req = Some (JStr text) -> Str.trim text <> "" ->
  faults w = [] ->
  reflection_resubmit rt n lessonId req w =
  if existsb (reflection_of n (sql_int lessonId)) (reflections w)
  then (sendResponse 200 (msg "Reflection resubmitted for marking"),
        set_reflections
          (map (fun r => if reflection_of n (sql_int lessonId) r
                         then resubmit_row rt (JStr text) r else r)
             (reflections w)) w)
  else (sendResponse 404 (err "Reflection not found"), w).
Proof.
  intros Ht Hne Hf. destruct (request_text_body req _ Ht) as (b & Hb & Hp).
  unfold reflection_resubmit. rewrite Hb. cbv zeta. rewrite Hp, (not_blank text Hne).
  unfold bind, query, ret, update_resubmit. rewrite Hf.
  cbn [stored with_default]. rewrite count_zero.
  destruct (existsb (reflection_of n (sql_int lessonId)) (reflections w)) eqn:E;
    cbn [negb].
  - reflexivity.
  - rewrite (map_untouched _ _ _ E), set_reflections_same. reflexivity.
Qed.

Lemma submit_server (rt : runtime) (req : request) (w : world) (n : Z)
    (lessonId : string) :
  route_of req = RReflectionSubmit lessonId ->
  userId req = Some (Num n) -> 0 < n ->
  answer rt req w = with_cors (fst (reflection_submit rt n lessonId req w))
  /\ after rt req w = snd (reflection_submit rt n lessonId req w).
Proof.
  intros Hr Hu Hn.
  assert (H : route_of req <> RNotFound) by (rewrite Hr; discriminate).
  destruct (answer_routed rt req w H) as [Ha Hw]. rewrite Ha, Hw.
  unfold handle. rewrite Hr. unfold authenticated.
  rewrite Hu, (authenticate_positive n Hn). split; reflexivity.
Qed.

Lemma resubmit_server (rt : runtime) (req : request) (w : world) (n : Z)
    (lessonId : string) :
  route_of req = RReflectionResubmit lessonId ->
  userId req = Some (Num n) -> 0 < n ->
  answer rt req w = with_cors (fst (reflection_resubmit rt n lessonId req w))
  /\ after rt req w = snd (reflection_resubmit rt n lessonId req w).
Proof.
  intros Hr Hu Hn.
  assert (H : route_of req <> RNotFound) by (rewrite Hr; discriminate).
  destruct (answer_routed rt req w H) as [Ha Hw]. rewrite Ha, Hw.
  unfold handle. rewrite Hr. unfold authenticated.
  rewrite Hu, (authenticate_positive n Hn). split; reflexivity.
Qed.

Lemma set_reflections_twice (l l' : list reflection_row) (w : world) :
  set_reflections l (set_reflections l' w) = set_reflections l w.
Proof. reflexivity. Qed.

Lemma reflection_of_refl (uid lid : Z) (r : reflection_row) :
  r_user_id r = uid -> r_lesson_id r = lid -> reflection_of uid lid r = true.
Proof.
  intros <- <-. unfold reflection_of. rewrite !Z.eqb_refl. reflexivity.
Qed.

(** Submitting again what has just been submitted changes nothing. *)
Lemma submit_twice (rt : runtime) (req : request) (w : world) (n : Z)
    (lessonId text : string) :
  request_text req = Some (JStr text) -> Str.trim text <> "" ->
  faults w = [] ->
  snd (reflection_submit rt n lessonId req
         (snd (reflection_submit rt n lessonId req w)))
  = snd (reflection_submit rt n lessonId req w).
Proof.
  intros Ht Hne Hf. rewrite (submit_run rt req w n lessonId text Ht Hne Hf).
  cbn [snd].
  destruct (existsb (reflection_of n (sql_int lessonId)) (reflections w)) eqn:E.
  - rewrite (submit_run rt req _ n lessonId text Ht Hne) by exact Hf.
    cbn [snd]. rewrite reflections_set_reflections, existsb_map_resubmit, E.
    rewrite (resubmit_rows_idem rt n (sql_int lessonId) (JStr text)).
    apply set_reflections_twice.
  - rewrite (submit_run rt req _ n lessonId text Ht Hne) by exact Hf.
    cbn [snd]. rewrite reflections_set_reflections.
    rewrite existsb_app. cbn [existsb].
    rewrite (reflection_of_refl n (sql_int lessonId)
               (first_submission rt w n (sql_int lessonId) (JStr text))
               eq_refl eq_refl).
    rewrite orb_true_r, map_app, (map_untouched _ _ _ E).
    cbn [map].
    rewrite (reflection_of_refl n (sql_int lessonId)
               (first_submission rt w n (sql_int lessonId) (JStr text))
               eq_refl eq_refl).
    apply set_reflections_twice.
Qed.

(** C5.  For a caller [n], a lesson and a text that is not blank, the
    database answering.  Without a row for (caller, lesson), resubmit
    answers 404 and changes nothing, while submit creates the row.  With a
    row, in whatever state, both answer 200 and leave the same tables: the
    row has the new text, the status 'submitted' and [submitted_at] set to
    the clock.  Submitting the same text once more changes nothing. *)
Theorem submit_resubmit_asymmetry (rt : runtime) (reqS reqR : request)
    (w : world) (n : Z) (lessonId text : string) :
  route_of reqS = RReflectionSubmit lessonId ->
  route_of reqR = RReflectionResubmit lessonId ->
  userId reqS = Some (Num n) -> userId reqR = Some (Num n) -> 0 < n ->
  request_text reqS = Some (JStr text) ->
  request_text reqR = Some (JStr text) ->
  Str.trim text <> "" ->
  faults w = [] ->
  (existsb (reflection_of n (sql_int lessonId)) (reflections w) = false ->
     out_status (answer rt reqR w) = Some 404
     /\ after rt reqR w = w
     /\ out_status (answer rt reqS w) = Some 200
     /\ reflections (after rt reqS w)
        = (reflections w
           ++ [first_submission rt w n (sql_int lessonId) (JStr text)])%list)
  /\ (existsb (reflection_of n (sql_int lessonId)) (reflections w) = true ->
        out_status (answer rt reqS w) = Some 200
        /\ out_status (answer rt reqR w) = Some 200
        /\ reflections (after rt reqS w)
           = map (fun r => if reflection_of n (sql_int lessonId) r
                           then resubmit_row rt (JStr text) r else r)
               (reflections w)
        /\ after rt reqR w = after rt reqS w)
  /\ after rt reqS (after rt reqS w) = after rt reqS w.
Proof.
  intros HrS HrR HuS HuR Hn HtS HtR Hne Hf.
  destruct (submit_server rt reqS w n lessonId HrS HuS Hn) as [HaS HwS].
  destruct (resubmit_server rt reqR w n lessonId HrR HuR Hn) as [HaR HwR].
  destruct (submit_server rt reqS (after rt reqS w) n lessonId HrS HuS Hn)
    as [_ HwS2].
  rewrite HwS2, HaS, HaR, HwS, HwR, !status_with_cors. clear HwS2 HaS HaR HwS HwR.
  split; [| split].
  - intros E.
    rewrite (resubmit_run rt reqR w n lessonId text HtR Hne Hf), E.
    rewrite (submit_run rt reqS w n lessonId text HtS Hne Hf), E.
    repeat split; reflexivity.
  - intros E.
    rewrite (resubmit_run rt reqR w n lessonId text HtR Hne Hf), E.
    rewrite (submit_run rt reqS w n lessonId text HtS Hne Hf), E.
    repeat split; reflexivity.
  - apply (submit_twice rt reqS w n lessonId text HtS Hne Hf).
Qed.

Lemma hello_not_blank : Str.trim "hello" <> "".
Proof. discriminate. Qed.

Lemma submit_resubmit_asymmetry_witness :
  route_of submit_as_2 = RReflectionSubmit "7"
  /\ route_of resubmit_as_2 = RReflectionResubmit "7"
  /\ userId submit_as_2 = Some (Num 2) /\ userId resubmit_as_2 = Some (Num 2)
  /\ 0 < 2
  /\ request_text submit_as_2 = Some (JStr "hello")
  /\ request_text resubmit_as_2 = Some (JStr "hello")
  /\ Str.trim "hello" <> ""
  /\ faults Sample.w0 = []
  /\ existsb (reflection_of 2 (sql_int "7")) (reflections Sample.w0) = false
  /\ out_status (answer Sample.rt resubmit_as_2 Sample.w0) = Some 404
  /\ after Sample.rt resubmit_as_2 Sample.w0 = Sample.w0
  /\ out_status (answer Sample.rt submit_as_2 Sample.w0) = Some 200
  /\ reflections (after Sample.rt submit_as_2 Sample.w0)
     = (reflections Sample.w0
        ++ [first_submission Sample.rt Sample.w0 2 (sql_int "7") (JStr "hello")])%list.
Proof.
  do 10 (split; [first [reflexivity | lia | exact hello_not_blank] |]).
  destruct (submit_resubmit_asymmetry Sample.rt submit_as_2 resubmit_as_2
              Sample.w0 2 "7" "hello" eq_refl eq_refl eq_refl eq_refl
              eq_refl eq_refl eq_refl hello_not_blank eq_refl) as [H _].
  exact (H eq_refl).
Defined.

(* ================================================================== *)
(** ** The single active sprint *)
(* ================================================================== *)

Lemma activate_only_others (id : Z) (l : list sprint_row) :
  existsb (fun s => s_id s =? id) l = false ->
  filter active (activate_only id l) = [].
Proof.
  unfold activate_only. induction l as [| h t IH]; [reflexivity |].
  cbn [existsb map]. destruct (s_id h =? id) eqn:E; [discriminate |].
  cbn [orb negb]. intros H.
  assert (E' : (s_id (with_active 0 h) =? id) = false) by exact E.
  rewrite E'. cbn [filter]. unfold active at 1. cbn [with_active s_is_active].
  cbn [Z.eqb]. exact (IH H).
Qed.



Lemma active_server (rt : runtime) (req : request) (w : world)
    (sprintId : string) :
  route_of req = RSprintsActive sprintId ->
  answer rt req w = with_cors (fst (sprints_active sprintId req w))
  /\ after rt req w = snd (sprints_active sprintId req w).
Proof.
  intros Hr.
  assert (H : route_of req <> RNotFound) by (rewrite Hr; discriminate).
  destruct (answer_routed rt req w H) as [Ha Hw]. rewrite Ha, Hw.
  unfold handle. rewrite Hr. split; reflexivity.
Qed.

Lemma existsb_id_deactivated (id : Z) (l : list sprint_row) :
  existsb (fun s => s_id s =? id)
    (map (fun s => if negb (s_id s =? id) then with_active 0 s else s) l)
  = existsb (fun s => s_id s =? id) l.
Proof.
  induction l as [| h t IH]; [reflexivity |].
  cbn [map existsb]. rewrite IH. f_equal.
  destruct (s_id h =? id) eqn:E; cbn [negb]; exact E.
Qed.






(** When the deactivation statement itself fails, the handler logs the
    error and goes on to activate the target. *)
Example activation_after_failed_deactivation :
  out_status (answer Sample.rt activate_2
                (set_faults [Some "PROTOCOL_CONNECTION_LOST"] Sample.w0))
  = Some 200
  /\ map s_id
       (filter active
          (sprints (after Sample.rt activate_2
                      (set_faults [Some "PROTOCOL_CONNECTION_LOST"] Sample.w0))))
     = [1; 2].
Proof. split; reflexivity. Qed.

(* ================================================================== *)
(** ** The upload file server and its root *)
(* ================================================================== *)

(** C2 at the failing input.  The uploads root of the sample is
    /srv/backend/uploads.  GET /uploads/../db.js is routed to the file
    server, [path.join] resolves the [..] segment, and the bytes of
    /srv/backend/db.js, a file outside the root, are served with 200. *)
Theorem upload_serves_outside_root :
  route_of get_outside = RUploads
  /\ UPLOADS_DIR Sample.rt = ["srv"; "backend"; "uploads"]
  /\ upload_path Sample.rt (pathSegments get_outside) = ["srv"; "backend"; "db.js"]
  /\ under (UPLOADS_DIR Sample.rt)
       (upload_path Sample.rt (pathSegments get_outside)) = false
  /\ out_status (answer Sample.rt get_outside Sample.w0) = Some 200
  /\ out_body (answer Sample.rt get_outside Sample.w0)
     = Some (BBytes "password: 'hunter2'").
Proof. repeat split; reflexivity. Qed.

(** A path without [..] stays where it is joined. *)
Example upload_inside_root :
  upload_path Sample.rt (pathSegments (Sample.get "/uploads/intro.mp4" None))
  = ["srv"; "backend"; "uploads"; "intro.mp4"]
  /\ under (UPLOADS_DIR Sample.rt)
       (upload_path Sample.rt (pathSegments (Sample.get "/uploads/intro.mp4" None)))
     = true
  /\ out_body (answer Sample.rt (Sample.get "/uploads/intro.mp4" None) Sample.w0)
     = Some (BBytes "0123456789").
Proof. repeat split; reflexivity. Qed.

(* ================================================================== *)
(** ** Foreign-key failures *)
(* ================================================================== *)

(** C3 at the failing inputs.  On a foreign-key failure the progress
    upsert answers 400; the notes upsert builds the validation message and
    sends it with 500; saving and submitting a reflection answer 500 with
    their general message. *)
Theorem foreign_key_failure_statuses :
  out_status (answer Sample.rt save_progress fk_failure) = Some 400
  /\ answer Sample.rt save_note fk_failure
     = with_cors (sendResponse 500
         (err "Error saving note: Validation failed. Content or User ID does not exist. (Foreign Key Check Failed)"))
  /\ answer Sample.rt save_draft_99 fk_failure
     = with_cors (sendResponse 500 (err "Failed to save reflection"))
  /\ answer Sample.rt submit_99 fk_failure
     = with_cors (sendResponse 500 (err "Failed to submit reflection")).
Proof. repeat split; reflexivity. Qed.

(* ================================================================== *)
(** ** The shape of error responses *)
(* ================================================================== *)

(** C8, as stated, fails: a file that does not exist under /uploads is
    answered 404 with the plain text "File Not Found". *)
Lemma error_envelope_counterexample :
  answer Sample.rt get_missing Sample.w0
  = with_cors (Responded (mkResponse 404 [("Content-Type", "text/plain")]
                            (BText "File Not Found")))
  /\ ~ enveloped (answer Sample.rt get_missing Sample.w0).
Proof.
  split; [reflexivity |].
  intros H. vm_compute in H.
  destruct H as [m Hm].
  - intros [_ H]. discriminate H.
  - discriminate Hm.
Qed.

Lemma upload_shape (rt : runtime) (segs : list string) (range : option string) :
  error_shape RUploads (serve_upload rt segs range).
Proof.
  unfold serve_upload.
  destruct (fs rt (upload_path rt segs)) as [node |].
  - destruct range as [r |]; [destruct (String.eqb r "") |];
      cbn [error_shape status]; left; unfold is_2xx; lia.
  - unfold file_not_found. shape_done.
Qed.

Lemma static_shape (rt : runtime) (segs : list string) :
  error_shape RStatic (serve_static rt segs).
Proof.
  unfold serve_static, read_file.
  repeat match goal with
         | |- context [match fs rt ?p with _ => _ end] =>
             destruct (fs rt p) as [[] |]
         end; unfold sendResponse; shape_done.
Qed.

Lemma handle_shape (rt : runtime) (req : request) (w : world) :
  error_shape (route_of req) (fst (handle rt req w)).
Proof.
  unfold handle.
  destruct (route_of req);
    try (cbn [ret fst]; first [apply upload_shape | apply static_shape]);
    unfold_handlers; crunch; shape_done.
Qed.

(** C8, amended.  Every response whose status is not 2xx carries a JSON
    object with a string [error], and nothing else in it but on the stats
    endpoint after a database error, with one exception: the 404 of a
    missing file under /uploads is the plain text "File Not Found". *)
Theorem error_envelope_except_uploads (rt : runtime) (req : request)
    (w : world) (r : response) :
  answer rt req w = Responded r ->
  ~ is_2xx (status r) ->
  (exists m, rbody r = BJson (err m))
  \/ (exists id, route_of req = RUsersStats id /\ status r = 500
                 /\ rbody r = BJson stats_fallback)
  \/ (route_of req = RUploads /\ status r = 404
      /\ rbody r = BText "File Not Found").
Proof.
  intros Ha Hne. unfold answer, server in Ha.
  destruct (String.eqb (req_method req) "OPTIONS").
  - cbn in Ha. inversion Ha; subst r. exfalso. apply Hne. unfold is_2xx. cbn. lia.
  - unfold bind, ret in Ha.
    pose proof (handle_shape rt req w) as Hs.
    destruct (handle rt req w) as [o w']. cbn [fst] in Ha, Hs.
    destruct o as [r0 |]; [| discriminate Ha].
    cbn in Ha. inversion Ha; subst r. cbn [status rbody] in *.
    cbn [error_shape] in Hs.
    destruct Hs as [H | [H | [H | (H1 & H2 & H3 & _)]]]; auto.
    contradiction.
Qed.

Lemma error_envelope_except_uploads_witness :
  answer Sample.rt unknown_route Sample.w0
  = Responded (mkResponse 404 (cors ++ [("Content-Type", "application/json")])
                 (BJson (err "Route not found")))
  /\ ~ is_2xx 404
  /\ ((exists m, BJson (err "Route not found") = BJson (err m))
      \/ (exists id, route_of unknown_route = RUsersStats id /\ 404 = 500
                     /\ BJson (err "Route not found") = BJson stats_fallback)
      \/ (route_of unknown_route = RUploads /\ 404 = 404
          /\ BJson (err "Route not found") = BText "File Not Found")).
Proof.
  assert (H : ~ is_2xx 404) by (unfold is_2xx; lia).
  split; [reflexivity |]. split; [exact H |].
  exact (error_envelope_except_uploads Sample.rt unknown_route Sample.w0
           (mkResponse 404 (cors ++ [("Content-Type", "application/json")])
              (BJson (err "Route not found"))) eq_refl H).
Defined.

(* ================================================================== *)
(** ** Paths that stay under their root *)
(* ================================================================== *)

Lemma normalize_acc_app (acc l1 l2 : list string) :
  normalize_acc acc (l1 ++ l2)
  = normalize_acc (List.rev (normalize_acc acc l1)) l2.
Proof.
  revert acc. induction l1 as [| seg r IH]; intros acc.
  - cbn. rewrite rev_involutive. reflexivity.
  - cbn [app normalize_acc].
    destruct (String.eqb seg "" || String.eqb seg "."); [apply IH |].
    destruct (String.eqb seg ".."); apply IH.
Qed.

Lemma normalize_acc_plain (acc l : list string) :
  forallb plain_segment acc = true ->
  forallb plain_segment (normalize_acc acc l) = true.
Proof.
  revert acc. induction l as [| seg r IH]; intros acc Hacc.
  - cbn. rewrite forallb_forall in *. intros x Hx. apply Hacc.
    apply in_rev. exact Hx.
  - cbn [normalize_acc].
    destruct (String.eqb seg "" || String.eqb seg ".") eqn:E1; [apply IH, Hacc |].
    destruct (String.eqb seg "..") eqn:E2.
    + apply IH. destruct acc as [| a acc']; [reflexivity |].
      cbn in Hacc. apply andb_true_iff in Hacc. apply Hacc.
    + apply IH. cbn [forallb]. rewrite Hacc. unfold plain_segment.
      rewrite E2, orb_false_r, E1. reflexivity.
Qed.

Lemma normalize_acc_no_dotdot (acc l : list string) :
  (forall s, In s l -> s <> "..") ->
  normalize_acc acc l = (List.rev acc ++ filter kept_segment l)%list.
Proof.
  revert acc. induction l as [| seg r IH]; intros acc H.
  - cbn. rewrite app_nil_r. reflexivity.
  - cbn [normalize_acc filter]. unfold kept_segment at 1.
    assert (Hr : forall s, In s r -> s <> "..") by (intros s Hs; apply H; right; exact Hs).
    destruct (String.eqb seg "" || String.eqb seg ".") eqn:E1; cbn [negb].
    + apply IH, Hr.
    + destruct (String.eqb_spec seg "..") as [E2 | _].
      * exfalso. apply (H seg); [left; reflexivity | exact E2].
      * rewrite (IH (seg :: acc) Hr). cbn [List.rev]. rewrite <- app_assoc.
        reflexivity.
Qed.

Lemma plain_is_kept (l : list string) :
  forallb plain_segment l = true -> filter kept_segment l = l.
Proof.
  induction l as [| s r IH]; [reflexivity |].
  cbn [forallb filter]. intros H. apply andb_true_iff in H. destruct H as [Hs Hr].
  assert (Hk : kept_segment s = true).
  { unfold plain_segment in Hs. unfold kept_segment.
    destruct (String.eqb s "" || String.eqb s "."); [discriminate Hs | reflexivity]. }
  rewrite Hk, (IH Hr). reflexivity.
Qed.

Lemma plain_no_dotdot (l : list string) :
  forallb plain_segment l = true -> forall s, In s l -> s <> "..".
Proof.
  intros H s Hs E. rewrite forallb_forall in H. specialize (H s Hs).
  subst s. discriminate H.
Qed.

(** Joining to a root that is itself the result of a join. *)
Lemma path_join_under (base rel0 rel : list string) :
  (forall s, In s rel -> s <> "..") ->
  path_join (path_join base rel0) rel
  = (path_join base rel0 ++ filter kept_segment rel)%list.
Proof.
  intros H. unfold path_join at 1.
  set (root := path_join base rel0).
  assert (Hp : forallb plain_segment root = true)
    by (apply normalize_acc_plain; reflexivity).
  rewrite normalize_acc_app.
  rewrite (normalize_acc_no_dotdot [] root (plain_no_dotdot root Hp)).
  cbn [List.rev app]. rewrite (plain_is_kept root Hp).
  rewrite (normalize_acc_no_dotdot (List.rev root) rel H), rev_involutive.
  reflexivity.
Qed.

(** X1.  A request path without a [..] segment is served from under the
    uploads root: the file read is at the root followed by the segments
    of the request that are neither empty nor [.]. *)
Theorem upload_path_stays_in_root (rt : runtime) (req : request) :
  (forall s, In s (pathSegments req) -> s <> "..") ->
  upload_path rt (pathSegments req)
  = (UPLOADS_DIR rt ++ filter kept_segment (List.tl (pathSegments req)))%list.
Proof.
  intros H. unfold upload_path, UPLOADS_DIR. apply path_join_under.
  intros s Hs. apply H. destruct (pathSegments req); [contradiction | right; exact Hs].
Qed.

Lemma upload_path_stays_in_root_witness :
  (forall s, In s (pathSegments (Sample.get "/uploads/./intro.mp4" None)) ->
             s <> "..")
  /\ upload_path Sample.rt (pathSegments (Sample.get "/uploads/./intro.mp4" None))
     = (UPLOADS_DIR Sample.rt
        ++ filter kept_segment
             (List.tl (pathSegments (Sample.get "/uploads/./intro.mp4" None))))%list.
Proof.
  assert (H : forall s, In s (pathSegments (Sample.get "/uploads/./intro.mp4" None)) ->
                        s <> "..").
  { intros s [<- | [<- | [<- | []]]]; discriminate. }
  split; [exact H |].
  exact (upload_path_stays_in_root Sample.rt
           (Sample.get "/uploads/./intro.mp4" None) H).
Defined.

(** The built frontend is served the same way: without a [..]
    segment the file looked up is under the frontend directory. *)
Lemma static_path_stays_in_root (rt : runtime) (segs : list string) :
  (forall s, In s segs -> s <> "..") ->
  path_join (FRONTEND_DIR rt) segs
  = (FRONTEND_DIR rt ++ filter kept_segment segs)%list.
Proof.
  intros H. unfold FRONTEND_DIR. apply path_join_under. exact H.
Qed.

(** X2.  The SPA fallback: a GET outside the API whose path has no [..]
    and names no file of the frontend directory is answered with
    index.html of that directory, as text/html, when that file exists. *)
Theorem spa_fallback (rt : runtime) (req : request) (w : world) (index : string) :
  route_of req = RStatic ->
  (forall s, In s (pathSegments req) -> s <> "..") ->
  (forall c, fs rt (FRONTEND_DIR rt ++ filter kept_segment (pathSegments req))%list
             <> Some (File c)) ->
  fs rt (FRONTEND_DIR rt ++ ["index.html"])%list = Some (File index) ->
  answer rt req w
  = with_cors (Responded (mkResponse 200 [("Content-Type", "text/html")]
                            (BBytes index)))
  /\ after rt req w = w.
Proof.
  intros Hr Hdd Hnone Hidx.
  assert (Hn : route_of req <> RNotFound) by (rewrite Hr; discriminate).
  destruct (answer_routed rt req w Hn) as [Ha Hw]. rewrite Ha, Hw.
  unfold handle. rewrite Hr. cbn [ret fst snd]. split; [| reflexivity].
  unfold serve_static. rewrite (static_path_stays_in_root rt _ Hdd).
  assert (Hi : path_join (FRONTEND_DIR rt) ["index.html"]
               = (FRONTEND_DIR rt ++ ["index.html"])%list).
  { rewrite static_path_stays_in_root; [reflexivity |].
    intros s [<- | []]. discriminate. }
  rewrite Hi.
  destruct (fs rt (FRONTEND_DIR rt ++ filter kept_segment (pathSegments req))%list)
    as [[c |] |] eqn:E.
  - exfalso. exact (Hnone c eq_refl).
  - rewrite Hidx. unfold read_file. rewrite Hidx. reflexivity.
  - rewrite Hidx. unfold read_file. rewrite Hidx. reflexivity.
Qed.

(* ================================================================== *)
(** ** Byte ranges *)
(* ================================================================== *)

Lemma substring_length (n m : nat) (s : string) :
  String.length (substring n m s) = Nat.min m (String.length s - n).
Proof.
  revert n m. induction s as [| c s IH]; intros n m.
  - destruct n, m; reflexivity.
  - destruct n as [| n].
    + destruct m as [| m]; [reflexivity |]. cbn. rewrite IH.
      rewrite Nat.sub_0_r. reflexivity.
    + cbn. apply IH.
Qed.

(** The response to a request with a range [a]-[b] on an existing file. *)
Lemma range_response (rt : runtime) (req : request) (w : world)
    (content r sa sb : string) (more : list string) (a b : Z) :
  route_of req = RUploads ->
  fs rt (upload_path rt (pathSegments req)) = Some (File content) ->
  req_range req = Some r -> r <> "" ->
  Str.split "-" (Str.removeFirst r "bytes=") = sa :: sb :: more ->
  sb <> "" ->
  parseInt_str sa = Num a -> parseInt_str sb = Num b ->
  0 <= a <= b ->
  answer rt req w
  = with_cors
      (Responded
         (mkResponse 206
            [("Content-Range",
              "bytes " ++ Str.of_Z a ++ "-" ++ Str.of_Z b ++ "/"
              ++ Str.of_Z (Z.of_nat (String.length content)));
             ("Accept-Ranges", "bytes");
             ("Content-Length", Str.of_Z (b - a + 1));
             ("Content-Type", mime_of (upload_path rt (pathSegments req)))]
            (BBytes (substring (Z.to_nat a) (Z.to_nat (b - a + 1)) content)))).
Proof.
  intros Hr Hfs Hrange Hne Hsplit Hsb Ha Hb Hab.
  assert (Hn : route_of req <> RNotFound) by (rewrite Hr; discriminate).
  destruct (answer_routed rt req w Hn) as [E _]. rewrite E.
  unfold handle. rewrite Hr. cbn [ret fst]. f_equal.
  unfold serve_upload. rewrite Hfs, Hrange.
  destruct (String.eqb_spec r "") as [-> | _]; [contradiction |].
  rewrite Hsplit. cbn [nth].
  destruct (String.eqb_spec sb "") as [-> | _]; [contradiction |].
  rewrite Ha, Hb. cbn [num_str num_sub1 read_span node_size].
  destruct (Z.leb_spec 0 a); [| lia].
  destruct (Z.leb_spec a b); [| lia]. reflexivity.
Qed.

(** X3.  A range that lies inside the file is answered 206 with exactly
    the bytes [a] to [b]: the body has [b - a + 1] bytes, the number the
    Content-Length header announces. *)
Theorem range_inside_file (rt : runtime) (req : request) (w : world)
    (content r sa sb : string) (more : list string) (a b : Z) :
  route_of req = RUploads ->
  fs rt (upload_path rt (pathSegments req)) = Some (File content) ->
  req_range req = Some r -> r <> "" ->
  Str.split "-" (Str.removeFirst r "bytes=") = sa :: sb :: more ->
  sb <> "" ->
  parseInt_str sa = Num a -> parseInt_str sb = Num b ->
  0 <= a <= b -> b < Z.of_nat (String.length content) ->
  exists bytes,
    out_status (answer rt req w) = Some 206
    /\ out_body (answer rt req w) = Some (BBytes bytes)
    /\ bytes = substring (Z.to_nat a) (Z.to_nat (b - a + 1)) content
    /\ Z.of_nat (String.length bytes) = b - a + 1.
Proof.
  intros Hr Hfs Hrange Hne Hsplit Hsb Ha Hb Hab Hlt.
  rewrite (range_response rt req w content r sa sb more a b
             Hr Hfs Hrange Hne Hsplit Hsb Ha Hb Hab).
  eexists. repeat split. rewrite substring_length. lia.
Qed.

Lemma range_inside_file_witness :
  exists bytes,
    out_status (answer Sample.rt (ranged "bytes=2-5") Sample.w0) = Some 206
    /\ out_body (answer Sample.rt (ranged "bytes=2-5") Sample.w0)
       = Some (BBytes bytes)
    /\ bytes = substring (Z.to_nat 2) (Z.to_nat (5 - 2 + 1)) "0123456789"
    /\ Z.of_nat (String.length bytes) = 5 - 2 + 1.
Proof.
  apply (range_inside_file Sample.rt (ranged "bytes=2-5") Sample.w0
           "0123456789" "bytes=2-5" "2" "5" [] 2 5);
    first [reflexivity | discriminate | lia].
Defined.



Lemma spa_fallback_witness :
  answer spa_rt (Sample.get "/dashboard" None) Sample.w0
  = with_cors (Responded (mkResponse 200 [("Content-Type", "text/html")]
                            (BBytes "<html></html>")))
  /\ after spa_rt (Sample.get "/dashboard" None) Sample.w0 = Sample.w0.
Proof.
  apply (spa_fallback spa_rt (Sample.get "/dashboard" None) Sample.w0
           "<html></html>").
  - reflexivity.
  - intros s [<- | []]. discriminate.
  - intros c. discriminate.
  - reflexivity.
Defined.

(* ================================================================== *)
(** ** What a request may change *)
(* ================================================================== *)

(** X5.  A GET request never changes a table, whatever its path, its
    headers and the answers of the database. *)
Theorem get_changes_nothing (rt : runtime) (req : request) (w : world) :
  req_method req = "GET" ->
  tables (after rt req w) = tables w.
Proof.
  intros Hm. unfold after, server. rewrite Hm.
  cbn [String.eqb Ascii.eqb Bool.eqb].
  unfold bind at 1. unfold ret at 1. unfold handle, route_of, dispatch.
  rewrite Hm. cbn [String.eqb Ascii.eqb Bool.eqb].
  rewrite ?andb_false_r. cbn [orb andb]. rewrite ?andb_false_r, ?andb_true_r.
  destruct w as [us sp ls cs ps ns rs lt fl].
  split_route; run_handlers; reflexivity.
Qed.

Lemma get_changes_nothing_witness :
  tables (after Sample.rt (Sample.get "/api/sprints" None)
            (set_faults [Some "ER_LOCK_DEADLOCK"] Sample.w0))
  = tables (set_faults [Some "ER_LOCK_DEADLOCK"] Sample.w0).
Proof.
  apply (get_changes_nothing Sample.rt (Sample.get "/api/sprints" None)).
  reflexivity.
Defined.

(** X6.  A request that fails authentication issues no query at all: the
    world afterwards, failures to come included, is the world before. *)
Theorem unauthenticated_issues_no_query (rt : runtime) (req : request)
    (w : world) :
  requires_auth (route_of req) = true ->
  authenticate (userId req) = false ->
  answer rt req w = with_cors unauthenticated /\ after rt req w = w.
Proof.
  intros Hr Ha.
  destruct (answer_routed rt req w (requires_auth_routed req Hr)) as [E1 E2].
  rewrite E1, E2. unfold handle.
  destruct (route_of req); try discriminate Hr;
    unfold authenticated, users_stats; rewrite Ha; split; reflexivity.
Qed.

Lemma unauthenticated_issues_no_query_witness :
  answer Sample.rt (Sample.send "POST" "/api/notes" (Some "0") JNull) Sample.w0
  = with_cors unauthenticated
  /\ after Sample.rt (Sample.send "POST" "/api/notes" (Some "0") JNull) Sample.w0
     = Sample.w0.
Proof.
  apply (unauthenticated_issues_no_query Sample.rt
           (Sample.send "POST" "/api/notes" (Some "0") JNull) Sample.w0);
    reflexivity.
Defined.

Lemma filter_untouched {A} (p : A -> bool) (l : list A) :
  existsb p l = false -> filter (fun x => negb (p x)) l = l.
Proof.
  induction l as [| x l IH]; [reflexivity |].
  cbn. destruct (p x); [discriminate |]. intros H. cbn. rewrite (IH H).
  reflexivity.
Qed.

(** X7.  Outside the activation of a sprint, a request that is not
    answered with a 2xx status (a 4xx, a 5xx, or no answer at all) leaves
    every table as it was: validation failures, refused callers, missing
    rows and database errors write nothing. *)
Theorem failure_changes_nothing (rt : runtime) (req : request) (w : world) :
  (forall id, route_of req <> RSprintsActive id) ->
  ~ succeeded (answer rt req w) ->
  tables (after rt req w) = tables w.
Proof.
  intros Hr. unfold answer, after, server.
  destruct (String.eqb (req_method req) "OPTIONS").
  - intros H. exfalso. apply H. cbn. unfold is_2xx. lia.
  - unfold bind at 1. unfold ret at 1. unfold handle.
    destruct w as [us sp ls cs ps ns rs lt fl].
    destruct (route_of req); try (exfalso; eapply Hr; reflexivity); clear Hr;
      unfold_handlers; unfold_statements; cbn; repeat run_step;
      intros H;
      first [ reflexivity
            | exfalso; apply H; cbn; unfold is_2xx; lia
            | match goal with
              | H0 : (count ?p ?l =? 0) = true |- _ =>
                  rewrite count_zero in H0; apply negb_true_iff in H0;
                  match goal with
                  | |- context [map ?f l] =>
                      replace (map f l) with l
                        by (symmetry; apply (map_untouched p); exact H0)
                  | |- context [filter ?f l] =>
                      replace (filter f l) with l
                        by (symmetry; apply (filter_untouched p); exact H0)
                  end
              end; reflexivity ].
Qed.

Lemma not_2xx_404 : ~ is_2xx 404.
Proof. unfold is_2xx. lia. Qed.

Lemma failure_changes_nothing_witness :
  out_status (answer Sample.rt delete_user_99 Sample.w0) = Some 404
  /\ tables (after Sample.rt delete_user_99 Sample.w0) = tables Sample.w0.
Proof.
  split; [reflexivity |].
  apply (failure_changes_nothing Sample.rt delete_user_99 Sample.w0).
  - intros id. discriminate.
  - exact not_2xx_404.
Defined.

(** X8.  The exception: activating a sprint that does not exist is
    answered 404 "Sprint not found", yet the first statement has run and
    no sprint is active any more. *)
Theorem activation_of_missing_sprint (rt : runtime) (req : request)
    (w : world) (sprintId : string) :
  route_of req = RSprintsActive sprintId ->
  truthy (request_flag req) = true ->
  faults w = [] ->
  existsb (fun s => s_id s =? sql_int sprintId) (sprints w) = false ->
  answer rt req w = with_cors (sendResponse 404 (err "Sprint not found"))
  /\ filter active (sprints (after rt req w)) = []
  /\ map s_id (sprints (after rt req w)) = map s_id (sprints w).
Proof.
  intros Hr Hflag Hf Hex.
  destruct (active_server rt req w sprintId Hr) as [Ha Hw]. rewrite Ha, Hw.
  clear Ha Hw. unfold request_flag in Hflag. unfold sprints_active.
  destruct (body_obj req) as [b |]; [| discriminate Hflag]. cbv zeta.
  rewrite Hflag.
  unfold updateActiveStatus, deactivate_others, update_active, bind, ret, query.
  destruct w as [us sp ls cs ps ns rs lt fl].
  cbn [faults] in Hf. subst fl. cbn [sprints] in Hex.
  cbn [faults set_sprints set_faults sprints fst snd users lessons categories
       progress notes reflections learning_time].
  rewrite count_zero.
  pose proof (existsb_id_deactivated (sql_int sprintId) sp) as Hd.
  unfold with_active in Hd. rewrite Hd, Hex.
  cbn [negb fst snd sprints set_sprints active_answer].
  split; [reflexivity |]. split.
  - exact (activate_only_others (sql_int sprintId) sp Hex).
  - rewrite !map_map. apply map_ext. intros s.
    destruct (s_id s =? sql_int sprintId) eqn:E; cbn [negb]; rewrite ?E;
      cbn [s_id]; rewrite ?E; reflexivity.
Qed.

Lemma activation_of_missing_sprint_witness :
  answer Sample.rt activate_99 Sample.w0
  = with_cors (sendResponse 404 (err "Sprint not found"))
  /\ filter active (sprints (after Sample.rt activate_99 Sample.w0)) = []
  /\ map s_id (sprints (after Sample.rt activate_99 Sample.w0))
     = map s_id (sprints Sample.w0).
Proof.
  apply (activation_of_missing_sprint Sample.rt activate_99 Sample.w0 "99");
    reflexivity.
Defined.

(* ================================================================== *)
(** ** Identifiers stay distinct *)
(* ================================================================== *)

Lemma fresh_id_above (ids : list Z) (x : Z) : In x ids -> x < fresh_id ids.
Proof.
  unfold fresh_id. induction ids as [| y ids IH]; [contradiction |].
  cbn [fold_right]. intros [-> | H]; [lia |]. specialize (IH H). lia.
Qed.

Lemma fresh_id_new (ids : list Z) : ~ In (fresh_id ids) ids.
Proof. intros H. apply fresh_id_above in H. lia. Qed.

Lemma NoDup_snoc {A} (l : list A) (x : A) :
  NoDup l -> ~ In x l -> NoDup (l ++ [x]).
Proof.
  intros Hl Hx. induction Hl as [| y l Hy Hl IH]; cbn.
  - constructor; [intros [] | constructor].
  - constructor.
    + intros Hin. apply in_app_or in Hin. destruct Hin as [Hin | [-> | []]].
      * contradiction.
      * apply Hx. left. reflexivity.
    + apply IH. intros Hin. apply Hx. right. exact Hin.
Qed.

(** A DELETE keeps the keys of a table distinct. *)
Lemma delete_keeps_keys {Row} (key : Row -> Z) (kept : Row -> bool)
    (rows : list Row) (Hkeys : NoDup (map key rows)) :
  NoDup (map key (filter kept rows)).
Proof.
  induction rows as [| r rows IH]; [exact Hkeys |].
  cbn [map filter] in *. inversion Hkeys as [| k ks Hnin Hnd]; subst.
  destruct (kept r); [| exact (IH Hnd)].
  cbn [map]. constructor; [| exact (IH Hnd)].
  intros Hin. apply Hnin. apply in_map_iff in Hin.
  destruct Hin as (z & Hz & Hin). apply filter_In in Hin.
  apply in_map_iff. exists z. tauto.
Qed.

(** X9.  Every request keeps the ids of the users, of the sprints and
    of the reflections distinct: an INSERT takes an id above all those of
    its table, an UPDATE never writes an id, a DELETE only removes rows. *)
Theorem ids_stay_distinct (rt : runtime) (req : request) (w : world) :
  distinct_ids w -> distinct_ids (after rt req w).
Proof.
  unfold distinct_ids. intros (Hu & Hs & Hr). unfold after, server.
  destruct (String.eqb (req_method req) "OPTIONS"); [auto |].
  unfold bind at 1. unfold ret at 1. unfold handle.
  destruct w as [us sp ls cs ps ns rs lt fl]. cbn [users sprints reflections] in *.
  destruct (route_of req);
    unfold_handlers; unfold_statements; unfold deactivate_others, update_active;
    pose (fresh := fresh_id);
    assert (Efresh : fresh = fresh_id) by reflexivity;
    change fresh_id with fresh; clearbody fresh;
    cbn; repeat run_step; subst fresh;
    (split; [| split]);
    first [ assumption
          | apply delete_keeps_keys; assumption
          | rewrite map_app; apply NoDup_snoc; [assumption | apply fresh_id_new]
          | repeat match goal with
                   | |- context [map ?k (map ?f ?l)] =>
                       replace (map k (map f l)) with (map k l)
                         by (symmetry; rewrite map_map; apply map_ext;
                             intros ?; cbn;
                             repeat match goal with
                                    | |- context [if ?c then _ else _] =>
                                        destruct c
                                    end; reflexivity)
                   end; assumption ].
Qed.

Lemma sample_ids : distinct_ids Sample.w0.
Proof.
  unfold distinct_ids. cbn. repeat split; repeat constructor; cbn;
    intuition discriminate.
Qed.

Lemma ids_stay_distinct_witness :
  distinct_ids Sample.w0
  /\ distinct_ids (after Sample.rt create_anonymous Sample.w0).
Proof.
  split; [exact sample_ids |].
  exact (ids_stay_distinct Sample.rt create_anonymous Sample.w0 sample_ids).
Defined.

(* ================================================================== *)
(** ** Rows of other users *)
(* ================================================================== *)

Lemma filter_update_other {A} (other same : A -> bool) (g : A -> A) (l : list A) :
  (forall x, same x = true -> other x = false /\ other (g x) = false) ->
  filter other (map (fun x => if same x then g x else x) l) = filter other l.
Proof.
  intros H. induction l as [| x l IH]; [reflexivity |].
  cbn [map filter]. destruct (same x) eqn:E.
  - destruct (H x E) as [H1 H2]. rewrite H1, H2. exact IH.
  - rewrite IH. reflexivity.
Qed.

Lemma filter_snoc_other {A} (other : A -> bool) (row : A) (l : list A) :
  other row = false -> filter other (l ++ [row]) = filter other l.
Proof.
  intros H. rewrite filter_app. cbn. rewrite H. apply app_nil_r.
Qed.

(** X10.  Saving progress, saving a note and saving, submitting or
    resubmitting a reflection write under the identity of the caller
    only: whatever the body, the path and the answers of the database,
    the rows of every other user in these three tables, and the users,
    sprints, lessons and categories, stay as they were. *)
Theorem writes_only_own_rows (rt : runtime) (req : request) (w : world) :
  owner_route (route_of req) = true ->
  others_reflections (uid_value (userId req)) (after rt req w)
  = others_reflections (uid_value (userId req)) w
  /\ others_notes (uid_value (userId req)) (after rt req w)
     = others_notes (uid_value (userId req)) w
  /\ others_progress (uid_value (userId req)) (after rt req w)
     = others_progress (uid_value (userId req)) w
  /\ users (after rt req w) = users w
  /\ sprints (after rt req w) = sprints w
  /\ lessons (after rt req w) = lessons w
  /\ categories (after rt req w) = categories w.
Proof.
  intros Hr.
  assert (Hn : route_of req <> RNotFound)
    by (intros E; rewrite E in Hr; discriminate Hr).
  destruct (answer_routed rt req w Hn) as [_ E]. rewrite E. clear E Hn.
  unfold handle, others_reflections, others_notes, others_progress.
  destruct w as [us sp ls cs ps ns rs lt fl].
  destruct (route_of req); try discriminate Hr; clear Hr;
    unfold_handlers; unfold_statements;
    pose (fresh := fresh_id);
    assert (Efresh : fresh = fresh_id) by reflexivity;
    change fresh_id with fresh; clearbody fresh;
    cbn; repeat run_step; subst fresh;
    repeat split;
    first [ reflexivity
          | apply filter_snoc_other; cbn; rewrite Z.eqb_refl; reflexivity
          | apply filter_update_other; intros x Hx; cbn in *;
            unfold reflection_of, note_of in Hx;
            repeat (apply andb_true_iff in Hx; destruct Hx as [Hx _]);
            rewrite ?Hx, ?Z.eqb_refl; split; reflexivity ].
Qed.

Lemma writes_only_own_rows_witness :
  others_reflections (uid_value (userId submit_as_2))
    (after Sample.rt submit_as_2 Sample.w0)
  = others_reflections (uid_value (userId submit_as_2)) Sample.w0
  /\ others_notes (uid_value (userId submit_as_2))
       (after Sample.rt submit_as_2 Sample.w0)
     = others_notes (uid_value (userId submit_as_2)) Sample.w0
  /\ others_progress (uid_value (userId submit_as_2))
       (after Sample.rt submit_as_2 Sample.w0)
     = others_progress (uid_value (userId submit_as_2)) Sample.w0
  /\ users (after Sample.rt submit_as_2 Sample.w0) = users Sample.w0
  /\ sprints (after Sample.rt submit_as_2 Sample.w0) = sprints Sample.w0
  /\ lessons (after Sample.rt submit_as_2 Sample.w0) = lessons Sample.w0
  /\ categories (after Sample.rt submit_as_2 Sample.w0) = categories Sample.w0.
Proof.
  apply (writes_only_own_rows Sample.rt submit_as_2 Sample.w0). reflexivity.
Defined.

(* ================================================================== *)
(** ** Stored values read back *)
(* ================================================================== *)

Lemma upserted_first {A} (same : A -> bool) (row : A) (l : list A) :
  same row = true ->
  exists rest, filter same (upserted same row l) = row :: rest.
Proof.
  intros Hrow. unfold upserted.
  destruct (existsb same l) eqn:E.
  - induction l as [| x l IH]; [discriminate E |].
    cbn [map filter]. destruct (same x) eqn:Ex.
    + rewrite Hrow. eexists. reflexivity.
    + rewrite Ex. apply IH. cbn in E. rewrite Ex in E. exact E.
  - exists []. induction l as [| x l IH].
    + cbn. rewrite Hrow. reflexivity.
    + cbn in E. destruct (same x) eqn:Ex; [discriminate E |].
      cbn [app filter]. rewrite Ex. exact (IH E).
Qed.

Lemma upserted_all {A} (same : A -> bool) (row : A) (l : list A) (x : A) :
  same row = true ->
  In x (upserted same row l) -> same x = true -> x = row.
Proof.
  intros Hrow. unfold upserted. destruct (existsb same l) eqn:E.
  - intros Hin Hx. apply in_map_iff in Hin. destruct Hin as (y & Hy & _).
    destruct (same y) eqn:Ey; [congruence |]. subst y. congruence.
  - intros Hin Hx. apply in_app_or in Hin. destruct Hin as [Hin | [<- | []]].
    + exfalso. assert (Ht : existsb same l = true)
        by (apply existsb_exists; exists x; auto). congruence.
    + reflexivity.
Qed.

Lemma note_of_refl (uid : Z) (ct cid : string) (text : json) :
  note_of uid ct cid (mkNote uid ct cid text) = true.
Proof.
  unfold note_of. cbn. rewrite Z.eqb_refl, !String.eqb_refl. reflexivity.
Qed.

Lemma notes_save_server (rt : runtime) (req : request) (w : world) (n : Z) :
  route_of req = RNotesSave -> userId req = Some (Num n) -> 0 < n ->
  server rt req w
  = (with_cors (fst (notes_save n req w)), snd (notes_save n req w)).
Proof.
  intros Hr Hu Hn.
  assert (H : route_of req <> RNotFound) by (rewrite Hr; discriminate).
  rewrite (server_handle rt req w (routed_not_options req H)).
  unfold handle. rewrite Hr. unfold authenticated.
  rewrite Hu, (authenticate_positive n Hn). reflexivity.
Qed.

Lemma notes_get_server (rt : runtime) (req : request) (w : world) (n : Z)
    (ct cid : string) :
  route_of req = RNotesGet ct cid -> userId req = Some (Num n) -> 0 < n ->
  server rt req w
  = (with_cors (fst (notes_get n ct cid w)), snd (notes_get n ct cid w)).
Proof.
  intros Hr Hu Hn.
  assert (H : route_of req <> RNotFound) by (rewrite Hr; discriminate).
  rewrite (server_handle rt req w (routed_not_options req H)).
  unfold handle. rewrite Hr. unfold authenticated.
  rewrite Hu, (authenticate_positive n Hn). reflexivity.
Qed.

Lemma notes_get_run (n : Z) (ct cid : string) (w : world) :
  faults w = [] ->
  notes_get n ct cid w
  = (sendResponse 200
       (JObj [("note_text",
               match select_note n ct cid w with
               | [] => JStr ""
               | x :: _ => n_note_text x
               end)]), w).
Proof.
  intros Hf. unfold notes_get, bind, query, reads, ret. rewrite Hf.
  destruct (select_note n ct cid w); reflexivity.
Qed.

Lemma notes_save_run (req : request) (w : world) (n : Z) (b cidv text : json)
    (ct cid : string) :
  body_obj req = Some b ->
  prop b "contentType" = Some (JStr ct) -> ct <> "" ->
  prop b "contentId" = Some cidv -> text_of (Some cidv) = Some cid ->
  prop b "noteText" = Some text ->
  faults w = [] ->
  notes_save n req w
  = (sendResponse 200 (msg "Note saved successfully"),
     set_notes (upserted (note_of n ct cid) (mkNote n ct cid text) (notes w)) w).
Proof.
  intros Hbo Hct Hne Hcid Htext Hnote Hf.
  unfold notes_save. rewrite Hbo. cbv zeta. rewrite Hct, Hcid, Hnote.
  cbn [truthy negb is_undefined orb].
  destruct (String.eqb_spec ct "") as [E | _]; [contradiction |].
  cbn [negb orb]. unfold bind, query, ret, upsert_note. rewrite Hf, Htext.
  cbn [text_of stored with_default]. unfold upserted.
  destruct (existsb (note_of n ct cid) (notes w)); reflexivity.
Qed.

(** X11.  Notes, the database answering: reading a note that was never
    saved is answered 200 with the empty text, not 404; after POST
    /api/notes the same caller reads back, under the same content type
    and id, the text that was sent, whatever was stored before. *)
Theorem note_read_back (rt : runtime) (reqS reqG : request) (w : world)
    (n : Z) (b cidv text : json) (ct cid : string) :
  route_of reqS = RNotesSave ->
  route_of reqG = RNotesGet ct cid ->
  userId reqS = Some (Num n) -> userId reqG = Some (Num n) -> 0 < n ->
  req_body reqS = Some b ->
  prop b "contentType" = Some (JStr ct) -> ct <> "" ->
  prop b "contentId" = Some cidv -> text_of (Some cidv) = Some cid ->
  prop b "noteText" = Some text ->
  faults w = [] ->
  (select_note n ct cid w = [] ->
     answer rt reqG w
     = with_cors (sendResponse 200 (JObj [("note_text", JStr "")])))
  /\ out_status (answer rt reqS w) = Some 200
  /\ answer rt reqG (after rt reqS w)
     = with_cors (sendResponse 200 (JObj [("note_text", text)])).
Proof.
  intros HrS HrG HuS HuG Hn Hb Hct Hne Hcid Htext Hnote Hf.
  unfold answer, after.
  rewrite (notes_save_server rt reqS w n HrS HuS Hn).
  rewrite !(notes_get_server rt reqG _ n ct cid HrG HuG Hn).
  cbn [fst snd].
  assert (Hbo : body_obj reqS = Some b).
  { apply body_obj_intro; [exact Hb |]. intros ->. discriminate Hct. }
  rewrite (notes_save_run reqS w n b cidv text ct cid Hbo Hct Hne Hcid Htext
             Hnote Hf).
  cbn [fst snd].
  split; [| split].
  - intros Hnone. rewrite (notes_get_run n ct cid w Hf), Hnone. reflexivity.
  - reflexivity.
  - rewrite notes_get_run by exact Hf. cbn [fst]. unfold select_note.
    cbn [notes set_notes].
    destruct (upserted_first (note_of n ct cid) (mkNote n ct cid text)
                (notes w) (note_of_refl n ct cid _)) as [rest Hrest].
    rewrite Hrest. reflexivity.
Qed.

Lemma note_read_back_witness :
  (select_note 3 "lesson" "7" Sample.w0 = [] ->
     answer Sample.rt get_note_3 Sample.w0
     = with_cors (sendResponse 200 (JObj [("note_text", JStr "")])))
  /\ out_status (answer Sample.rt save_note_3 Sample.w0) = Some 200
  /\ answer Sample.rt get_note_3 (after Sample.rt save_note_3 Sample.w0)
     = with_cors (sendResponse 200
                    (JObj [("note_text", JStr "remember the loop bound")])).
Proof.
  apply (note_read_back Sample.rt save_note_3 get_note_3 Sample.w0 3
           (JObj [("contentType", JStr "lesson"); ("contentId", JNum 7);
                  ("noteText", JStr "remember the loop bound")])
           (JNum 7) (JStr "remember the loop bound") "lesson" "7");
    first [reflexivity | discriminate | lia].
Defined.

Lemma progress_save_server (rt : runtime) (req : request) (w : world) (n : Z) :
  route_of req = RProgressSave -> userId req = Some (Num n) -> 0 < n ->
  server rt req w
  = (with_cors (fst (progress_save n req w)), snd (progress_save n req w)).
Proof.
  intros Hr Hu Hn.
  assert (H : route_of req <> RNotFound) by (rewrite Hr; discriminate).
  rewrite (server_handle rt req w (routed_not_options req H)).
  unfold handle. rewrite Hr. unfold authenticated.
  rewrite Hu, (authenticate_positive n Hn). reflexivity.
Qed.

Lemma progress_get_server (rt : runtime) (req : request) (w : world) (n : Z) :
  route_of req = RProgressGet -> userId req = Some (Num n) -> 0 < n ->
  server rt req w
  = (with_cors (fst (progress_get n w)), snd (progress_get n w)).
Proof.
  intros Hr Hu Hn.
  assert (H : route_of req <> RNotFound) by (rewrite Hr; discriminate).
  rewrite (server_handle rt req w (routed_not_options req H)).
  unfold handle. rewrite Hr. unfold authenticated.
  rewrite Hu, (authenticate_positive n Hn). reflexivity.
Qed.

Lemma progress_save_run (req : request) (w : world) (n k : Z)
    (b sidv pct flag : json) :
  body_obj req = Some b ->
  prop b "sprint_id" = Some sidv -> truthy (Some sidv) = true ->
  key_of (Some sidv) = Some k ->
  prop b "progress_percentage" = Some pct ->
  prop b "is_completed" = Some flag ->
  faults w = [] ->
  progress_save n req w
  = (sendResponse 200 (msg "Progress saved successfully"),
     set_progress
       (upserted (same_progress n k)
          (mkProgress n k pct (if truthy (Some flag) then 1 else 0))
          (progress w)) w).
Proof.
  intros Hbo Hsid Htr Hkey Hpct Hflag Hf.
  unfold progress_save. rewrite Hbo. cbv zeta. rewrite Hsid, Hpct, Hflag, Htr.
  cbn [negb orb is_undefined].
  unfold bind, query, ret, upsert_progress. rewrite Hf, Hkey.
  cbn [stored with_default]. unfold upserted.
  fold (same_progress n k).
  destruct (existsb (same_progress n k) (progress w)); reflexivity.
Qed.

(** X12.  Progress, the database answering: after POST /api/progress the
    caller's GET /api/progress lists the row that was sent under the key
    of the sprint, with the percentage as given and the completed flag as
    given (it is not derived from the percentage), and no other row of
    that sprint: the last write wins. *)
Theorem progress_read_back (rt : runtime) (reqS reqG : request) (w : world)
    (n k : Z) (b sidv pct flag : json) :
  route_of reqS = RProgressSave ->
  route_of reqG = RProgressGet ->
  userId reqS = Some (Num n) -> userId reqG = Some (Num n) -> 0 < n ->
  req_body reqS = Some b ->
  prop b "sprint_id" = Some sidv -> truthy (Some sidv) = true ->
  key_of (Some sidv) = Some k ->
  prop b "progress_percentage" = Some pct ->
  prop b "is_completed" = Some flag ->
  faults w = [] ->
  out_status (answer rt reqS w) = Some 200
  /\ exists rows row,
       answer rt reqG (after rt reqS w)
       = with_cors (sendResponse 200 (JObj (map progress_entry rows)))
       /\ In row rows
       /\ (forall p, In p rows -> p_sprint_id p = k -> p = row)
       /\ progress_entry row
          = ("dynamic-sprint-" ++ Str.of_Z k,
             JObj [("progress", pct);
                   ("completed", JBool (truthy (Some flag)))]).
Proof.
  intros HrS HrG HuS HuG Hn Hb Hsid Htr Hkey Hpct Hflag Hf.
  unfold answer, after.
  rewrite (progress_save_server rt reqS w n HrS HuS Hn).
  rewrite (progress_get_server rt reqG _ n HrG HuG Hn).
  assert (Hbo : body_obj reqS = Some b).
  { apply body_obj_intro; [exact Hb |]. intros ->. discriminate Hsid. }
  rewrite (progress_save_run reqS w n k b sidv pct flag Hbo Hsid Htr Hkey Hpct
             Hflag Hf).
  cbn [fst snd]. split; [reflexivity |].
  set (row := mkProgress n k pct (if truthy (Some flag) then 1 else 0)).
  assert (Hrow : same_progress n k row = true).
  { unfold same_progress, row. cbn. rewrite !Z.eqb_refl. reflexivity. }
  exists (select_progress n
            (set_progress (upserted (same_progress n k) row (progress w)) w)), row.
  split; [| split; [| split]].
  - unfold progress_get, bind, query, reads, ret.
    change (faults (set_progress (upserted (same_progress n k) row (progress w)) w))
      with (faults w).
    rewrite Hf. reflexivity.
  - unfold select_progress. cbn [progress set_progress].
    apply filter_In. split; [| unfold row; cbn; apply Z.eqb_refl].
    destruct (upserted_first (same_progress n k) row (progress w) Hrow)
      as [rest Hrest].
    assert (Hin : In row (filter (same_progress n k)
                            (upserted (same_progress n k) row (progress w))))
      by (rewrite Hrest; left; reflexivity).
    apply filter_In in Hin. apply Hin.
  - intros p Hp Hk. unfold select_progress in Hp. cbn [progress set_progress] in Hp.
    apply filter_In in Hp. destruct Hp as [Hin Hu].
    apply (upserted_all (same_progress n k) row (progress w) p Hrow Hin).
    unfold same_progress. rewrite Hu. subst k. rewrite Z.eqb_refl. reflexivity.
  - unfold progress_entry, row. cbn [p_sprint_id p_progress_percentage p_is_completed].
    destruct (truthy (Some flag)); reflexivity.
Qed.

Lemma progress_read_back_witness :
  out_status (answer Sample.rt save_progress_3 Sample.w0) = Some 200
  /\ exists rows row,
       answer Sample.rt get_progress_3 (after Sample.rt save_progress_3 Sample.w0)
       = with_cors (sendResponse 200 (JObj (map progress_entry rows)))
       /\ In row rows
       /\ (forall p, In p rows -> p_sprint_id p = 2 -> p = row)
       /\ progress_entry row
          = ("dynamic-sprint-" ++ Str.of_Z 2,
             JObj [("progress", JNum 50);
                   ("completed", JBool (truthy (Some (JBool true))))]).
Proof.
  apply (progress_read_back Sample.rt save_progress_3 get_progress_3 Sample.w0
           3 2 half_done (JNum 2) (JNum 50) (JBool true));
    first [reflexivity | lia].
Defined.

Lemma filter_map_update {A} (p : A -> bool) (g : A -> A) (l : list A) :
  (forall x, p (g x) = p x) ->
  filter p (map (fun x => if p x then g x else x) l) = map g (filter p l).
Proof.
  intros Hg. induction l as [| x l IH]; [reflexivity |].
  cbn [map filter]. destruct (p x) eqn:E.
  - rewrite Hg, E. cbn [map]. rewrite IH. reflexivity.
  - rewrite E. exact IH.
Qed.

Lemma filter_nil_existsb {A} (p : A -> bool) (l : list A) :
  filter p l = [] -> existsb p l = false.
Proof.
  induction l as [| x l IH]; [reflexivity |].
  cbn. destruct (p x); [discriminate | exact IH].
Qed.

Lemma filter_cons_existsb {A} (p : A -> bool) (l : list A) (x : A)
    (rest : list A) :
  filter p l = x :: rest -> existsb p l = true.
Proof.
  intros H. apply existsb_exists. exists x.
  assert (Hin : In x (filter p l)) by (rewrite H; left; reflexivity).
  apply filter_In in Hin. exact Hin.
Qed.

Lemma draft_rows (rt : runtime) (uid lid : Z) (text : json)
    (l : list reflection_row) :
  map (fun r =>
         if reflection_of uid lid r
         then mkReflection (r_id r) uid lid text "draft" (r_score r)
                (r_admin_feedback r) (r_submitted_at r) (r_marked_at r)
                (r_created_at r) (now rt)
         else r) l
  = map (fun r => if reflection_of uid lid r then draft_row rt text r else r) l.
Proof.
  apply map_ext. intros r. destruct (reflection_of uid lid r) eqn:E;
    [| reflexivity].
  destruct (reflection_of_ids uid lid r E) as [<- <-]. reflexivity.
Qed.

Lemma reflection_save_run (rt : runtime) (req : request) (w : world) (n : Z)
    (lessonId : string) (text : json) :
  request_text req = Some text -> truthy (Some text) = true ->
  faults w = [] ->
  reflection_save rt n lessonId req w
  = (sendResponse 200 (msg "Reflection saved as draft"),
     set_reflections
       (if existsb (reflection_of n (sql_int lessonId)) (reflections w)
        then map (fun r => if reflection_of n (sql_int lessonId) r
                           then draft_row rt text r else r) (reflections w)
        else (reflections w
              ++ [first_draft rt w n (sql_int lessonId) text])%list) w).
Proof.
  intros Ht Htr Hf. destruct (request_text_body req _ Ht) as (b & Hb & Hp).
  unfold reflection_save. rewrite Hb. cbv zeta. rewrite Hp, Htr. cbn [negb].
  unfold bind, query, ret, upsert_draft. rewrite Hf.
  cbn [stored with_default].
  destruct (existsb (reflection_of n (sql_int lessonId)) (reflections w)).
  - rewrite draft_rows. reflexivity.
  - reflexivity.
Qed.

Lemma reflection_get_run (n : Z) (lessonId : string) (w : world) :
  faults w = [] ->
  reflection_get n lessonId w
  = (sendResponse 200
       match select_reflection n (sql_int lessonId) w with
       | [] => empty_draft
       | row :: _ => reflection_json row
       end, w).
Proof.
  intros Hf. unfold reflection_get, bind, query, reads, ret. rewrite Hf.
  destruct (select_reflection n (sql_int lessonId) w); reflexivity.
Qed.

Lemma reflection_save_server (rt : runtime) (req : request) (w : world)
    (n : Z) (lessonId : string) :
  route_of req = RReflectionSave lessonId ->
  userId req = Some (Num n) -> 0 < n ->
  server rt req w
  = (with_cors (fst (reflection_save rt n lessonId req w)),
     snd (reflection_save rt n lessonId req w)).
Proof.
  intros Hr Hu Hn.
  assert (H : route_of req <> RNotFound) by (rewrite Hr; discriminate).
  rewrite (server_handle rt req w (routed_not_options req H)).
  unfold handle. rewrite Hr. unfold authenticated.
  rewrite Hu, (authenticate_positive n Hn). reflexivity.
Qed.

Lemma reflection_get_server (rt : runtime) (req : request) (w : world)
    (n : Z) (lessonId : string) :
  route_of req = RReflectionGet lessonId ->
  userId req = Some (Num n) -> 0 < n ->
  server rt req w
  = (with_cors (fst (reflection_get n lessonId w)),
     snd (reflection_get n lessonId w)).
Proof.
  intros Hr Hu Hn.
  assert (H : route_of req <> RNotFound) by (rewrite Hr; discriminate).
  rewrite (server_handle rt req w (routed_not_options req H)).
  unfold handle. rewrite Hr. unfold authenticated.
  rewrite Hu, (authenticate_positive n Hn). reflexivity.
Qed.

(** X13.  Saving a draft, the database answering: before any write the
    caller reads the empty draft; after POST .../reflection the caller
    reads a row with the status 'draft' and the text sent.  When a row
    existed, in whatever state, it is that row with only the text, the
    status and [updated_at] changed: a marked reflection saved again as a
    draft keeps its score, its feedback and its dates. *)
Theorem draft_read_back (rt : runtime) (reqS reqG : request) (w : world)
    (n : Z) (lessonId : string) (text : json) :
  route_of reqS = RReflectionSave lessonId ->
  route_of reqG = RReflectionGet lessonId ->
  userId reqS = Some (Num n) -> userId reqG = Some (Num n) -> 0 < n ->
  request_text reqS = Some text -> truthy (Some text) = true ->
  faults w = [] ->
  (select_reflection n (sql_int lessonId) w = [] ->
     answer rt reqG w = with_cors (sendResponse 200 empty_draft))
  /\ out_status (answer rt reqS w) = Some 200
  /\ exists row,
       answer rt reqG (after rt reqS w)
       = with_cors (sendResponse 200 (reflection_json row))
       /\ r_status row = "draft"
       /\ r_reflection_text row = text
       /\ match select_reflection n (sql_int lessonId) w with
          | [] => row = first_draft rt w n (sql_int lessonId) text
          | old :: _ => row = draft_row rt text old
          end.
Proof.
  intros HrS HrG HuS HuG Hn Ht Htr Hf.
  unfold answer, after.
  rewrite (reflection_save_server rt reqS w n lessonId HrS HuS Hn).
  rewrite !(reflection_get_server rt reqG _ n lessonId HrG HuG Hn).
  rewrite (reflection_save_run rt reqS w n lessonId text Ht Htr Hf).
  cbn [fst snd]. split; [| split; [reflexivity |]].
  - intros Hnone. rewrite (reflection_get_run n lessonId w Hf), Hnone.
    reflexivity.
  - rewrite reflection_get_run by exact Hf. cbn [fst].
    unfold select_reflection. cbn [reflections set_reflections].
    destruct (filter (reflection_of n (sql_int lessonId)) (reflections w))
      as [| old rest] eqn:E.
    + rewrite (filter_nil_existsb _ _ E), filter_app, E. cbn [app filter].
      rewrite (reflection_of_refl n (sql_int lessonId)
                 (first_draft rt w n (sql_int lessonId) text) eq_refl eq_refl).
      eexists. repeat split; reflexivity.
    + rewrite (filter_cons_existsb _ _ _ _ E).
      rewrite (filter_map_update (reflection_of n (sql_int lessonId))
                 (draft_row rt text) (reflections w)) by reflexivity.
      rewrite E. cbn [map]. eexists. repeat split; reflexivity.
Qed.

Lemma draft_read_back_witness :
  exists row,
    answer Sample.rt get_reflection_3 (after Sample.rt save_draft_3 Sample.w0)
    = with_cors (sendResponse 200 (reflection_json row))
    /\ r_status row = "draft"
    /\ r_reflection_text row = JStr "second thoughts"
    /\ match select_reflection 3 (sql_int "7") Sample.w0 with
       | [] => row = first_draft Sample.rt Sample.w0 3 (sql_int "7")
                       (JStr "second thoughts")
       | old :: _ => row = draft_row Sample.rt (JStr "second thoughts") old
       end.
Proof.
  destruct (draft_read_back Sample.rt save_draft_3 get_reflection_3 Sample.w0
              3 "7" (JStr "second thoughts") eq_refl eq_refl eq_refl eq_refl
              eq_refl eq_refl eq_refl eq_refl) as (_ & _ & H).
  exact H.
Defined.

(* ================================================================== *)
(** ** Accounts: signup, login, roles, deletion, statistics *)
(* ================================================================== *)

Lemma unrouted_server (rt : runtime) (req : request) (w : world) (r : route) :
  route_of req = r -> r <> RNotFound ->
  server rt req w = (with_cors (fst (handle rt req w)), snd (handle rt req w)).
Proof.
  intros Hr Hn. apply server_handle. apply routed_not_options.
  rewrite Hr. exact Hn.
Qed.

Lemma signup_run (rt : runtime) (req : request) (w : world) (b name : json)
    (e p : string) :
  body_obj req = Some b ->
  prop b "name" = Some name -> truthy (Some name) = true ->
  prop b "email" = Some (JStr e) -> e <> "" ->
  prop b "password" = Some (JStr p) -> p <> "" ->
  faults w = [] ->
  signup rt req w
  = match select_by_email (Some (JStr e)) w with
    | [] => (sendResponse 201 (msg "Signup successful"),
             set_users (users w ++ [signed_up rt w name e p]) w)
    | _ :: _ => (sendResponse 400 (err "Email already exists"), w)
    end.
Proof.
  intros Hb Hname Htr He Hne Hp Hpe Hf.
  unfold signup. rewrite Hb. cbv zeta. rewrite Hname, He, Hp, Htr.
  cbn [truthy negb orb].
  destruct (String.eqb_spec e "") as [E | _]; [contradiction |].
  destruct (String.eqb_spec p "") as [E | _]; [contradiction |].
  cbn [negb orb]. unfold bind, query, reads, ret, insert_user. rewrite Hf.
  destruct (select_by_email (Some (JStr e)) w); [| reflexivity].
  rewrite Hf. reflexivity.
Qed.

Lemma select_by_email_new (rt : runtime) (w : world) (name : json)
    (e p : string) :
  select_by_email (Some (JStr e)) w = [] ->
  select_by_email (Some (JStr e))
    (set_users (users w ++ [signed_up rt w name e p]) w)
  = [signed_up rt w name e p].
Proof.
  unfold select_by_email. cbn [users set_users]. intros H.
  rewrite filter_app, H. cbn. rewrite String.eqb_refl. reflexivity.
Qed.

(** X14.  Signup and login, the database answering.  A signup with an
    email that no user has inserts one user with the role 'user', the
    email as given and the bcrypt hash of the password, and is answered
    201.  Provided bcrypt accepts a password against its own hash, a
    login with the same email and password is then answered 200 with the
    id, name, email and role of that user.  A second signup with the same
    email is answered 400 and inserts nothing. *)
Theorem signup_then_login (rt : runtime) (reqS reqL : request) (w : world)
    (b bl name : json) (e p : string) :
  route_of reqS = RSignup -> route_of reqL = RLogin ->
  req_body reqS = Some b ->
  prop b "name" = Some name -> truthy (Some name) = true ->
  prop b "email" = Some (JStr e) -> e <> "" ->
  prop b "password" = Some (JStr p) -> p <> "" ->
  req_body reqL = Some bl ->
  prop bl "email" = Some (JStr e) -> prop bl "password" = Some (JStr p) ->
  select_by_email (Some (JStr e)) w = [] ->
  faults w = [] ->
  bcrypt_compare rt p (bcrypt_hash rt p) = true ->
  answer rt reqS w = with_cors (sendResponse 201 (msg "Signup successful"))
  /\ users (after rt reqS w) = (users w ++ [signed_up rt w name e p])%list
  /\ answer rt reqL (after rt reqS w)
     = with_cors
         (sendResponse 200
            (JObj [("message", JStr "Login successful");
                   ("user",
                    JObj [("id", JNum (fresh_id (map u_id (users w))));
                          ("name", name); ("email", JStr e);
                          ("role", JStr "user")])]))
  /\ answer rt reqS (after rt reqS w)
     = with_cors (sendResponse 400 (err "Email already exists"))
  /\ after rt reqS (after rt reqS w) = after rt reqS w.
Proof.
  intros HrS HrL Hb Hname Htr He Hne Hp Hpe Hbl Hle Hlp Hnew Hf Hbc.
  assert (HnS : RSignup <> RNotFound) by discriminate.
  assert (HnL : RLogin <> RNotFound) by discriminate.
  assert (Hbo : body_obj reqS = Some b).
  { apply body_obj_intro; [exact Hb |]. intros ->. discriminate Hname. }
  assert (Hblo : body_obj reqL = Some bl).
  { apply body_obj_intro; [exact Hbl |]. intros ->. discriminate Hle. }
  unfold answer, after.
  rewrite !(unrouted_server rt reqS _ RSignup HrS HnS).
  rewrite !(unrouted_server rt reqL _ RLogin HrL HnL).
  unfold handle. rewrite HrS, HrL.
  rewrite (signup_run rt reqS w b name e p Hbo Hname Htr He Hne Hp Hpe Hf), Hnew.
  cbn [fst snd].
  rewrite (signup_run rt reqS _ b name e p Hbo Hname Htr He Hne Hp Hpe)
    by exact Hf.
  rewrite (select_by_email_new rt w name e p Hnew). cbn [fst snd].
  split; [reflexivity |]. split; [reflexivity |].
  split; [| split; reflexivity].
  unfold login. rewrite Hblo. cbv zeta. rewrite Hle, Hlp.
  unfold bind, query, reads, ret.
  change (faults (set_users (users w ++ [signed_up rt w name e p]) w))
    with (faults w).
  rewrite Hf, (select_by_email_new rt w name e p Hnew).
  cbn [u_password signed_up]. rewrite Hbc. reflexivity.
Qed.

Lemma signup_then_login_witness :
  answer Sample.rt signup_carol Sample.w0
  = with_cors (sendResponse 201 (msg "Signup successful"))
  /\ users (after Sample.rt signup_carol Sample.w0)
     = (users Sample.w0
        ++ [signed_up Sample.rt Sample.w0 (JStr "Carol") "carol@example.org"
              "s3cret"])%list
  /\ answer Sample.rt login_carol (after Sample.rt signup_carol Sample.w0)
     = with_cors
         (sendResponse 200
            (JObj [("message", JStr "Login successful");
                   ("user",
                    JObj [("id", JNum (fresh_id (map u_id (users Sample.w0))));
                          ("name", JStr "Carol");
                          ("email", JStr "carol@example.org");
                          ("role", JStr "user")])]))
  /\ answer Sample.rt signup_carol (after Sample.rt signup_carol Sample.w0)
     = with_cors (sendResponse 400 (err "Email already exists"))
  /\ after Sample.rt signup_carol (after Sample.rt signup_carol Sample.w0)
     = after Sample.rt signup_carol Sample.w0.
Proof.
  apply (signup_then_login Sample.rt signup_carol login_carol Sample.w0
           carol carol (JStr "Carol") "carol@example.org" "s3cret");
    first [reflexivity | discriminate].
Defined.

Lemma users_role_run (req : request) (w : world) (id role : string) :
  request_role req = Some (JStr role) ->
  role = "admin" \/ role = "user" ->
  existsb (fun u => u_id u =? sql_int id) (users w) = true ->
  faults w = [] ->
  users_role id req w
  = (sendResponse 200 (JObj [("message", JStr "Role updated successfully");
                             ("newRole", JStr role)]),
     set_users
       (map (fun u => if u_id u =? sql_int id then with_role role u else u)
          (users w)) w).
Proof.
  intros Hrole Hval Hex Hf. unfold request_role in Hrole. unfold users_role.
  destruct (body_obj req) as [b |]; [| discriminate Hrole]. rewrite Hrole.
  assert (Hv : valid_role (Some (JStr role)) = Some role)
    by (destruct Hval as [-> | ->]; reflexivity).
  rewrite Hv. unfold bind, query, ret, update_role. rewrite Hf, count_zero, Hex.
  reflexivity.
Qed.

Lemma is_admin_after_role (w : world) (k : Z) (role : string) :
  existsb (fun u => u_id u =? k) (users w) = true ->
  is_admin
    (set_users (map (fun u => if u_id u =? k then with_role role u else u)
                  (users w)) w) k
  = String.eqb role "admin".
Proof.
  intros Hex. unfold is_admin, select_role. cbn [users set_users].
  rewrite (filter_map_update (fun u => u_id u =? k) (with_role role) (users w))
    by reflexivity.
  destruct (filter (fun u => u_id u =? k) (users w)) as [| u rest] eqn:E.
  - apply filter_nil_existsb in E. congruence.
  - reflexivity.
Qed.

(** X15.  PUT /api/users/:id/role, the database answering, sets the role
    of an existing user whoever sends it, with or without an X-User-Id
    header.  Afterwards the admin check of the grading endpoints follows
    the new role: with 'admin' the user's GET /api/reflections/submitted
    is answered 200, with 'user' it is answered 403. *)
Theorem role_update_moves_the_gate (rt : runtime) (reqP reqA : request)
    (w : world) (id role : string) (k : Z) :
  route_of reqP = RUsersRole id -> sql_int id = k ->
  request_role reqP = Some (JStr role) ->
  role = "admin" \/ role = "user" ->
  existsb (fun u => u_id u =? k) (users w) = true ->
  faults w = [] ->
  route_of reqA = RReflectionsSubmitted ->
  userId reqA = Some (Num k) -> 0 < k ->
  out_status (answer rt reqP w) = Some 200
  /\ is_admin (after rt reqP w) k = String.eqb role "admin"
  /\ out_status (answer rt reqA (after rt reqP w))
     = Some (if String.eqb role "admin" then 200 else 403).
Proof.
  intros HrP Hk Hrole Hval Hex Hf HrA Hu Hpos. subst k.
  assert (HnP : RUsersRole id <> RNotFound) by discriminate.
  assert (HnA : RReflectionsSubmitted <> RNotFound) by discriminate.
  unfold answer, after.
  rewrite !(unrouted_server rt reqP _ _ HrP HnP).
  rewrite !(unrouted_server rt reqA _ _ HrA HnA).
  unfold handle. rewrite HrP, HrA.
  rewrite (users_role_run reqP w id role Hrole Hval Hex Hf). cbn [fst snd].
  pose proof (is_admin_after_role w (sql_int id) role Hex) as Hadm.
  split; [reflexivity |]. split; [exact Hadm |].
  rewrite status_with_cors. unfold authenticated.
  rewrite Hu, (authenticate_positive _ Hpos). cbn [uid_value].
  unfold reflections_submitted.
  destruct (String.eqb role "admin") eqn:E.
  - rewrite authorizeAdmin_admits; [| exact Hadm | exact Hf].
    unfold bind, query, reads, ret.
    change (faults (set_users
              (map (fun u => if u_id u =? sql_int id then with_role role u else u)
                 (users w)) w)) with (faults w).
    rewrite Hf. reflexivity.
  - match goal with
    | |- context [authorizeAdmin ?n ?cb ?w'] =>
        destruct (authorizeAdmin_refuses w' n cb Hadm) as [H1 _]; rewrite H1
    end. reflexivity.
Qed.

Lemma role_update_moves_the_gate_witness :
  out_status (answer Sample.rt promote_anonymous Sample.w0) = Some 200
  /\ is_admin (after Sample.rt promote_anonymous Sample.w0) 3
     = String.eqb "admin" "admin"
  /\ out_status (answer Sample.rt submitted_as_3
                   (after Sample.rt promote_anonymous Sample.w0))
     = Some (if String.eqb "admin" "admin" then 200 else 403).
Proof.
  apply (role_update_moves_the_gate Sample.rt promote_anonymous submitted_as_3
           Sample.w0 "3" "admin" 3);
    first [reflexivity | left; reflexivity].
Defined.

Lemma users_delete_run (w : world) (id : string) :
  faults w = [] ->
  users_delete id w
  = if existsb (fun u => u_id u =? sql_int id) (users w)
    then (noContent,
          set_users (filter (fun u => negb (u_id u =? sql_int id)) (users w)) w)
    else (sendResponse 404 (err "User not found"), w).
Proof.
  intros Hf. unfold users_delete, bind, query, ret, delete_user.
  rewrite Hf, count_zero.
  destruct (existsb (fun u => u_id u =? sql_int id) (users w)) eqn:E;
    cbn [negb]; [reflexivity |].
  rewrite (filter_untouched _ _ E). destruct w; reflexivity.
Qed.

Lemma existsb_filter_out {A} (p : A -> bool) (l : list A) :
  existsb p (filter (fun x => negb (p x)) l) = false.
Proof.
  induction l as [| x l IH]; [reflexivity |].
  cbn [filter]. destruct (p x) eqn:E; cbn [negb]; [exact IH |].
  cbn [existsb]. rewrite E. exact IH.
Qed.

(** X16.  DELETE /api/users/:id, the database answering, on an existing
    user: the answer is 204, the rows with that id are gone and the other
    users are untouched; the deleted user no longer passes the admin
    check, and deleting again is answered 404. *)
Theorem deleted_user_is_gone (rt : runtime) (req : request) (w : world)
    (id : string) (k : Z) :
  route_of req = RUsersDelete id -> sql_int id = k ->
  existsb (fun u => u_id u =? k) (users w) = true ->
  faults w = [] ->
  answer rt req w = with_cors noContent
  /\ users (after rt req w) = filter (fun u => negb (u_id u =? k)) (users w)
  /\ (forall u, In u (users (after rt req w)) -> u_id u <> k)
  /\ is_admin (after rt req w) k = false
  /\ answer rt req (after rt req w)
     = with_cors (sendResponse 404 (err "User not found")).
Proof.
  intros Hr Hk Hex Hf. subst k.
  assert (Hn : RUsersDelete id <> RNotFound) by discriminate.
  unfold answer, after. rewrite !(unrouted_server rt req _ _ Hr Hn).
  unfold handle. rewrite Hr.
  rewrite (users_delete_run w id Hf), Hex. cbn [fst snd].
  rewrite users_delete_run by exact Hf. cbn [users set_users].
  rewrite existsb_filter_out. cbn [fst].
  split; [reflexivity |]. split; [reflexivity |].
  split; [| split; [| reflexivity]].
  - intros u Hin. apply filter_In in Hin. destruct Hin as [_ Hne].
    intros E. rewrite E, Z.eqb_refl in Hne. discriminate Hne.
  - apply not_admin_without_row. cbn [users set_users]. intros u Hin Hid.
    apply filter_In in Hin. destruct Hin as [_ Hne].
    rewrite Hid, Z.eqb_refl in Hne. discriminate Hne.
Qed.

Lemma deleted_user_is_gone_witness :
  answer Sample.rt delete_user_2 Sample.w0 = with_cors noContent
  /\ users (after Sample.rt delete_user_2 Sample.w0)
     = filter (fun u => negb (u_id u =? 2)) (users Sample.w0)
  /\ (forall u, In u (users (after Sample.rt delete_user_2 Sample.w0)) ->
                u_id u <> 2)
  /\ is_admin (after Sample.rt delete_user_2 Sample.w0) 2 = false
  /\ answer Sample.rt delete_user_2 (after Sample.rt delete_user_2 Sample.w0)
     = with_cors (sendResponse 404 (err "User not found")).
Proof.
  apply (deleted_user_is_gone Sample.rt delete_user_2 Sample.w0 "2" 2);
    reflexivity.
Defined.



(* ================================================================== *)
(** ** Listings: ORDER BY *)
(* ================================================================== *)

Lemma insert_by_perm {A} (le : A -> A -> bool) (x : A) (l : list A) :
  Permutation (insert_by le x l) (x :: l).
Proof.
  induction l as [| y l IH]; [apply Permutation_refl |].
  cbn [insert_by]. destruct (le x y); [apply Permutation_refl |].
  apply perm_trans with (y :: x :: l); [| apply perm_swap].
  apply perm_skip. exact IH.
Qed.

Lemma sort_by_perm {A} (le : A -> A -> bool) (l : list A) :
  Permutation (sort_by le l) l.
Proof.
  unfold sort_by. induction l as [| x l IH]; [apply perm_nil |].
  cbn [fold_right]. eapply perm_trans; [apply insert_by_perm |].
  apply perm_skip. exact IH.
Qed.

Lemma insert_by_sorted {A} (le : A -> A -> bool) (R : A -> A -> Prop)
    (x : A) (l : list A) :
  (forall a b, le a b = true -> R a b) ->
  (forall a b, le a b = false -> R b a) ->
  Sorted R l -> Sorted R (insert_by le x l).
Proof.
  intros Ht Hf Hs. induction Hs as [| y l Hs IH Hhd].
  - cbn. constructor; constructor.
  - cbn [insert_by]. destruct (le x y) eqn:E.
    + constructor; [constructor; assumption |]. constructor. exact (Ht _ _ E).
    + constructor; [exact IH |].
      destruct l as [| z l]; cbn [insert_by].
      * constructor. exact (Hf _ _ E).
      * destruct (le x z); constructor; [exact (Hf _ _ E) |].
        inversion Hhd; assumption.
Qed.

Lemma sort_by_sorted {A} (le : A -> A -> bool) (R : A -> A -> Prop)
    (l : list A) :
  (forall a b, le a b = true -> R a b) ->
  (forall a b, le a b = false -> R b a) ->
  Sorted R (sort_by le l).
Proof.
  intros Ht Hf. unfold sort_by. induction l as [| x l IH]; [constructor |].
  cbn [fold_right]. apply insert_by_sorted; assumption.
Qed.

(** X18.  GET /api/sprints, the database answering, lists every sprint
    of the table once, newest first, each with [is_active] as a boolean;
    it needs no X-User-Id header. *)
Theorem sprints_listing (rt : runtime) (req : request) (w : world) :
  route_of req = RSprintsList ->
  faults w = [] ->
  exists rows,
    answer rt req w = with_cors (sendResponse 200 (JArr (map sprint_json rows)))
    /\ Permutation rows (sprints w)
    /\ Sorted newer_first rows
    /\ after rt req w = w.
Proof.
  intros Hr Hf.
  assert (Hn : RSprintsList <> RNotFound) by discriminate.
  unfold answer, after. rewrite (unrouted_server rt req w _ Hr Hn).
  unfold handle. rewrite Hr. unfold sprints_list, bind, query, reads, ret.
  rewrite Hf. cbn [fst snd]. exists (select_sprints w).
  split; [reflexivity |]. split; [apply sort_by_perm |].
  split; [| reflexivity].
  apply sort_by_sorted; unfold newer_first; intros a b H.
  - apply Z.leb_le. exact H.
  - apply Z.leb_gt in H. lia.
Qed.

Lemma sprints_listing_witness :
  exists rows,
    answer Sample.rt (Sample.get "/api/sprints" None) Sample.w0
    = with_cors (sendResponse 200 (JArr (map sprint_json rows)))
    /\ Permutation rows (sprints Sample.w0)
    /\ Sorted newer_first rows
    /\ after Sample.rt (Sample.get "/api/sprints" None) Sample.w0 = Sample.w0.
Proof.
  apply (sprints_listing Sample.rt (Sample.get "/api/sprints" None) Sample.w0);
    reflexivity.
Defined.

(* ================================================================== *)
(** ** The grading queue *)
(* ================================================================== *)







(* ================================================================== *)
(** ** Active sprints outside the activation route *)
(* ================================================================== *)

Lemma filter_active_snoc (l : list sprint_row) (s : sprint_row) :
  s_is_active s = 0 ->
  filter active (l ++ [s]) = filter active l.
Proof.
  intros H. rewrite filter_app. cbn. unfold active at 2. rewrite H. cbn.
  apply app_nil_r.
Qed.

Lemma filter_filter_incl {A} (p q : A -> bool) (l : list A) (x : A) :
  In x (filter p (filter q l)) -> In x (filter p l).
Proof.
  intros H. apply filter_In in H. destruct H as [H Hp].
  apply filter_In in H. apply filter_In. tauto.
Qed.

Lemma filter_filter_length {A} (p q : A -> bool) (l : list A) :
  (List.length (filter p (filter q l)) <= List.length (filter p l))%nat.
Proof.
  induction l as [| x l IH]; [apply Nat.le_refl |].
  cbn [filter]. destruct (q x); cbn [filter]; destruct (p x); cbn [List.length];
    lia.
Qed.

(** X21.  Only PUT /api/sprints/:id/active can make a sprint active: after
    any other request the active sprints are active sprints of before (a
    created sprint is inactive, a deletion only removes rows), so their
    number has not grown and "at most one active sprint" is kept. *)
Theorem only_activation_activates (rt : runtime) (req : request) (w : world) :
  (forall id, route_of req <> RSprintsActive id) ->
  (forall s, In s (filter active (sprints (after rt req w))) ->
             In s (filter active (sprints w)))
  /\ (at_most_one_active w -> at_most_one_active (after rt req w)).
Proof.
  intros Hr.
  assert (Hlen : (List.length (filter active (sprints (after rt req w)))
                  <= List.length (filter active (sprints w)))%nat
                 /\ forall s, In s (filter active (sprints (after rt req w))) ->
                              In s (filter active (sprints w))).
  { unfold after, server.
    destruct (String.eqb (req_method req) "OPTIONS"); [split; auto |].
    unfold bind at 1. unfold ret at 1. unfold handle.
    destruct w as [us sp ls cs ps ns rs lt fl]. cbn [sprints].
    destruct (route_of req); try (exfalso; eapply Hr; reflexivity); clear Hr;
      unfold_handlers; unfold_statements;
      pose (fresh := fresh_id);
      assert (Efresh : fresh = fresh_id) by reflexivity;
      change fresh_id with fresh; clearbody fresh;
      cbn; repeat run_step; subst fresh;
      first [ split; [apply Nat.le_refl | intros ? Hs; exact Hs]
            | rewrite filter_active_snoc by reflexivity;
              split; [apply Nat.le_refl | intros ? Hs; exact Hs]
            | split; [apply filter_filter_length | apply filter_filter_incl] ]. }
  destruct Hlen as [Hlen Hin]. split; [exact Hin |].
  unfold at_most_one_active. intros H. lia.
Qed.

Lemma only_activation_activates_witness :
  (forall s, In s (filter active (sprints (after Sample.rt create_anonymous Sample.w0))) ->
             In s (filter active (sprints Sample.w0)))
  /\ (at_most_one_active Sample.w0 ->
      at_most_one_active (after Sample.rt create_anonymous Sample.w0)).
Proof.
  apply (only_activation_activates Sample.rt create_anonymous Sample.w0).
  intros id. discriminate.
Defined.

(* ================================================================== *)
(** ** How the path of a request is read *)
(* ================================================================== *)

Lemma chars_of_chars (l : list ascii) : Str.chars (Str.of_chars l) = l.
Proof. apply list_ascii_of_string_of_list_ascii. Qed.

Lemma of_chars_chars (s : string) : Str.of_chars (Str.chars s) = s.
Proof. apply string_of_list_ascii_of_string. Qed.

Lemma lower_char_slash (c : ascii) :
  Str.is_slash (Str.lower_char c) = Str.is_slash c.
Proof. destruct c as [[] [] [] [] [] [] [] []]; reflexivity. Qed.

Lemma lower_char_idem (c : ascii) :
  Str.lower_char (Str.lower_char c) = Str.lower_char c.
Proof. destruct c as [[] [] [] [] [] [] [] []]; reflexivity. Qed.

Lemma drop_while_lower (l : list ascii) :
  Str.drop_while Str.is_slash (map Str.lower_char l)
  = map Str.lower_char (Str.drop_while Str.is_slash l).
Proof.
  induction l as [| c l IH]; [reflexivity |].
  cbn [map Str.drop_while]. rewrite lower_char_slash.
  destruct (Str.is_slash c); [exact IH | reflexivity].
Qed.

Lemma drop_while_end_lower (l : list ascii) :
  Str.drop_while_end Str.is_slash (map Str.lower_char l)
  = map Str.lower_char (Str.drop_while_end Str.is_slash l).
Proof.
  unfold Str.drop_while_end.
  rewrite <- map_rev, drop_while_lower, map_rev. reflexivity.
Qed.

Lemma toLowerCase_idem (s : string) :
  Str.toLowerCase (Str.toLowerCase s) = Str.toLowerCase s.
Proof.
  unfold Str.toLowerCase. rewrite chars_of_chars, map_map.
  f_equal. apply map_ext. intros c. apply lower_char_idem.
Qed.

Lemma strip_slashes_lower (s : string) :
  Str.strip_slashes (Str.toLowerCase s)
  = Str.toLowerCase (Str.strip_slashes s).
Proof.
  unfold Str.strip_slashes, Str.toLowerCase.
  rewrite !chars_of_chars, drop_while_lower, drop_while_end_lower.
  reflexivity.
Qed.

Lemma chars_append (a b : string) :
  Str.chars (a ++ b) = (Str.chars a ++ Str.chars b)%list.
Proof.
  unfold Str.chars. induction a as [| c a IH]; [reflexivity |].
  cbn. rewrite IH. reflexivity.
Qed.

Lemma drop_while_snoc (l : list ascii) (c : ascii) :
  Str.is_slash c = true ->
  Str.drop_while Str.is_slash (l ++ [c])
  = match Str.drop_while Str.is_slash l with
    | [] => []
    | d => (d ++ [c])%list
    end.
Proof.
  intros Hc. induction l as [| x l IH]; cbn [app Str.drop_while].
  - rewrite Hc. reflexivity.
  - destruct (Str.is_slash x); [exact IH | reflexivity].
Qed.

Lemma strip_slashes_leading (s : string) :
  Str.strip_slashes ("/" ++ s) = Str.strip_slashes s.
Proof. reflexivity. Qed.

Lemma strip_slashes_trailing (s : string) :
  Str.strip_slashes (s ++ "/") = Str.strip_slashes s.
Proof.
  unfold Str.strip_slashes. rewrite chars_append.
  change (Str.chars "/") with ["/"%char].
  rewrite (drop_while_snoc (Str.chars s) "/"%char eq_refl).
  destruct (Str.drop_while Str.is_slash (Str.chars s)) as [| d ds] eqn:E;
    [reflexivity |].
  unfold Str.drop_while_end. rewrite rev_app_distr. reflexivity.
Qed.

(** The handlers read the path of a request through [pathUrl] only. *)
Lemma server_reads_pathUrl (rt : runtime) (req : request) (p : string) :
  Str.toLowerCase (Str.strip_slashes p) = pathUrl req ->
  server rt (with_pathname p req) = server rt req.
Proof.
  intros H. destruct req as [m q u r b].
  unfold server, handle, route_of, pathSegments, pathUrl, with_pathname in *.
  cbn [req_method req_pathname req_x_user_id req_range req_body] in *.
  rewrite H. unfold userId.
  cbn [req_method req_pathname req_x_user_id req_range req_body].
  destruct (String.eqb m "OPTIONS"); [reflexivity |].
  destruct (dispatch m _ _); reflexivity.
Qed.

(** X22.  Paths are read without their case and without their leading
    and trailing slashes: a request whose path is put in lower case, or
    given one more slash in front or behind, gets the same answer and has
    the same effect. *)
Theorem paths_are_case_and_slash_blind (rt : runtime) (req : request)
    (w : world) :
  server rt (with_pathname (Str.toLowerCase (req_pathname req)) req) w
  = server rt req w
  /\ server rt (with_pathname ("/" ++ req_pathname req) req) w = server rt req w
  /\ server rt (with_pathname (req_pathname req ++ "/") req) w = server rt req w.
Proof.
  split; [| split].
  - rewrite server_reads_pathUrl; [reflexivity |].
    unfold pathUrl. rewrite strip_slashes_lower. apply toLowerCase_idem.
  - rewrite server_reads_pathUrl; [reflexivity |].
    unfold pathUrl. rewrite strip_slashes_leading. reflexivity.
  - rewrite server_reads_pathUrl; [reflexivity |].
    unfold pathUrl. rewrite strip_slashes_trailing. reflexivity.
Qed.

Lemma toLowerCase_of_chars (l : list ascii) :
  Str.toLowerCase (Str.of_chars l) = Str.of_chars (map Str.lower_char l).
Proof. unfold Str.toLowerCase. rewrite chars_of_chars. reflexivity. Qed.

Lemma split_chars_lower (cur l : list ascii) :
  Str.split_chars "/" (map Str.lower_char cur) (map Str.lower_char l)
  = map Str.toLowerCase (Str.split_chars "/" cur l).
Proof.
  revert cur. induction l as [| c l IH]; intros cur; cbn [map Str.split_chars].
  - rewrite toLowerCase_of_chars, map_rev. reflexivity.
  - change (Ascii.eqb (Str.lower_char c) "/") with (Str.is_slash (Str.lower_char c)).
    change (Ascii.eqb c "/") with (Str.is_slash c).
    rewrite lower_char_slash. destruct (Str.is_slash c).
    + cbn [map]. rewrite toLowerCase_of_chars, map_rev.
      rewrite <- (IH []). reflexivity.
    + rewrite <- (IH (c :: cur)). reflexivity.
Qed.

Lemma pathSegments_lower (req : request) :
  Forall (fun s => Str.toLowerCase s = s) (pathSegments req).
Proof.
  unfold pathSegments, pathUrl, Str.split, Str.toLowerCase.
  rewrite chars_of_chars.
  change (Forall (fun s => Str.of_chars (map Str.lower_char (Str.chars s)) = s)
            (Str.split_chars "/" (map Str.lower_char [])
               (map Str.lower_char
                  (Str.chars (Str.strip_slashes (req_pathname req)))))).
  rewrite split_chars_lower.
  apply Forall_forall. intros s Hs. apply in_map_iff in Hs.
  destruct Hs as (x & <- & _). apply toLowerCase_idem.
Qed.

(** X23.  The file of an upload is looked up under its name in lower
    case: for a request path without a [..] segment, the path read under
    the uploads root has no segment with an upper-case letter, so a file
    stored under such a name is never the one served. *)
Theorem upload_lookup_is_lower_case (rt : runtime) (req : request)
    (name : list string) :
  (forall s, In s (pathSegments req) -> s <> "..") ->
  upload_path rt (pathSegments req) = (UPLOADS_DIR rt ++ name)%list ->
  Forall (fun s => Str.toLowerCase s = s) name.
Proof.
  intros Hdots E. unfold upload_path, UPLOADS_DIR in E.
  rewrite path_join_under in E.
  - apply app_inv_head in E. subst name.
    apply Forall_forall. intros s Hs. apply filter_In in Hs.
    destruct Hs as [Hs _].
    assert (Hin : In s (pathSegments req))
      by (destruct (pathSegments req); [contradiction | right; exact Hs]).
    exact (proj1 (Forall_forall _ _) (pathSegments_lower req) s Hin).
  - intros s Hs. apply Hdots.
    destruct (pathSegments req); [contradiction | right; exact Hs].
Qed.

Lemma upload_lookup_is_lower_case_witness :
  upload_path Sample.rt (pathSegments get_Intro_MP4)
  = (UPLOADS_DIR Sample.rt ++ ["intro.mp4"])%list
  /\ Forall (fun s => Str.toLowerCase s = s) ["intro.mp4"].
Proof.
  split; [reflexivity |].
  apply (upload_lookup_is_lower_case Sample.rt get_Intro_MP4 ["intro.mp4"]).
  - intros s [<- | [<- | []]]; discriminate.
  - reflexivity.
Defined.

(* ================================================================== *)
(** ** Updating a lesson *)
(* ================================================================== *)

Lemma fold_update_fields (payload : json) (l : lesson_row) :
  fold_left set_field (update_fields payload) l = updated_lesson payload l.
Proof.
  unfold update_fields, allowedFields, updated_lesson, sent.
  cbn [app flat_map].
  destruct (prop payload "title"), (prop payload "code_snippet"),
    (prop payload "description"), (prop payload "challenge"),
    (prop payload "reflection"), (prop payload "skill_category_id"),
    (prop payload "level"), (prop payload "skill_category");
    destruct l; reflexivity.
Qed.

Lemma lessons_update_run (req : request) (w : world) (lessonId : string)
    (b : json) :
  body_obj req = Some b ->
  faults w = [] ->
  out_status (fst (lessons_update lessonId req w))
  = Some (update_status b (sql_int lessonId) w)
  /\ lessons (snd (lessons_update lessonId req w))
     = map (fun l => if l_id l =? sql_int lessonId
                     then updated_lesson b l else l) (lessons w).
Proof.
  intros Hb Hf. unfold lessons_update, update_status. rewrite Hb.
  destruct (update_fields b) as [| f fs] eqn:E.
  - split; [reflexivity |]. cbn [ret snd].
    rewrite <- (map_id (lessons w)) at 1. apply map_ext. intros l.
    destruct (l_id l =? sql_int lessonId); [| reflexivity].
    rewrite <- fold_update_fields, E. reflexivity.
  - unfold bind, query, update_lesson, ret. rewrite Hf. cbn [fst snd].
    rewrite count_zero.
    destruct (existsb (fun l => l_id l =? sql_int lessonId) (lessons w));
      cbn [negb fst snd]; (split; [reflexivity |]);
      cbn [lessons set_lessons set_faults]; apply map_ext; intros l;
      rewrite <- E, fold_update_fields; reflexivity.
Qed.

(** X24.  PUT /api/lessons/:id, the body an object and the database
    answering, writes exactly the fields sent: in the lesson with that id
    every column named in the payload takes the value sent, every other
    column, the id and the creation date keep theirs, and no other lesson
    changes.  The answer is 400 when no field is sent, 404 when there is
    no such lesson, 200 otherwise. *)
Theorem lesson_update_writes_sent_fields (rt : runtime) (req : request)
    (w : world) (lessonId : string) (b : json) :
  route_of req = RLessonsUpdate lessonId ->
  req_body req = Some b -> b <> JNull ->
  faults w = [] ->
  out_status (answer rt req w) = Some (update_status b (sql_int lessonId) w)
  /\ lessons (after rt req w)
     = map (fun l => if l_id l =? sql_int lessonId
                     then updated_lesson b l else l) (lessons w).
Proof.
  intros Hr Hb Hnull Hf.
  assert (Hn : RLessonsUpdate lessonId <> RNotFound) by discriminate.
  unfold answer, after. rewrite (unrouted_server rt req w _ Hr Hn).
  cbn [fst snd]. rewrite status_with_cors. unfold handle. rewrite Hr.
  exact (lessons_update_run req w lessonId b (body_obj_intro req b Hb Hnull) Hf).
Qed.

Lemma lesson_update_writes_sent_fields_witness :
  out_status (answer Sample.rt retitle_7 Sample.w0) = Some 200
  /\ lessons (after Sample.rt retitle_7 Sample.w0)
     = [mkLesson 7 (JStr "Loops II") JNull (JStr "for and while") JNull JNull
          JNull JNull (JStr "beginner") 50].
Proof.
  assert (Hnull : JObj [("title", JStr "Loops II")] <> JNull) by discriminate.
  exact (lesson_update_writes_sent_fields Sample.rt retitle_7 Sample.w0 "7"
           (JObj [("title", JStr "Loops II")]) eq_refl eq_refl Hnull eq_refl).
Defined.

Lemma insert_by_map {A} (le : A -> A -> bool) (g : A -> A) (x : A)
    (l : list A) :
  (forall a b, le (g a) (g b) = le a b) ->
  insert_by le (g x) (map g l) = map g (insert_by le x l).
Proof.
  intros H. induction l as [| y l IH]; [reflexivity |].
  cbn [map insert_by]. rewrite H. destruct (le x y); [reflexivity |].
  cbn [map]. rewrite IH. reflexivity.
Qed.

Lemma sort_by_map {A} (le : A -> A -> bool) (g : A -> A) (l : list A) :
  (forall a b, le (g a) (g b) = le a b) ->
  sort_by le (map g l) = map g (sort_by le l).
Proof.
  intros H. unfold sort_by. induction l as [| x l IH]; [reflexivity |].
  cbn [map fold_right]. rewrite IH. apply insert_by_map. exact H.
Qed.

Lemma filter_map_same {A} (p : A -> bool) (g : A -> A) (l : list A) :
  (forall a, p (g a) = p a) ->
  filter p (map g l) = map g (filter p l).
Proof.
  intros H. induction l as [| x l IH]; [reflexivity |].
  cbn [map filter]. rewrite H. destruct (p x); cbn [map]; rewrite IH;
    reflexivity.
Qed.

Lemma flat_map_map {A B C} (f : B -> list C) (g : A -> B) (l : list A) :
  flat_map f (map g l) = flat_map (fun x => f (g x)) l.
Proof.
  induction l as [| x l IH]; [reflexivity |]. cbn. rewrite IH. reflexivity.
Qed.

Lemma relabelled_rows (b : json) (id : Z) (w w' : world) (l : lesson_row) :
  (forall f, In f allowedFields -> prop b f = None) ->
  categories w' = categories w ->
  lesson_rows w' (relabelled b id l) = lesson_rows w l.
Proof.
  intros H Hc. unfold relabelled.
  destruct (l_id l =? id); unfold lesson_rows; rewrite Hc; [| reflexivity].
  unfold updated_lesson, sent.
  rewrite (H "title"), (H "code_snippet"), (H "description"), (H "challenge"),
    (H "reflection"), (H "skill_category_id"), (H "level") by (cbn; tauto).
  reflexivity.
Qed.

Lemma relabelled_id (b : json) (id : Z) (l : lesson_row) :
  l_id (relabelled b id l) = l_id l.
Proof. unfold relabelled. destruct (l_id l =? id); reflexivity. Qed.

Lemma relabelled_created_at (b : json) (id : Z) (l : lesson_row) :
  l_created_at (relabelled b id l) = l_created_at l.
Proof. unfold relabelled. destruct (l_id l =? id); reflexivity. Qed.

(** X25.  The deprecated field [skill_category] of PUT /api/lessons/:id is
    stored in a column that no reading shows: an update that sends it, and
    none of the seven allowed fields, is answered 200 for an existing
    lesson, yet the list of the lessons and every single lesson read as
    before ([skill_category] there is the name of the category joined on
    [skill_category_id]). *)
Theorem deprecated_skill_category_is_not_shown (rt : runtime) (req : request)
    (w : world) (lessonId : string) (b v : json) :
  route_of req = RLessonsUpdate lessonId ->
  req_body req = Some b -> b <> JNull ->
  faults w = [] ->
  (forall f, In f allowedFields -> prop b f = None) ->
  prop b "skill_category" = Some v ->
  existsb (fun l => l_id l =? sql_int lessonId) (lessons w) = true ->
  out_status (answer rt req w) = Some 200
  /\ select_lessons (after rt req w) = select_lessons w
  /\ (forall id, select_lesson id (after rt req w) = select_lesson id w).
Proof.
  intros Hr Hb Hnull Hf Hnone Hv Hex.
  assert (Hn : RLessonsUpdate lessonId <> RNotFound) by discriminate.
  assert (Hc : categories (after rt req w) = categories w).
  { unfold after. rewrite (unrouted_server rt req w _ Hr Hn). cbn [snd].
    unfold handle. rewrite Hr. unfold lessons_update.
    rewrite (body_obj_intro req b Hb Hnull).
    destruct (update_fields b); [reflexivity |].
    unfold bind, query, update_lesson, ret. rewrite Hf. cbn [fst snd].
    destruct (count _ _ =? 0); reflexivity. }
  assert (Hrun : out_status (answer rt req w)
                 = Some (update_status b (sql_int lessonId) w)
                 /\ lessons (after rt req w)
                    = map (fun l => if l_id l =? sql_int lessonId
                                    then updated_lesson b l else l) (lessons w)).
  { unfold answer, after. rewrite (unrouted_server rt req w _ Hr Hn).
    cbn [fst snd]. rewrite status_with_cors. unfold handle. rewrite Hr.
    exact (lessons_update_run req w lessonId b
             (body_obj_intro req b Hb Hnull) Hf). }
  destruct Hrun as [Hs Hl].
  split; [| split].
  - rewrite Hs. unfold update_status, update_fields, allowedFields.
    cbn [app flat_map].
    rewrite (Hnone "title"), (Hnone "code_snippet"), (Hnone "description"),
      (Hnone "challenge"), (Hnone "reflection"), (Hnone "skill_category_id"),
      (Hnone "level") by (cbn; tauto).
    rewrite Hv. cbn [app]. rewrite Hex. reflexivity.
  - unfold select_lessons. rewrite Hl.
    change (fun l => if l_id l =? sql_int lessonId then updated_lesson b l else l)
      with (relabelled b (sql_int lessonId)).
    rewrite sort_by_map
      by (intros x y; rewrite !relabelled_created_at; reflexivity).
    rewrite flat_map_map. apply flat_map_ext. intros l.
    apply relabelled_rows; assumption.
  - intros id. unfold select_lesson. rewrite Hl.
    change (fun l => if l_id l =? sql_int lessonId then updated_lesson b l else l)
      with (relabelled b (sql_int lessonId)).
    rewrite filter_map_same by (intros x; rewrite relabelled_id; reflexivity).
    rewrite flat_map_map. apply flat_map_ext. intros l.
    apply relabelled_rows; assumption.
Qed.

Lemma relabel_7_allowed (f : string) :
  In f allowedFields ->
  prop (JObj [("skill_category", JStr "Control flow")]) f = None.
Proof.
  intros H. cbn in H. repeat (destruct H as [<- | H]; [reflexivity |]).
  contradiction.
Qed.

Lemma deprecated_skill_category_is_not_shown_witness :
  out_status (answer Sample.rt relabel_7 Sample.w0) = Some 200
  /\ select_lessons (after Sample.rt relabel_7 Sample.w0)
     = select_lessons Sample.w0
  /\ (forall id, select_lesson id (after Sample.rt relabel_7 Sample.w0)
                 = select_lesson id Sample.w0).
Proof.
  assert (Hnull : JObj [("skill_category", JStr "Control flow")] <> JNull)
    by discriminate.
  exact (deprecated_skill_category_is_not_shown Sample.rt relabel_7 Sample.w0
           "7" (JObj [("skill_category", JStr "Control flow")])
           (JStr "Control flow") eq_refl eq_refl Hnull eq_refl
           relabel_7_allowed eq_refl eq_refl).
Defined.
